(** * dataframe-js: a shallow embedding of [src/dataframe.js] and
      [src/modules/sql.js], and the properties of its specification.

    A [DataFrame] object owns a JavaScript array of [Row]s
    ([this[__rows__]]) and an array of column names
    ([this[__columns__]]).  The row array is a mutable object
    ([Array.prototype.sort] and [reverse] work in place), so row arrays
    live in a heap and a DataFrame holds a reference into it.  Methods
    are computations in a state-and-exception monad over that heap.
    The column array is never updated in place and is kept by value.

    Plug-in modules ([this.modules], [__instanciateModules__]) only
    attach helper objects to an instance; they do not take part in any
    operation modelled here and are left out. *)

From stdpp Require Import gmap strings list fin_maps.
From Stdlib Require Import ZArith Ascii Sorting.Sorted Sorting.Permutation.

(** ** JavaScript values stored in cells

    Numbers are restricted to the integers, on which JavaScript
    subtraction is exact. *)

Inductive Value : Type :=
  | VUndefined
  | VNull
  | VBool (b : bool)
  | VNum (n : Z)
  | VStr (s : string).

#[global] Instance Value_eq_dec : EqDecision Value.
Proof. solve_decision. Defined.

(** The [typeof] operator. *)
Definition typeof (v : Value) : string :=
  match v with
  | VUndefined => "undefined"
  | VNull => "object"
  | VBool _ => "boolean"
  | VNum _ => "number"
  | VStr _ => "string"
  end.

(** [s.replace(pattern, replacement)] with a string pattern: only the
    first occurrence of [pattern] is replaced. *)
Fixpoint String_replace (pattern replacement s : string) : string :=
  if String.prefix pattern s then
    replacement +:+ String.substring (String.length pattern)
                      (String.length s - String.length pattern) s
  else
    match s with
    | EmptyString => EmptyString
    | String c s' => String c (String_replace pattern replacement s')
    end.

(** [[...new Set(l)]]: the distinct elements in order of first appearance. *)
Fixpoint distinct_from {A} `{EqDecision A} (seen l : list A) : list A :=
  match l with
  | [] => []
  | x :: l' =>
      if bool_decide (x ∈ seen) then distinct_from seen l'
      else x :: distinct_from (x :: seen) l'
  end.

Definition distinct {A} `{EqDecision A} (l : list A) : list A :=
  distinct_from [] l.

(** ** Errors

    [InputTypeError], [WrongSchemaError], [MixedTypeError] and
    [TableAlreadyExistsError] are the classes imported from
    [errors.js]; [TypeError] is the built-in one (reducing an empty
    array without an initial value, reading a property of
    [undefined], calling something that is not a function). *)

Inductive Error : Type :=
  | InputTypeError
  | WrongSchemaError
  | MixedTypeError
  | TableAlreadyExistsError
  | TypeError.

Inductive Result (A : Type) : Type :=
  | Ok (a : A)
  | Throw (e : Error).
Arguments Ok {A} a.
Arguments Throw {A} e.

(** ** Rows *)

Module Row.

(** Modelled from the spec: the class [Row] ([row.js]) is not among
    the sources.  The specification describes a Row as an immutable
    ordered key-to-value record over a schema, a column that the input
    does not populate holding the explicit no-value sentinel
    ([undefined]); it is built from a positional array, from a named
    mapping or from another Row, and rebuilding a Row against new
    columns keeps the values of the columns present by name and fills
    the others with the sentinel. *)
Definition t : Type := list (string * Value).

(** Modelled from the spec: what a Row is built from, namely a
    positional array, a named mapping or another Row. *)
Inductive data : Type :=
  | Array (a : list Value)
  | Object (o : list (string * Value))
  | Instance (r : t).

(** Modelled from the spec: the value a named mapping holds for a key,
    if it holds one. *)
Fixpoint lookup (o : list (string * Value)) (column : string) : option Value :=
  match o with
  | [] => None
  | (c, v) :: o' => if bool_decide (c = column) then Some v else lookup o' column
  end.

(** Modelled from the spec: [get(column)]; a column the Row does not
    hold reads as the sentinel. *)
Definition get (r : t) (column : string) : Value :=
  default VUndefined (lookup r column).

(** Modelled from the spec: a Row over [columns] from a positional
    array; the columns past the end of the array hold the sentinel. *)
Fixpoint fromArray (a : list Value) (columns : list string) : t :=
  match columns with
  | [] => []
  | c :: cs => (c, hd VUndefined a) :: fromArray (tl a) cs
  end.

(** Modelled from the spec: a Row over [columns] from a named mapping
    (or from another Row): the values of the columns present by name
    are kept, the other columns hold the sentinel. *)
Definition fromObject (o : list (string * Value)) (columns : list string) : t :=
  List.map (fun c => (c, default VUndefined (lookup o c))) columns.

(** Modelled from the spec: [new Row(data, columns)]. *)
Definition new (d : data) (columns : list string) : t :=
  match d with
  | Array a => fromArray a columns
  | Object o => fromObject o columns
  | Instance r => fromObject r columns
  end.

(** Modelled from the spec: the schema of the Row. *)
Definition columns (r : t) : list string := List.map fst r.

(** Modelled from the spec: [toArray()], the values in schema order. *)
Definition toArray (r : t) : list Value := List.map snd r.

(** Modelled from the spec: [set(column, value)], a new Row in which
    [column] holds [value]; a column that the Row does not hold yet
    comes after the others. *)
Fixpoint set (r : t) (column : string) (value : Value) : t :=
  match r with
  | [] => [(column, value)]
  | (c, v) :: r' =>
      if bool_decide (c = column) then (c, value) :: r'
      else (c, v) :: set r' column value
  end.

(** Modelled from the spec: [delete(column)], a new Row without
    [column]. *)
Definition delete (r : t) (column : string) : t :=
  List.filter (fun entry => negb (bool_decide (entry.1 = column))) r.

(** Modelled from the spec: [select(columns...)], a new Row over the
    given columns, in the given order. *)
Definition select (r : t) (columnNames : list string) : t :=
  fromObject r columnNames.

End Row.

(** ** The heap of row arrays and the monad of methods *)

Abbreviation Heap := (list (list Row.t)).

Definition M (A : Type) : Type := Heap -> Result (A * Heap).

Definition ret {A} (a : A) : M A := fun h => Ok (a, h).

Definition bind {A B} (k : A -> M B) (m : M A) : M B :=
  fun h => match m h with
           | Ok (a, h') => k a h'
           | Throw e => Throw e
           end.

Definition throw {A} (e : Error) : M A := fun _ => Throw e.

#[global] Instance M_ret : MRet M := @ret.
#[global] Instance M_bind : MBind M := @bind.

(** [new Array]: a fresh array object holding [rows]. *)
Definition array_new (rows : list Row.t) : M nat :=
  fun h => Ok (length h, h ++ [rows]).

(** The elements of the array object [ref] (iteration, spread, [map]).
    Every reference that a constructor returns is an object of the
    heap; a reference outside the heap reads as the empty array. *)
Definition array_get (ref : nat) : M (list Row.t) :=
  fun h => Ok (h !!! ref, h).

(** Overwriting the elements of the array object [ref] in place. *)
Definition array_set (ref : nat) (rows : list Row.t) : M unit :=
  fun h => Ok (tt, <[ref := rows]> h).

(** [array.reduce(f)] without an initial value: the first element
    seeds the fold, and an empty array is a [TypeError]. *)
Fixpoint foldM {A B} (f : A -> B -> M A) (a : A) (l : list B) : M A :=
  match l with
  | [] => ret a
  | x :: l' => a' ← f a x; foldM f a' l'
  end.

Definition Array_reduce {A} (f : A -> A -> M A) (l : list A) : M A :=
  match l with
  | [] => throw TypeError
  | x :: l' => foldM f x l'
  end.

(** ** The helpers of [reusables.js] *)

Module Reusables.

(** Modelled from the spec: [arrayEqual] ([reusables.js]) is not among
    the sources.  The specification asks for identical schemas: the
    same names in the same order. *)
Definition arrayEqual (a b : list string) : bool := bool_decide (a = b).

(** Modelled from the spec: [iter] ([reusables.js]) is not among the
    sources.  It is the lazy iterate-with-stop utility: it walks
    [data], applies [func] to each item and yields the result; as
    [DataFrame.filter] relies on, a falsy result ([None] here) is
    skipped.  Every caller modelled below leaves the stop test at its
    default, which never stops, and spreads the whole generator. *)
Fixpoint iter {A B} (data : list A) (func : A -> M (option B)) : M (list B) :=
  match data with
  | [] => ret []
  | x :: data' =>
      y ← func x;
      ys ← iter data' func;
      ret (match y with Some v => v :: ys | None => ys end)
  end.

(** Modelled from the spec: the outcome of one chain step on a row, a
    boolean or a Row. *)
Inductive StepResult : Type :=
  | Boolean (b : bool)
  | NewRow (r : Row.t).

(** Modelled from the spec: [chain] ([reusables.js]) is not among the
    sources.  Each step evaluated on the current row yields a boolean
    (a filter: [false] drops the row and no further step runs, [true]
    keeps it unchanged) or a Row (a map: it replaces the row); the row
    sequence is traversed once, in order. *)
Fixpoint chain_row (funcs : list (Row.t -> StepResult)) (row : Row.t) : option Row.t :=
  match funcs with
  | [] => Some row
  | f :: funcs' =>
      match f row with
      | Boolean false => None
      | Boolean true => chain_row funcs' row
      | NewRow row' => chain_row funcs' row'
      end
  end.

Definition chain (data : list Row.t) (funcs : list (Row.t -> StepResult)) : list Row.t :=
  omap (chain_row funcs) data.

(** Modelled from the spec: [transpose] ([reusables.js]) is not among
    the sources.  A column-major input is transposed into rows; a
    column that is too short leaves the sentinel. *)
Definition transpose (columns : list (list Value)) : list (list Value) :=
  List.map (fun i => List.map (fun column => nth i column VUndefined) columns)
           (seq 0 (foldr (fun column n => Nat.max (length column) n) 0 columns)).

End Reusables.

(** Computations that may throw but do not touch the heap. *)
#[global] Instance Result_ret : MRet Result := @Ok.
#[global] Instance Result_bind : MBind Result :=
  fun A B k r => match r with Ok a => k a | Throw e => Throw e end.

(** [array.sort(compareFn)].  The comparator answers with a number,
    [None] standing for [NaN], or throws.  ECMAScript leaves the
    algorithm to the engine and asks for a stable result; the model is
    the stable insertion sort: an element moves past a neighbour exactly
    when the comparator is positive on the pair. *)
Section ArraySort.
Context {A : Type} (compareFn : A -> A -> Result (option Z)).

Definition is_positive (c : option Z) : bool :=
  match c with
  | Some z => bool_decide (0 < z)%Z
  | None => false
  end.

Fixpoint sort_insert (x : A) (sorted : list A) : Result (list A) :=
  match sorted with
  | [] => Ok [x]
  | y :: sorted' =>
      c ← compareFn x y;
      if is_positive c then l ← sort_insert x sorted'; Ok (y :: l)
      else Ok (x :: y :: sorted')
  end.

Fixpoint Array_sort (l : list A) : Result (list A) :=
  match l with
  | [] => Ok []
  | x :: l' => sorted ← Array_sort l'; sort_insert x sorted
  end.
End ArraySort.

(** ** [dataframe.js] *)

Module DataFrame.

Record t : Type := { __rows__ : nat; __columns__ : list string }.

(** What can be handed to the constructor as [data]: a DataFrame, an
    array (of Rows, of positional arrays or of named mappings), a
    column-name-to-values object, or anything else. *)
Inductive data : Type :=
  | OfDataFrame (df : t)
  | OfRows (rows : list Row.t)
  | OfArrays (rows : list (list Value))
  | OfObjects (rows : list (list (string * Value)))
  | OfDict (dict : list (string * list Value))
  | OfOther.

Definition _dropSpacesInColumnNames (columns : list string) : list string :=
  List.map (fun column => String_replace " " "" column) columns.

Definition _fromDict (dict : list (string * list Value)) (columns : list string)
  : M (nat * list string) :=
  rows ← array_new (List.map (fun row => Row.new (Row.Array row) columns)
                             (Reusables.transpose (List.map snd dict)));
  mret (rows, columns).

Definition _fromArray (array : list Row.data) (columns : list string)
  : M (nat * list string) :=
  rows ← array_new (List.map (fun row => Row.new row columns) array);
  mret (rows, columns).

(** The constructor is modelled for the calls that supply [columns]
    (every call in [dataframe.js] does); the schema inferred from the
    data when [columns] is omitted is not needed here. *)
Definition _build (data : data) (columns : list string) : M (nat * list string) :=
  match data with
  | OfDataFrame df =>
      rows ← array_get (__rows__ df);
      _fromArray (List.map Row.Instance rows) columns
  | OfRows rows => _fromArray (List.map Row.Instance rows) columns
  | OfArrays rows => _fromArray (List.map Row.Array rows) columns
  | OfObjects rows => _fromArray (List.map Row.Object rows) columns
  | OfDict dict => _fromDict dict columns
  | OfOther => throw InputTypeError
  end.

Definition new (data : data) (columns : list string) : M t :=
  built ← _build data (_dropSpacesInColumnNames columns);
  mret {| __rows__ := built.1; __columns__ := built.2 |}.

(** [data[0] instanceof Row] *)
Definition first_is_Row (data : data) : bool :=
  match data with
  | OfRows (_ :: _) => true
  | _ => false
  end.

(** In the second branch [data] is an array that starts with a Row,
    and [[...data]] copies it. *)
Definition __newInstance__ (this : t) (data : data) (columns : list string) : M t :=
  if negb (Reusables.arrayEqual columns (__columns__ this)) || negb (first_is_Row data) then
    new data (_dropSpacesInColumnNames columns)
  else
    match data with
    | OfRows rows =>
        rows' ← array_new rows;
        mret {| __rows__ := rows'; __columns__ := _dropSpacesInColumnNames columns |}
    | _ => new data (_dropSpacesInColumnNames columns)
    end.

Definition toArray (this : t) : M (list (list Value)) :=
  rows ← array_get (__rows__ this); mret (List.map Row.toArray rows).

(** [toArray(columnName)] *)
Definition toArray_column (this : t) (columnName : string) : M (list Value) :=
  rows ← array_get (__rows__ this);
  mret (List.map (fun row => Row.get row columnName) rows).

(** [toCollection(true)] *)
Definition toCollection (this : t) : M (list Row.t) :=
  array_get (__rows__ this).

Definition count (this : t) : M nat :=
  rows ← array_get (__rows__ this); mret (length rows).

Definition listColumns (this : t) : list string := __columns__ this.

Definition restructure (this : t) (newColumnNames : list string) : M t :=
  rows ← array_get (__rows__ this);
  __newInstance__ this (OfRows rows) newColumnNames.

Definition renameAll (this : t) (newColumnNames : list string) : M t :=
  if negb (length newColumnNames =? length (__columns__ this)) then
    throw WrongSchemaError
  else
    rows ← array_get (__rows__ this);
    __newInstance__ this (OfArrays (List.map Row.toArray rows)) newColumnNames.

Definition chain (this : t) (funcs : list (Row.t -> Reusables.StepResult)) : M t :=
  rows ← array_get (__rows__ this);
  __newInstance__ this (OfRows (Reusables.chain rows funcs)) (__columns__ this).

(** The argument of [filter]: a function from rows to booleans, or a
    column/value object. *)
Inductive condition : Type :=
  | Function (f : Row.t -> bool)
  | Mapping (o : list (string * Value)).

Definition filter (this : t) (condition : condition) : M t :=
  let func (row : Row.t) : M bool :=
    match condition with
    | Mapping o =>
        Array_reduce (fun p n : bool => mret (p && n))
          (List.map (fun entry => bool_decide (Row.get row entry.1 = entry.2)) o)
    | Function f => mret (f row)
    end in
  rows ← array_get (__rows__ this);
  filteredRows ← Reusables.iter rows
                   (fun row => func row ≫= fun b : bool => mret (if b then Some row else None));
  if bool_decide (0 < length filteredRows) then
    __newInstance__ this (OfRows filteredRows) (__columns__ this)
  else __newInstance__ this (OfRows []) [].

Definition where_ (this : t) (condition : condition) : M t := filter this condition.

Definition map (this : t) (func : Row.t -> Row.t) : M t :=
  rows ← array_get (__rows__ this);
  rows' ← Reusables.iter rows (fun row => mret (Some (func row)));
  __newInstance__ this (OfRows rows') (__columns__ this).

Definition union (this dfToUnion : t) : M t :=
  if negb (Reusables.arrayEqual (__columns__ this) (__columns__ dfToUnion)) then
    throw WrongSchemaError
  else
    rows ← array_get (__rows__ this);
    rows' ← array_get (__rows__ dfToUnion);
    __newInstance__ this (OfRows (rows ++ rows')) (__columns__ this).

Module GroupedDataFrame.

(** Modelled from the spec: a group, that is a child DataFrame with
    its key, the mapping from the grouping columns to their values. *)
Record Group : Type := { group : DataFrame.t; groupKey : list (string * Value) }.

(** Modelled from the spec: a GroupedDataFrame is the ordered sequence
    of its groups. *)
Definition t : Type := list Group.

(** Modelled from the spec: the key tuple of a row. *)
Definition keyOf (columnNames : list string) (row : Row.t) : list Value :=
  List.map (Row.get row) columnNames.

(** Modelled from the spec: the class [GroupedDataFrame]
    ([groupedDataframe.js]) is not among the sources.  The rows of
    the parent are partitioned by the tuple of their values in the
    grouping columns; groups come in the order of first appearance
    of their key, rows keep their order inside a group, and each
    group is a DataFrame with the parent's schema over its own row
    sequence. *)
Definition new (df : DataFrame.t) (columnNames : list string) : M t :=
  rows ← array_get (__rows__ df);
  Reusables.iter (distinct (List.map (keyOf columnNames) rows))
    (fun key =>
       rows' ← array_new (List.filter
                            (fun row => bool_decide (keyOf columnNames row = key)) rows);
       mret (Some {| group := {| __rows__ := rows'; __columns__ := __columns__ df |};
                     groupKey := combine columnNames key |})).

(** Modelled from the spec: [listGroups()], the ordered list of the
    group keys. *)
Definition listGroups (gdf : t) : list (list (string * Value)) :=
  List.map groupKey gdf.

(** Modelled from the spec: [toCollection()], the ordered list of the
    groups with their keys. *)
Definition toCollection (gdf : t) : list Group := gdf.

End GroupedDataFrame.

Definition groupBy (this : t) (columnNames : list string) : M GroupedDataFrame.t :=
  GroupedDataFrame.new this columnNames.

(** [Object.values(groupKey)[0]] *)
Definition first_value (groupKey : list (string * Value)) : Value :=
  hd VUndefined (List.map snd groupKey).

Definition _joinByType (gdf1 gdf2 : GroupedDataFrame.t) (type : string) : list t :=
  if bool_decide (type = "out") || bool_decide (type = "in") then
    let gdf2Groups := List.map first_value (GroupedDataFrame.listGroups gdf2) in
    omap (fun g =>
            let isContained :=
              bool_decide (first_value (GroupedDataFrame.groupKey g) ∈ gdf2Groups) in
            let filterCondition (b : bool) :=
              if b then Some (GroupedDataFrame.group g) else None in
            if bool_decide (type = "out") then filterCondition (negb isContained)
            else filterCondition isContained)
         (GroupedDataFrame.toCollection gdf1)
  else List.map GroupedDataFrame.group (GroupedDataFrame.toCollection gdf1).

Definition _join (this dfToJoin : t) (on : string) (types : string * string) : M t :=
  let newColumns := distinct (listColumns this ++ listColumns dfToJoin) in
  gdf ← groupBy this [on];
  gdfToJoin ← groupBy dfToJoin [on];
  groups ← Reusables.iter
             (_joinByType gdf gdfToJoin types.1 ++ _joinByType gdfToJoin gdf types.2)
             (fun group => g ← restructure group newColumns; mret (Some g));
  Array_reduce (fun p n => union p n) groups.

Definition innerJoin (this dfToJoin : t) (on : string) : M t :=
  _join this dfToJoin on ("in", "in").

Definition fullJoin (this dfToJoin : t) (on : string) : M t :=
  _join this dfToJoin on ("", "").

Definition outerJoin (this dfToJoin : t) (on : string) : M t :=
  _join this dfToJoin on ("out", "out").

Definition leftJoin (this dfToJoin : t) (on : string) : M t :=
  _join this dfToJoin on ("", "in").

Definition rightJoin (this dfToJoin : t) (on : string) : M t :=
  _join this dfToJoin on ("in", "").

(** [joinMethods[how]()], for a name that is one of the five methods
    or finds nothing to call.  [joinMethods] is a plain object: a name
    of a property of [Object.prototype] ([toString], [valueOf],
    [constructor], ...) finds an inherited function, whose result is
    not a DataFrame; such names are outside this definition. *)
Definition join (this dfToJoin : t) (on : string) (how : string) : M t :=
  if bool_decide (how = "inner") then innerJoin this dfToJoin on
  else if bool_decide (how = "full") then fullJoin this dfToJoin on
  else if bool_decide (how = "outer") then outerJoin this dfToJoin on
  else if bool_decide (how = "left") then leftJoin this dfToJoin on
  else if bool_decide (how = "right") then rightJoin this dfToJoin on
  else throw TypeError.

Section SortBy.
(** [ToNumber] on strings is a built-in of the language; the
    development is parametric in it ([None] is [NaN]). *)
Variable StringToNumber : string -> option Z.

Definition ToNumber (v : Value) : option Z :=
  match v with
  | VUndefined => None
  | VNull => Some 0%Z
  | VBool b => Some (if b then 1 else 0)%Z
  | VNum n => Some n
  | VStr s => StringToNumber s
  end.

(** [pValue - nValue] *)
Definition subtract (pValue nValue : Value) : option Z :=
  match ToNumber pValue, ToNumber nValue with
  | Some a, Some b => Some (a - b)%Z
  | _, _ => None
  end.

Definition sortBy_compare (columnName : string) (p n : Row.t) : Result (option Z) :=
  let pValue := Row.get p columnName in
  let nValue := Row.get n columnName in
  if negb (String.eqb (typeof pValue) (typeof nValue)) then Throw MixedTypeError
  else Ok (subtract pValue nValue).

(** [array.sort(compareFn)] sorts the array object in place and
    returns it; if the comparator throws, the array is left as it
    was. *)
Definition Array_prototype_sort (array : nat)
    (compareFn : Row.t -> Row.t -> Result (option Z)) : M nat :=
  rows ← array_get array;
  match Array_sort compareFn rows with
  | Ok sorted => _ ← array_set array sorted; mret array
  | Throw e => throw e
  end.

(** [array.reverse()] reverses the array object in place and returns it. *)
Definition Array_prototype_reverse (array : nat) : M nat :=
  rows ← array_get array;
  _ ← array_set array (rev rows);
  mret array.

Definition sortBy (this : t) (columnName : string) (reverse : bool) : M t :=
  sortedRows ← Array_prototype_sort (__rows__ this) (sortBy_compare columnName);
  data ← (if reverse then Array_prototype_reverse sortedRows else mret sortedRows);
  rows ← array_get data;
  __newInstance__ this (OfRows rows) (__columns__ this).
End SortBy.

(** [new DataFrame(array, columns)] for an array whose items need not
    be of one kind: the case [value instanceof Array] of [_build]. *)
Definition new_Array (array : list Row.data) (columns : list string) : M t :=
  built ← _fromArray array (_dropSpacesInColumnNames columns);
  mret {| __rows__ := built.1; __columns__ := built.2 |}.

Definition dim (this : t) : M (nat * nat) :=
  n ← count this; mret (n, length (__columns__ this)).

(** [columnName] defaults to the first column ([None] is the omitted
    argument); in a DataFrame without columns that is [undefined],
    which as a key reads as the name of that spelling. *)
Definition countValue (this : t) (valueToCount : Value) (columnName : option string)
  : M nat :=
  let columnName := default (hd "undefined" (__columns__ this)) columnName in
  df ← filter this
         (Function (fun row => bool_decide (Row.get row columnName = valueToCount)));
  count df.

(** [rows] is the array of the arguments. *)
Definition push (this : t) (rows : list Row.data) : M t :=
  dfToUnion ← new_Array rows (__columns__ this);
  union this dfToUnion.

Definition replace (this : t) (value replacement : Value) (columnNames : list string)
  : M t :=
  map this
    (fun row =>
       fold_left
         (fun p n => if bool_decide (Row.get p n = value) then Row.set p n replacement else p)
         (if bool_decide (0 < length columnNames) then columnNames else __columns__ this)
         row).

(** [columnName] is not the empty string: that one is falsy, and
    [toArray] would answer with the whole rows. *)
Definition distinct (this : t) (columnName : string) : M t :=
  values ← toArray_column this columnName;
  __newInstance__ this (OfDict [(columnName, distinct values)]) [columnName].


Definition select (this : t) (columnNames : list string) : M t :=
  rows ← array_get (__rows__ this);
  __newInstance__ this
    (OfRows (List.map (fun row => Row.select row columnNames) rows)) columnNames.

(** [func] defaults to the function that answers [undefined]. *)
Definition withColumn (this : t) (columnName : string) (func : Row.t -> nat -> Value)
  : M t :=
  rows ← array_get (__rows__ this);
  __newInstance__ this
    (OfRows (imap (fun index row => Row.set row columnName (func row index)) rows))
    (if bool_decide (columnName ∈ __columns__ this) then __columns__ this
     else __columns__ this ++ [columnName]).

Definition rename (this : t) (columnName replacement : string) : M t :=
  let newColumnNames :=
    List.map (fun column => if bool_decide (column = columnName) then replacement else column)
             (__columns__ this) in
  renameAll this newColumnNames.

Definition drop (this : t) (columnName : string) : M t :=
  rows ← array_get (__rows__ this);
  __newInstance__ this
    (OfRows (List.map (fun row => Row.delete row columnName) rows))
    (List.filter (fun column => negb (bool_decide (column = columnName)))
                 (__columns__ this)).

(** [this.filter(condition)[__rows__][0]]: [None] is [undefined]. *)
Definition find (this : t) (condition : condition) : M (option Row.t) :=
  df ← filter this condition;
  rows ← array_get (__rows__ df);
  mret (head rows).

(** [this[__rows__].reduce((p, n) => func(p, n), init)]: the call of
    [reduce] with an [init] that is not [undefined]. *)
Definition reduce_from {A} (this : t) (func : A -> Row.t -> A) (init : A) : M A :=
  rows ← array_get (__rows__ this);
  mret (fold_left func rows init).

(** [reduce(func, init)].  [A] is the type of the values [func]
    returns, none of which is [undefined], and [init = None] is the
    omitted (or [undefined]) argument.  Without [init] the first Row
    is the first accumulator, so that [func] receives a Row or an [A],
    and so is the result: on a single row it is that Row, [func] not
    being called; on no row the fold is a [TypeError]. *)
Definition reduce {A} (this : t) (func : Row.t + A -> Row.t -> A) (init : option A)
  : M (Row.t + A) :=
  match init with
  | None =>
      rows ← array_get (__rows__ this);
      match rows with
      | [] => throw TypeError
      | row :: rows' => mret (fold_left (fun p n => inr (func p n)) rows' (inl row))
      end
  | Some init =>
      r ← reduce_from this (fun p n => func (inr p) n) init;
      mret (inr r)
  end.

(** [reduceRight(func, init)]: the same from the last row to the
    first. *)
Definition reduceRight {A} (this : t) (func : Row.t + A -> Row.t -> A) (init : option A)
  : M (Row.t + A) :=
  rows ← array_get (__rows__ this);
  match init with
  | None =>
      match rows with
      | [] => throw TypeError
      | row :: rows' =>
          mret (fold_right (fun n p => inr (func p n))
                  (inl (List.last rows' row)) (removelast rows))
      end
  | Some init =>
      mret (fold_right (fun n p => inr (func p n)) (inr init) rows)
  end.

Section ToText.
(** [String(number)] is a built-in of the language; the development is
    parametric in it. *)
Variable NumberToString : Z -> string.

(** How [Array.prototype.join] writes an element: [undefined] and
    [null] as the empty string, the others by [ToString]. *)
Definition join_element (v : Value) : string :=
  match v with
  | VUndefined | VNull => ""
  | VBool b => if b then "true" else "false"
  | VNum n => NumberToString n
  | VStr s => s
  end.

(** [array.join(sep)] *)
Definition Array_join (sep : string) (array : list string) : string :=
  String.concat sep array.

(** The returned pair is [csvContent] and the call of [saveFile] made,
    if any: [if (path)] holds for a path that is given and not empty.
    [header ? ... : ''] is a string, so that [reduce] takes the fold
    with an initial value. *)
Definition toText (this : t) (sep : string) (header : bool) (path : option string)
  : M (string * option (string * string)) :=
  csvContent ← reduce_from this
    (fun p n =>
       (if bool_decide (p ≠ "") then p +:+ String "010" "" else "")
       +:+ Array_join sep (List.map join_element (Row.toArray n)))
    (if header then Array_join sep (__columns__ this) else "");
  mret (csvContent,
        match path with
        | Some file => if bool_decide (file ≠ "") then Some (file, csvContent) else None
        | None => None
        end).

Definition toCSV (this : t) (header : bool) (path : option string)
  : M (string * option (string * string)) :=
  toText this "," header path.
End ToText.

Section Transpose.
(** [String(number)], as in [toText]. *)
Variable NumberToString : Z -> string.

(** The new columns are the numbers [0], ..., [count() - 1], which the
    constructor turns into their names.  [data[0]] is an array and not
    a Row, so that [__newInstance__] hands over to the constructor
    whatever the comparison of the columns says. *)
Definition transpose (this : t) : M t :=
  n ← count this;
  let newColumns := List.map (fun index => NumberToString (Z.of_nat index)) (seq 0 n) in
  rows ← toArray this;
  __newInstance__ this (OfArrays (Reusables.transpose rows)) newColumns.

(** The object that [toDict] returns: its own properties and its
    prototype, [None] being [Object.prototype]. *)
Record Dict : Type := { own : gmap string (list Value); prototype : option (list Value) }.

(** [{}] *)
#[global] Instance Dict_empty : Empty Dict := {| own := ∅; prototype := None |}.

(** One step of [Object.assign(target, ..., {[name]: column}, ...)]:
    [target[name] = column].  The target starts as [{}] and is only
    assigned to, so the name [__proto__] always reaches the setter of
    [Object.prototype]: the column, an array, becomes the prototype of
    the target, and no property is added.  Under any other name the
    column becomes an own property, or replaces the one of that
    name. *)
Definition Object_assign (target : Dict) (source : string * list Value) : Dict :=
  if bool_decide (source.1 = "__proto__") then
    {| own := own target; prototype := Some source.2 |}
  else {| own := <[source.1 := source.2]> (own target); prototype := prototype target |}.

(** [this[__columns__][index]] past the end of the columns is
    [undefined], which as a key is the name of that spelling. *)
Definition toDict (this : t) : M Dict :=
  transposed ← transpose this;
  columns ← toArray transposed;
  mret (foldl Object_assign ∅
          (imap (fun index column => (nth index (__columns__ this) "undefined", column))
                columns)).
End Transpose.

End DataFrame.

(** ** [modules/sql.js]: the table registry *)

Module SQL.

(** What a caller can pass as [df]: a DataFrame, another value with
    a constructor of the given name, or [null]/[undefined], which
    have no properties. *)
Inductive value : Type :=
  | DataFrameObject (df : DataFrame.t)
  | OtherObject (constructor_name : string)
  | Nullish.

(** [df.constructor.name] *)
Definition constructor_name (df : value) : Result string :=
  match df with
  | DataFrameObject _ => Ok "DataFrame"
  | OtherObject name => Ok name
  | Nullish => Throw TypeError
  end.

(** [SQL.tables] is a plain object: its own properties are the
    registered tables, and it has a prototype, which is
    [Object.prototype] ([None]) until a value is assigned to the name
    [__proto__].  It is the state; every function takes it and returns
    its next value. *)
Record Tables : Type := { own : gmap string value; prototype : option value }.

(** [{}] *)
#[global] Instance Tables_empty : Empty Tables := {| own := ∅; prototype := None |}.

(** The properties of [Object.prototype] other than [__proto__]: all
    of them hold functions. *)
Definition Object_prototype_functions : list string :=
  [ "constructor"; "hasOwnProperty"; "isPrototypeOf"; "propertyIsEnumerable";
    "toLocaleString"; "toString"; "valueOf";
    "__defineGetter__"; "__defineSetter__"; "__lookupGetter__"; "__lookupSetter__" ].

(** The properties of [DataFrame.prototype]: the methods of the class
    of [dataframe.js]. *)
Definition DataFrame_prototype_functions : list string :=
  [ "constructor"; "__newInstance__"; "__instanciateModules__";
    "_dropSpacesInColumnNames"; "_build"; "_fromDict"; "_fromArray"; "_joinByType";
    "_join"; "toDict"; "toArray"; "toCollection"; "toText"; "toCSV"; "toJSON"; "show";
    "dim"; "transpose"; "count"; "countValue"; "push"; "replace"; "distinct"; "unique";
    "listColumns"; "select"; "withColumn"; "restructure"; "renameAll"; "rename"; "drop";
    "chain"; "filter"; "find"; "where"; "map"; "reduce"; "reduceRight"; "shuffle";
    "sample"; "bisect"; "groupBy"; "sortBy"; "union"; "join"; "innerJoin"; "fullJoin";
    "outerJoin"; "leftJoin"; "rightJoin" ].

(** [object[name]] for a value that has become the prototype of the
    registry, and a name other than [__proto__].  A DataFrame holds
    [modules], an array, and inherits the methods of its class and the
    functions of [Object.prototype]; the DataFrames of this
    development carry no plug-in module, each of which would add a
    property of its name.  Another object is read as a plain one. *)
Definition property_of (object : value) (name : string) : value :=
  match object with
  | DataFrameObject _ =>
      if bool_decide (name = "modules") then OtherObject "Array"
      else if bool_decide (name ∈ DataFrame_prototype_functions ++ Object_prototype_functions)
      then OtherObject "Function"
      else Nullish
  | OtherObject _ =>
      if bool_decide (name ∈ Object_prototype_functions) then OtherObject "Function"
      else Nullish
  | Nullish => Nullish
  end.

(** [SQL.tables[name]]: the own property of that name, or else what
    the prototype gives.  [__proto__] reads the prototype itself,
    [Object.prototype] being an [Object]; a name that nothing holds
    reads [undefined]. *)
Definition Object_get (tables : Tables) (name : string) : value :=
  match own tables !! name with
  | Some v => v
  | None =>
      if bool_decide (name = "__proto__") then
        default (OtherObject "Object") (prototype tables)
      else property_of (default (OtherObject "Object") (prototype tables)) name
  end.

(** [SQL.tables[name] = v], for a value that is an object.  The name
    [__proto__], unless it is an own property, reaches the setter of
    [Object.prototype]: the value becomes the prototype, and no
    property is added. *)
Definition Object_set (tables : Tables) (name : string) (v : value) : Tables :=
  if bool_decide (name = "__proto__") && bool_decide (own tables !! name = None) then
    {| own := own tables; prototype := Some v |}
  else {| own := <[name := v]> (own tables); prototype := prototype tables |}.

(** [Object.keys] lists the own properties. *)
Definition listTables (tables : Tables) : list string :=
  (map_to_list (own tables)).*1.

Definition dropTables (tables : Tables) : Tables := ∅.

(** [delete] removes an own property and leaves the prototype. *)
Definition dropTable (tableName : string) (tables : Tables) : Tables :=
  {| own := delete tableName (own tables); prototype := prototype tables |}.

(** The value stored has passed the check of its constructor, so it is
    an object. *)
Definition registerTable (df : value) (tableName : string) (overwrite : bool)
    (tables : Tables) : Result Tables :=
  name ← constructor_name df;
  if negb (String.eqb name "DataFrame") then Throw InputTypeError
  else if bool_decide (tableName ∈ listTables tables) && negb overwrite then
    Throw TableAlreadyExistsError
  else Ok (Object_set tables tableName df).

Definition renameTable (tableName replacement : string) (overwrite : bool)
    (tables : Tables) : Result Tables :=
  tables' ← registerTable (Object_get tables tableName) replacement overwrite tables;
  Ok (dropTable tableName tables').

(** The instance side of the module: [df.sql]. *)
Record t : Type := { df : DataFrame.t; name : string }.

Definition constructor (df : DataFrame.t) : t := {| df := df; name := "sql" |}.

Definition register (this : t) (tableName : string) (overwrite : bool)
    (tables : Tables) : Result (DataFrame.t * Tables) :=
  tables' ← registerTable (DataFrameObject (df this)) tableName overwrite tables;
  Ok (df this, tables').

End SQL.

(** * Notions used in the statements *)

(** The row sequence of [d] in heap [h]: what [d.toCollection(true)]
    returns, and what [count] and [toArray] are computed from. *)
Definition rows_of (h : Heap) (d : DataFrame.t) : list Row.t :=
  h !!! DataFrame.__rows__ d.

(** The row array of [d] is an object of heap [h]. *)
Definition allocated (h : Heap) (d : DataFrame.t) : Prop :=
  DataFrame.__rows__ d < length h.

(** The value a method returns, without the heap it leaves. *)
Definition returned {A} (r : Result (A * Heap)) : Result A :=
  match r with
  | Ok (a, _) => Ok a
  | Throw e => Throw e
  end.

(** What a caller can observe of [d]: [d.count()], [d.listColumns()]
    and [d.toArray()]. *)
Definition observe (d : DataFrame.t) (h : Heap)
  : Result nat * list string * Result (list (list Value)) :=
  (returned (DataFrame.count d h), DataFrame.listColumns d,
   returned (DataFrame.toArray d h)).

(** The name holds a space. *)
Fixpoint has_space (s : string) : bool :=
  match s with
  | EmptyString => false
  | String c s' => if Ascii.eqb c " "%char then true else has_space s'
  end.

(** Removing every space of a name. *)
Fixpoint strip_spaces (s : string) : string :=
  match s with
  | EmptyString => EmptyString
  | String c s' =>
      if Ascii.eqb c " "%char then strip_spaces s' else String c (strip_spaces s')
  end.

(** A schema whose names contain no space. *)
Definition normalized (columns : list string) : Prop :=
  Forall (fun column => has_space column = false) columns.

(** How [__newInstance__] treats an array of Rows, for a receiver whose
    columns are [this_columns]: it is kept as it is when it is not
    empty and the columns asked for are those of the receiver, and
    rebuilt row by row otherwise. *)
Definition kept_as_is (this_columns : list string) (rows : list Row.t)
    (columns : list string) : bool :=
  match rows with
  | [] => false
  | _ :: _ => bool_decide (columns = this_columns)
  end.

(** The columns of the instance [__newInstance__] returns: the names
    asked for go through [_dropSpacesInColumnNames] once when the rows
    are kept, and once more in the constructor when they are rebuilt. *)
Definition instance_columns (this_columns : list string) (rows : list Row.t)
    (columns : list string) : list string :=
  if kept_as_is this_columns rows columns then DataFrame._dropSpacesInColumnNames columns
  else DataFrame._dropSpacesInColumnNames (DataFrame._dropSpacesInColumnNames columns).

(** The rows of that instance. *)
Definition instance_rows (this_columns : list string) (rows : list Row.t)
    (columns : list string) : list Row.t :=
  if kept_as_is this_columns rows columns then rows
  else
    List.map (fun row => Row.fromObject row (instance_columns this_columns rows columns))
             rows.

(** The rows a [filter] condition is meant to keep: those on which the
    function answers [true], or on which every pair of the mapping
    holds. *)
Definition satisfies (condition : DataFrame.condition) (row : Row.t) : bool :=
  match condition with
  | DataFrame.Function f => f row
  | DataFrame.Mapping o =>
      forallb (fun entry => bool_decide (Row.get row entry.1 = entry.2)) o
  end.

(** A row-level step of a pipeline, as the caller means it: a filter
    or a map. *)
Inductive RowStep : Type :=
  | FilterStep (p : Row.t -> bool)
  | MapStep (f : Row.t -> Row.t).

(** The step as the function handed to [chain]. *)
Definition chain_func (s : RowStep) : Row.t -> Reusables.StepResult :=
  match s with
  | FilterStep p => fun row => Reusables.Boolean (p row)
  | MapStep f => fun row => Reusables.NewRow (f row)
  end.

(** The step applied on its own, by a plain [.filter()] or [.map()]. *)
Definition apply_plain (d : DataFrame.t) (s : RowStep) : M DataFrame.t :=
  match s with
  | FilterStep p => DataFrame.filter d (DataFrame.Function p)
  | MapStep f => DataFrame.map d f
  end.

(** [d.step1(...).step2(...)...]: the steps applied one after the other. *)
Definition sequentially (d : DataFrame.t) (steps : list RowStep) : M DataFrame.t :=
  foldM apply_plain d steps.

(** What one step does to a row sequence. *)
Definition step_rows (rows : list Row.t) (s : RowStep) : list Row.t :=
  match s with
  | FilterStep p => List.filter p rows
  | MapStep f => List.map f rows
  end.

(** The comparator of [sortBy] does not put [p] after [n]: the
    subtraction of their values in the column is not positive. *)
Definition not_after (StringToNumber : string -> option Z) (columnName : string)
    (p n : Row.t) : Prop :=
  is_positive (DataFrame.subtract StringToNumber (Row.get p columnName)
                 (Row.get n columnName)) = false.

(** Every row holds a value of runtime type [T] in the column. *)
Definition all_typed (columnName : string) (T : string) (rows : list Row.t) : Prop :=
  Forall (fun row => typeof (Row.get row columnName) = T) rows.

(** Two rows hold values of different runtime types in the column. *)
Definition mixed_types (columnName : string) (rows : list Row.t) : Prop :=
  exists p n, p ∈ rows /\ n ∈ rows /\
    typeof (Row.get p columnName) <> typeof (Row.get n columnName).

(** Column [k] of [d]: what [d.toArray(k)] returns. *)
Definition column_of (h : Heap) (d : DataFrame.t) (k : string) : list Value :=
  List.map (fun row => Row.get row k) (rows_of h d).

(** The groups of a row sequence on column [k]: each distinct value of
    the column, in order of first appearance, with the rows that hold
    it. *)
Definition groups_on (k : string) (rows : list Row.t) : list (Value * list Row.t) :=
  List.map (fun key => (key, List.filter (fun row => bool_decide (Row.get row k = key)) rows))
           (distinct (List.map (fun row => Row.get row k) rows)).

(** The join modes and the names [join] knows them by. *)
Inductive JoinMode : Type := InnerJoin | LeftJoin | RightJoin | OuterJoin | FullJoin.

Definition how (mode : JoinMode) : string :=
  match mode with
  | InnerJoin => "inner"
  | LeftJoin => "left"
  | RightJoin => "right"
  | OuterJoin => "outer"
  | FullJoin => "full"
  end.

(** The mode table: whether a group of the left side is included,
    given whether its key is present in the right side; and the same
    for a group of the right side. *)
Definition left_included (mode : JoinMode) (present_in_right : bool) : bool :=
  match mode with
  | InnerJoin => present_in_right
  | LeftJoin => true
  | RightJoin => present_in_right
  | OuterJoin => negb present_in_right
  | FullJoin => true
  end.

Definition right_included (mode : JoinMode) (present_in_left : bool) : bool :=
  match mode with
  | InnerJoin => present_in_left
  | LeftJoin => present_in_left
  | RightJoin => true
  | OuterJoin => negb present_in_left
  | FullJoin => true
  end.

(** The groups of one side that pass a test on the presence of their
    key among the groups of the other side. *)
Definition included_groups (test : bool -> bool) (k : string)
    (rows other : list Row.t) : list (list Row.t) :=
  List.map snd
    (List.filter (fun g => test (bool_decide (g.1 ∈ List.map fst (groups_on k other))))
                 (groups_on k rows)).

(** The rows of one side brought to the columns of the join: kept when
    the side already has these columns, and otherwise rebuilt against
    them, the columns the side lacks holding the sentinel. *)
Definition padded (columns side_columns : list string) (rows : list Row.t) : list Row.t :=
  if bool_decide (columns = side_columns) then rows
  else List.map (fun row => Row.fromObject row columns) rows.

(** The columns of the join: those of the left side, then the new
    ones of the right side. *)
Definition joined_columns (a b : DataFrame.t) : list string :=
  distinct (DataFrame.listColumns a ++ DataFrame.listColumns b).

(** What [_joinByType] does with a group, by the name of the type. *)
Definition selected (type : string) (present : bool) : bool :=
  if bool_decide (type = "out") then negb present
  else if bool_decide (type = "in") then present
  else true.

(** [d] is an object of [h] whose row sequence is [rows]. *)
Definition holds_rows (h : Heap) (d : DataFrame.t) (rows : list Row.t) : Prop :=
  allocated h d /\ rows_of h d = rows.

(** [d] is an object of [h] with columns [side.1] and rows [side.2]. *)
Definition is_side (h : Heap) (d : DataFrame.t) (side : list string * list Row.t) : Prop :=
  DataFrame.__columns__ d = side.1 /\ holds_rows h d side.2.

(** What [restructure] makes of a DataFrame with columns [side.1] and
    rows [side.2]. *)
Definition restructured (columns : list string) (side : list string * list Row.t)
  : list string * list Row.t :=
  (instance_columns side.1 side.2 columns, instance_rows side.1 side.2 columns).

(** The sides that [_join] restructures and unites: the included
    groups of the left side, then those of the right side, each with
    the columns of its side. *)
Definition join_sides (a b : DataFrame.t) (on : string) (types : string * string)
    (h : Heap) : list (list string * list Row.t) :=
  List.map (fun rows => (DataFrame.__columns__ a, rows))
    (included_groups (selected types.1) on (rows_of h a) (rows_of h b)) ++
  List.map (fun rows => (DataFrame.__columns__ b, rows))
    (included_groups (selected types.2) on (rows_of h b) (rows_of h a)).

(** The rows of a join: the included groups of the left side, then
    those of the right side, each as [restructure] leaves it. *)
Definition united_rows (a b : DataFrame.t) (on : string)
    (left_test right_test : bool -> bool) (h : Heap) : list Row.t :=
  concat
    (List.map (fun rows => instance_rows (DataFrame.__columns__ a) rows (joined_columns a b))
       (included_groups left_test on (rows_of h a) (rows_of h b)) ++
     List.map (fun rows => instance_rows (DataFrame.__columns__ b) rows (joined_columns a b))
       (included_groups right_test on (rows_of h b) (rows_of h a))).

(** The same rows when the column names are normalized: each group is
    padded to the joined columns. *)
Definition joined_rows (a b : DataFrame.t) (on : string)
    (left_test right_test : bool -> bool) (h : Heap) : list Row.t :=
  concat
    (List.map (padded (joined_columns a b) (DataFrame.__columns__ a))
       (included_groups left_test on (rows_of h a) (rows_of h b)) ++
     List.map (padded (joined_columns a b) (DataFrame.__columns__ b))
       (included_groups right_test on (rows_of h b) (rows_of h a))).

(** The types each join method hands to [_join]. *)
Definition types_of (mode : JoinMode) : string * string :=
  match mode with
  | InnerJoin => ("in", "in")
  | LeftJoin => ("", "in")
  | RightJoin => ("in", "")
  | OuterJoin => ("out", "out")
  | FullJoin => ("", "")
  end.

(** A group object against the key and rows it stands for. *)
Definition is_group (h : Heap) (columns : list string)
    (G : DataFrame.GroupedDataFrame.Group) (g : Value * list Row.t) : Prop :=
  DataFrame.first_value (DataFrame.GroupedDataFrame.groupKey G) = g.1 /\
  DataFrame.__columns__ (DataFrame.GroupedDataFrame.group G) = columns /\
  holds_rows h (DataFrame.GroupedDataFrame.group G) g.2.

(** ** Example data

    The two sides of the inner-join scenario of the specification, a
    right side that shares no [id] with the left one, and a small
    two-column DataFrame. *)
Definition example_heap : Heap :=
  [ [[("id", VNum 1); ("x", VStr "L")]];
    [[("id", VNum 1); ("y", VStr "R")]; [("id", VNum 2); ("y", VStr "R2")]];
    [[("id", VNum 3); ("y", VStr "R3")]];
    [[("c1", VNum 1); ("c2", VNum 2)]; [("c1", VNum 3); ("c2", VNum 4)]] ].

Definition example_left : DataFrame.t :=
  {| DataFrame.__rows__ := 0; DataFrame.__columns__ := ["id"; "x"] |}.

Definition example_right : DataFrame.t :=
  {| DataFrame.__rows__ := 1; DataFrame.__columns__ := ["id"; "y"] |}.

Definition example_disjoint : DataFrame.t :=
  {| DataFrame.__rows__ := 2; DataFrame.__columns__ := ["id"; "y"] |}.

Definition example_table : DataFrame.t :=
  {| DataFrame.__rows__ := 3; DataFrame.__columns__ := ["c1"; "c2"] |}.


(** ** Notions of the further properties *)

(** The columns [replace] works on: those named, or all the columns
    of the receiver when none is named. *)
Definition replaced_columns (d : DataFrame.t) (columnNames : list string) : list string :=
  match columnNames with
  | [] => DataFrame.listColumns d
  | _ :: _ => columnNames
  end.

(** A cell after [replace]: in a column that is worked on, [value]
    has become [replacement]. *)
Definition replaced_cell (targets : list string) (value replacement : Value)
    (k : string) (v : Value) : Value :=
  if bool_decide (k ∈ targets) && bool_decide (v = value) then replacement else v.

(** The condition of the example for [find]: [c1] is at least 2. *)
Definition example_condition : DataFrame.condition :=
  DataFrame.Function
    (fun row => match Row.get row "c1" with VNum n => bool_decide (2 <= n)%Z | _ => false end).

(** The rows of [example_table] in the reverse order, and a DataFrame
    over them. *)
Definition example_heap_reversed : Heap :=
  [ [[("c1", VNum 3); ("c2", VNum 4)]; [("c1", VNum 1); ("c2", VNum 2)]] ].

Definition example_table_reversed : DataFrame.t :=
  {| DataFrame.__rows__ := 0; DataFrame.__columns__ := ["c1"; "c2"] |}.

(** A step of the example for [reduce]: the values of [c1] since the
    last row, as a list. *)
Definition example_func (p : Row.t + list Value) (n : Row.t) : list Value :=
  match p with
  | inl row => [Row.get n "c1"; Row.get row "c1"]
  | inr values => Row.get n "c1" :: values
  end.


(** Every row holds as many values as [d] has columns. *)
Definition rectangular (h : Heap) (d : DataFrame.t) : Prop :=
  Forall (fun row => length (Row.toArray row) = length (DataFrame.listColumns d))
         (rows_of h d).

(** A column in which no row holds a value. *)
Definition empty_column (h : Heap) (d : DataFrame.t) : list Value :=
  List.map (fun _ => VUndefined) (rows_of h d).

(** A one-column DataFrame in which a value occurs twice. *)
Definition example_heap_keys : Heap :=
  [ [[("k", VNum 1)]; [("k", VNum 2)]; [("k", VNum 1)]] ].

Definition example_keys : DataFrame.t :=
  {| DataFrame.__rows__ := 0; DataFrame.__columns__ := ["k"] |}.

(** The line break between the lines of [toText]. *)
Definition newline : string := String "010" "".

(** The line [toText] writes for a row: its values as
    [Array.prototype.join] writes them, with the separator between
    them. *)
Definition row_line (NumberToString : Z -> string) (sep : string) (row : Row.t) : string :=
  String.concat sep (List.map (DataFrame.join_element NumberToString) (Row.toArray row)).

(** The header line: the column names with the separator between
    them, or nothing when no header is asked for. *)
Definition header_line (d : DataFrame.t) (sep : string) (header : bool) : string :=
  if header then String.concat sep (DataFrame.listColumns d) else "".

(** The lines without the empty ones that come first. *)
Fixpoint drop_leading_empty (lines : list string) : list string :=
  match lines with
  | EmptyString :: lines' => drop_leading_empty lines'
  | _ => lines
  end.

(** The call of [saveFile] that goes with a path and a content. *)
Definition saved (path : option string) (content : string) : option (string * string) :=
  match path with
  | Some file => if bool_decide (file ≠ "") then Some (file, content) else None
  | None => None
  end.

(** The rows of one side of a join whose key passes a test on its
    presence among the keys of the other side. *)
Definition passing (test : bool -> bool) (k : string) (rows other : list Row.t)
  : list Row.t :=
  List.filter
    (fun row => test (bool_decide (Row.get row k ∈ List.map (fun row' => Row.get row' k) other)))
    rows.

(** A run leaves what can be observed of [d] as it was in [h]. *)
Definition keeps {A} (d : DataFrame.t) (h : Heap) (run : Result (A * Heap)) : Prop :=
  forall a h', run = Ok (a, h') -> observe d h' = observe d h.

(** What [_dropSpacesInColumnNames] makes of a name: the name itself
    when it holds no space, and otherwise the name without its first
    space. *)
Definition first_space_dropped (column column' : string) : Prop :=
  (has_space column = false /\ column' = column) \/
  (exists before after,
     column = before +:+ String " " after /\ has_space before = false /\
     column' = before +:+ after).

(** A registry that holds [example_table] under the name [tmp]. *)
Definition example_tables : SQL.Tables :=
  {| SQL.own := {[ "tmp" := SQL.DataFrameObject example_table ]}; SQL.prototype := None |}.

(** Every row is a Row over exactly the columns of [d]. *)
Definition rows_fit (h : Heap) (d : DataFrame.t) : Prop :=
  Forall (fun row => Row.columns row = DataFrame.listColumns d) (rows_of h d).
(** * Basic facts *)

Arguments DataFrame.__newInstance__ : simpl never.
Arguments DataFrame.new : simpl never.
Arguments DataFrame.filter : simpl never.
Arguments DataFrame.map : simpl never.
Arguments DataFrame.union : simpl never.
Arguments DataFrame.restructure : simpl never.

Ltac run :=
  unfold mbind, mret, M_bind, M_ret, Result_bind, Result_ret, bind, ret, throw,
    array_new, array_get, array_set in *.

Lemma lookup_total_alloc (h : Heap) (rows : list Row.t) :
  (h ++ [rows]) !!! length h = rows.
Proof. by apply list_lookup_total_middle. Qed.

Lemma lookup_total_frame (h t : Heap) (ref : nat) :
  ref < length h -> (h ++ t) !!! ref = h !!! ref.
Proof. apply lookup_total_app_l. Qed.

Lemma substring_all (s : string) : String.substring 0 (String.length s) s = s.
Proof. induction s as [|c s IH]; simpl; [done | by rewrite IH]. Qed.

Lemma String_replace_space_cons (c : ascii) (s : string) :
  String_replace " " "" (String c s) =
  if Ascii.eqb c " "%char then s else String c (String_replace " " "" s).
Proof.
  cbn [String_replace String.prefix].
  destruct (ascii_dec " "%char c) as [<-|Hne].
  - simpl. destruct s; simpl; [done|]. by rewrite substring_all.
  - destruct (Ascii.eqb_spec c " "%char) as [->|_]; [done|].
    destruct s; reflexivity.
Qed.

Lemma String_replace_no_space (s : string) :
  has_space s = false -> String_replace " " "" s = s.
Proof.
  induction s as [|c s IH]; [done|].
  rewrite String_replace_space_cons. simpl.
  destruct (Ascii.eqb c " "%char); [done|]. intros H. by rewrite IH.
Qed.

Lemma dropSpaces_normalized (columns : list string) :
  normalized columns -> DataFrame._dropSpacesInColumnNames columns = columns.
Proof.
  unfold DataFrame._dropSpacesInColumnNames.
  induction 1 as [|c cs Hc _ IH]; simpl; [done|].
  by rewrite String_replace_no_space, IH.
Qed.

Lemma dropSpaces_length (columns : list string) :
  length (DataFrame._dropSpacesInColumnNames columns) = length columns.
Proof. apply length_map. Qed.

Lemma arrayEqual_refl (a : list string) : Reusables.arrayEqual a a = true.
Proof. unfold Reusables.arrayEqual. by apply bool_decide_eq_true. Qed.

Lemma arrayEqual_decide (a b : list string) :
  Reusables.arrayEqual a b = bool_decide (a = b).
Proof. reflexivity. Qed.

(** ** Rows *)

Lemma Row_toArray_fromArray (a : list Value) (columns : list string) :
  length a = length columns -> Row.toArray (Row.fromArray a columns) = a.
Proof.
  revert a. induction columns as [|c cs IH]; intros [|v a] Hlen; simpl in *; try done.
  f_equal. apply IH. lia.
Qed.

Lemma Row_columns_fromArray (a : list Value) (columns : list string) :
  Row.columns (Row.fromArray a columns) = columns.
Proof.
  revert a. induction columns as [|c cs IH]; intros a; simpl; [done|].
  f_equal. apply IH.
Qed.

Lemma Row_lookup_fromObject (o : list (string * Value)) (columns : list string) (k : string) :
  Row.lookup (Row.fromObject o columns) k =
  if bool_decide (k ∈ columns) then Some (default VUndefined (Row.lookup o k)) else None.
Proof.
  unfold Row.fromObject. induction columns as [|c cs IH]; simpl; [done|].
  destruct (decide (c = k)) as [->|Hne].
  - rewrite bool_decide_eq_true_2 by done.
    rewrite bool_decide_eq_true_2; [done | by left].
  - rewrite (bool_decide_eq_false_2 (c = k)) by done. rewrite IH.
    destruct (decide (k ∈ cs)) as [Hin|Hnin].
    + rewrite !bool_decide_eq_true_2; [done | by right | done].
    + rewrite !bool_decide_eq_false_2; [done | | done].
      intros [->|?]%elem_of_cons; done.
Qed.

Lemma Row_get_fromObject (r : Row.t) (columns : list string) (k : string) :
  k ∈ columns -> Row.get (Row.fromObject r columns) k = Row.get r k.
Proof.
  intros Hin. unfold Row.get. rewrite Row_lookup_fromObject.
  by rewrite bool_decide_eq_true_2.
Qed.

(** ** Running the constructor and [__newInstance__] *)

Lemma new_OfRows (rows : list Row.t) (columns : list string) (h : Heap) :
  DataFrame.new (DataFrame.OfRows rows) columns h =
  Ok ({| DataFrame.__rows__ := length h;
         DataFrame.__columns__ := DataFrame._dropSpacesInColumnNames columns |},
      h ++ [List.map (fun row => Row.fromObject row (DataFrame._dropSpacesInColumnNames columns))
              rows]).
Proof.
  unfold DataFrame.new, DataFrame._build, DataFrame._fromArray. run. simpl.
  by rewrite map_map.
Qed.

Lemma new_OfArrays (rows : list (list Value)) (columns : list string) (h : Heap) :
  DataFrame.new (DataFrame.OfArrays rows) columns h =
  Ok ({| DataFrame.__rows__ := length h;
         DataFrame.__columns__ := DataFrame._dropSpacesInColumnNames columns |},
      h ++ [List.map (fun row => Row.fromArray row (DataFrame._dropSpacesInColumnNames columns))
              rows]).
Proof.
  unfold DataFrame.new, DataFrame._build, DataFrame._fromArray. run. simpl.
  by rewrite map_map.
Qed.

Lemma newInstance_OfRows (this : DataFrame.t) (rows : list Row.t)
    (columns : list string) (h : Heap) :
  DataFrame.__newInstance__ this (DataFrame.OfRows rows) columns h =
  Ok ({| DataFrame.__rows__ := length h;
         DataFrame.__columns__ := instance_columns (DataFrame.__columns__ this) rows columns |},
      h ++ [instance_rows (DataFrame.__columns__ this) rows columns]).
Proof.
  unfold DataFrame.__newInstance__, instance_rows, instance_columns, kept_as_is.
  destruct rows as [|row rows].
  - cbn [DataFrame.first_is_Row negb]. rewrite orb_true_r. by rewrite new_OfRows.
  - rewrite arrayEqual_decide. cbn [DataFrame.first_is_Row negb]. rewrite orb_false_r.
    destruct (bool_decide _); cbn [negb].
    + run. reflexivity.
    + by rewrite new_OfRows.
Qed.

Lemma kept_as_is_same (columns : list string) (rows : list Row.t) :
  kept_as_is columns rows columns = bool_decide (rows ≠ []).
Proof.
  unfold kept_as_is. destruct rows; [done|].
  rewrite bool_decide_eq_true_2 by done. by rewrite bool_decide_eq_true_2.
Qed.

Lemma instance_rows_same (columns : list string) (rows : list Row.t) :
  instance_rows columns rows columns = rows.
Proof.
  unfold instance_rows. rewrite kept_as_is_same. by destruct rows.
Qed.

(** ** Accessors *)

Lemma toCollection_run (d : DataFrame.t) (h : Heap) :
  DataFrame.toCollection d h = Ok (rows_of h d, h).
Proof. reflexivity. Qed.

Lemma count_run (d : DataFrame.t) (h : Heap) :
  DataFrame.count d h = Ok (length (rows_of h d), h).
Proof. reflexivity. Qed.

Lemma toArray_run (d : DataFrame.t) (h : Heap) :
  DataFrame.toArray d h = Ok (List.map Row.toArray (rows_of h d), h).
Proof. reflexivity. Qed.

Lemma observe_rows_of (d : DataFrame.t) (h h' : Heap) :
  rows_of h' d = rows_of h d -> observe d h' = observe d h.
Proof. unfold observe. rewrite !count_run, !toArray_run. simpl. by intros ->. Qed.

Lemma rows_of_alloc (h : Heap) (rows : list Row.t) (columns : list string) :
  rows_of (h ++ [rows])
    {| DataFrame.__rows__ := length h; DataFrame.__columns__ := columns |} = rows.
Proof. apply lookup_total_alloc. Qed.

Lemma rows_of_frame (d : DataFrame.t) (h t : Heap) :
  allocated h d -> rows_of (h ++ t) d = rows_of h d.
Proof. apply lookup_total_frame. Qed.

(** ** [iter], [filter], [map] and [chain] *)

Lemma iter_pure {A B} (data : list A) (func : A -> M (option B))
    (g : A -> option B) (h : Heap) :
  (forall x h', func x h' = Ok (g x, h')) ->
  Reusables.iter data func h = Ok (omap g data, h).
Proof.
  intros Hfunc. induction data as [|x data IH]; simpl; [done|].
  run. rewrite Hfunc, IH. by destruct (g x).
Qed.

Lemma omap_filter {A} (f : A -> bool) (l : list A) :
  omap (fun x => if f x then Some x else None) l = List.filter f l.
Proof.
  induction l as [|x l IH]; simpl; [done|].
  destruct (f x); simpl; [f_equal|]; exact IH.
Qed.

Lemma omap_Some_map {A B} (f : A -> B) (l : list A) :
  omap (fun x => Some (f x)) l = List.map f l.
Proof. induction l as [|x l IH]; simpl; [done | f_equal; exact IH]. Qed.

Lemma filter_none {A} (f : A -> bool) (l : list A) :
  (forall x, x ∈ l -> f x = false) -> List.filter f l = [].
Proof.
  induction l as [|x l IH]; intros Hnone; simpl; [done|].
  rewrite Hnone by left. apply IH. intros y Hy. apply Hnone. by right.
Qed.

Lemma filter_length_le {A} (f : A -> bool) (l : list A) :
  length (List.filter f l) <= length l.
Proof. induction l as [|x l IH]; simpl; [lia|]. destruct (f x); simpl; lia. Qed.

Lemma foldM_and (bs : list bool) (b : bool) (h : Heap) :
  foldM (fun p n : bool => mret (p && n)) b bs h = Ok (b && forallb id bs, h).
Proof.
  revert b. induction bs as [|b' bs IH]; intros b; simpl.
  - by rewrite andb_true_r.
  - run. rewrite IH. by rewrite andb_assoc.
Qed.

Lemma forallb_map_id {A} (f : A -> bool) (l : list A) :
  forallb id (List.map f l) = forallb f l.
Proof. induction l as [|x l IH]; simpl; [done | by rewrite IH]. Qed.

(** The rows [filter] keeps, whenever the condition can be evaluated:
    a column/value object without any pair makes the conjunction of its
    pairs a [reduce] of an empty array. *)
Lemma filter_run (d : DataFrame.t) (condition : DataFrame.condition) (h : Heap) :
  (condition = DataFrame.Mapping [] -> rows_of h d = []) ->
  DataFrame.filter d condition h =
  Ok ({| DataFrame.__rows__ := length h;
         DataFrame.__columns__ :=
           if bool_decide (List.filter (satisfies condition) (rows_of h d) ≠ [])
           then DataFrame._dropSpacesInColumnNames (DataFrame.__columns__ d)
           else [] |},
      h ++ [List.filter (satisfies condition) (rows_of h d)]).
Proof.
  intros Hcond.
  assert (forall g : Row.t -> bool,
            DataFrame.__newInstance__ d
              (DataFrame.OfRows (List.filter g (rows_of h d))) (DataFrame.__columns__ d) h
            = Ok ({| DataFrame.__rows__ := length h;
                     DataFrame.__columns__ :=
                       DataFrame._dropSpacesInColumnNames (DataFrame.__columns__ d) |},
                  h ++ [List.filter g (rows_of h d)]) \/
            List.filter g (rows_of h d) = []) as Hnew.
  { intros g. destruct (List.filter g (rows_of h d)) as [|row rows] eqn:Hkept; [by right|left].
    rewrite newInstance_OfRows, instance_rows_same.
    unfold instance_columns. by rewrite kept_as_is_same. }
  assert (Reusables.iter (rows_of h d)
            (fun row =>
               match condition with
               | DataFrame.Mapping o =>
                   Array_reduce (fun p n : bool => mret (p && n))
                     (List.map (fun entry => bool_decide (Row.get row entry.1 = entry.2)) o)
               | DataFrame.Function f => mret (f row)
               end ≫= fun b : bool => mret (if b then Some row else None)) h
          = Ok (List.filter (satisfies condition) (rows_of h d), h)) as Hiter.
  { destruct condition as [f|[|entry o]].
    - rewrite <- omap_filter. by apply iter_pure.
    - rewrite Hcond by done. reflexivity.
    - rewrite <- omap_filter. apply iter_pure. intros row h'.
      cbn [Array_reduce List.map].
      pose proof (foldM_and
        (List.map (fun entry => bool_decide (Row.get row entry.1 = entry.2)) o)
        (bool_decide (Row.get row entry.1 = entry.2)) h') as Hfold.
      run. rewrite Hfold. by rewrite forallb_map_id. }
  unfold DataFrame.filter.
  change (DataFrame.filter d condition h) with
    ((array_get (DataFrame.__rows__ d) ≫= fun rows =>
      Reusables.iter rows
        (fun row =>
           match condition with
           | DataFrame.Mapping o =>
               Array_reduce (fun p n : bool => mret (p && n))
                 (List.map (fun entry => bool_decide (Row.get row entry.1 = entry.2)) o)
           | DataFrame.Function f => mret (f row)
           end ≫= fun b : bool => mret (if b then Some row else None)) ≫= fun filteredRows =>
      if bool_decide (0 < length filteredRows) then
        DataFrame.__newInstance__ d (DataFrame.OfRows filteredRows) (DataFrame.__columns__ d)
      else DataFrame.__newInstance__ d (DataFrame.OfRows []) []) h).
  unfold mbind at 1 2. unfold M_bind at 1 2. unfold bind at 1 2.
  unfold array_get at 1. fold (rows_of h d). rewrite Hiter.
  destruct (Hnew (satisfies condition)) as [Hrun|Hnil].
  - destruct (List.filter (satisfies condition) (rows_of h d)) as [|row rows] eqn:Hkept.
    + rewrite bool_decide_eq_false_2 by (simpl; lia).
      rewrite bool_decide_eq_false_2 by naive_solver. by rewrite newInstance_OfRows.
    + rewrite bool_decide_eq_true_2 by (simpl; lia).
      rewrite bool_decide_eq_true_2 by done. exact Hrun.
  - rewrite Hnil. rewrite bool_decide_eq_false_2 by (simpl; lia).
    rewrite bool_decide_eq_false_2 by naive_solver. by rewrite newInstance_OfRows.
Qed.

Lemma map_run (d : DataFrame.t) (func : Row.t -> Row.t) (h : Heap) :
  DataFrame.map d func h =
  Ok ({| DataFrame.__rows__ := length h;
         DataFrame.__columns__ :=
           instance_columns (DataFrame.__columns__ d) (List.map func (rows_of h d))
             (DataFrame.__columns__ d) |},
      h ++ [List.map func (rows_of h d)]).
Proof.
  unfold DataFrame.map. run. fold (rows_of h d).
  rewrite (iter_pure _ _ (fun row => Some (func row))) by done.
  rewrite omap_Some_map, newInstance_OfRows. by rewrite instance_rows_same.
Qed.

Lemma chain_run (d : DataFrame.t) (funcs : list (Row.t -> Reusables.StepResult)) (h : Heap) :
  DataFrame.chain d funcs h =
  Ok ({| DataFrame.__rows__ := length h;
         DataFrame.__columns__ :=
           instance_columns (DataFrame.__columns__ d) (Reusables.chain (rows_of h d) funcs)
             (DataFrame.__columns__ d) |},
      h ++ [Reusables.chain (rows_of h d) funcs]).
Proof.
  unfold DataFrame.chain. run. fold (rows_of h d).
  rewrite newInstance_OfRows. by rewrite instance_rows_same.
Qed.

(** ** Chain fusion *)

Lemma chain_nil (rows : list Row.t) : Reusables.chain rows [] = rows.
Proof.
  unfold Reusables.chain. induction rows as [|row rows IH]; simpl; [done|].
  f_equal. exact IH.
Qed.

Lemma chain_cons (s : RowStep) (funcs : list (Row.t -> Reusables.StepResult))
    (rows : list Row.t) :
  Reusables.chain rows (chain_func s :: funcs) = Reusables.chain (step_rows rows s) funcs.
Proof.
  unfold Reusables.chain.
  induction rows as [|row rows IH]; [by destruct s|].
  destruct s as [p|f]; simpl in *.
  - destruct (p row); simpl; [|exact IH].
    destruct (Reusables.chain_row funcs row); [f_equal|]; exact IH.
  - destruct (Reusables.chain_row funcs (f row)); [f_equal|]; exact IH.
Qed.

Lemma chain_steps (steps : list RowStep) (rows : list Row.t) :
  Reusables.chain rows (List.map chain_func steps) = fold_left step_rows steps rows.
Proof.
  revert rows. induction steps as [|s steps IH]; intros rows; simpl.
  - apply chain_nil.
  - by rewrite chain_cons, IH.
Qed.

Lemma omap_length_le {A B} (g : A -> option B) (l : list A) :
  length (omap g l) <= length l.
Proof.
  induction l as [|x l IH]; simpl; [lia|].
  destruct (g x); simpl; fold (omap g l); lia.
Qed.

Lemma apply_plain_run (d : DataFrame.t) (s : RowStep) (h : Heap) :
  exists columns,
    apply_plain d s h =
    Ok ({| DataFrame.__rows__ := length h; DataFrame.__columns__ := columns |},
        h ++ [step_rows (rows_of h d) s]).
Proof.
  destruct s as [p|f]; simpl.
  - rewrite filter_run by done. eauto.
  - rewrite map_run. eauto.
Qed.

Lemma sequentially_run (steps : list RowStep) (d : DataFrame.t) (h : Heap) :
  exists d' h',
    sequentially d steps h = Ok (d', h') /\
    rows_of h' d' = fold_left step_rows steps (rows_of h d).
Proof.
  unfold sequentially. revert d h.
  induction steps as [|s steps IH]; intros d h; simpl.
  - by exists d, h.
  - destruct (apply_plain_run d s h) as [columns Hrun].
    run. rewrite Hrun.
    destruct (IH {| DataFrame.__rows__ := length h; DataFrame.__columns__ := columns |}
                 (h ++ [step_rows (rows_of h d) s])) as (d' & h' & Hseq & Hrows).
    exists d', h'. split; [exact Hseq|].
    by rewrite Hrows, rows_of_alloc.
Qed.

(** ** [union] *)

Lemma union_run (a b : DataFrame.t) (h : Heap) :
  DataFrame.union a b h =
  if bool_decide (DataFrame.__columns__ a = DataFrame.__columns__ b) then
    Ok ({| DataFrame.__rows__ := length h;
           DataFrame.__columns__ :=
             instance_columns (DataFrame.__columns__ a) (rows_of h a ++ rows_of h b)
               (DataFrame.__columns__ a) |},
        h ++ [rows_of h a ++ rows_of h b])
  else Throw WrongSchemaError.
Proof.
  unfold DataFrame.union. rewrite arrayEqual_decide.
  destruct (bool_decide _); simpl; [|done].
  run. fold (rows_of h a) (rows_of h b).
  by rewrite newInstance_OfRows, instance_rows_same.
Qed.

(** ** [renameAll] *)

Lemma renameAll_run (d : DataFrame.t) (newColumnNames : list string) (h : Heap) :
  DataFrame.renameAll d newColumnNames h =
  if bool_decide (length newColumnNames = length (DataFrame.__columns__ d)) then
    let columns := DataFrame._dropSpacesInColumnNames
                     (DataFrame._dropSpacesInColumnNames newColumnNames) in
    Ok ({| DataFrame.__rows__ := length h; DataFrame.__columns__ := columns |},
        h ++ [List.map (fun row => Row.fromArray (Row.toArray row) columns) (rows_of h d)])
  else Throw WrongSchemaError.
Proof.
  unfold DataFrame.renameAll.
  destruct (Nat.eqb_spec (length newColumnNames) (length (DataFrame.__columns__ d)))
    as [Heq|Hne]; simpl.
  - rewrite bool_decide_eq_true_2 by done. run. fold (rows_of h d).
    unfold DataFrame.__newInstance__. cbn [DataFrame.first_is_Row negb].
    rewrite orb_true_r. rewrite new_OfArrays. by rewrite map_map.
  - by rewrite bool_decide_eq_false_2.
Qed.

(** ** The constructor's columns *)

Lemma new_columns (data : DataFrame.data) (columns : list string) (h h' : Heap)
    (d : DataFrame.t) :
  DataFrame.new data columns h = Ok (d, h') ->
  DataFrame.listColumns d = DataFrame._dropSpacesInColumnNames columns.
Proof.
  unfold DataFrame.new, DataFrame._build, DataFrame._fromArray, DataFrame._fromDict.
  destruct data; run; simpl; intros H; by inversion H.
Qed.

(** [replace(' ', '')] takes out the first space of a name and leaves
    the others. *)
Lemma String_replace_first_space (s : string) :
  has_space s = true ->
  exists before after,
    s = before +:+ String " " after /\
    has_space before = false /\
    String_replace " " "" s = before +:+ after.
Proof.
  induction s as [|c s IH]; [done|].
  rewrite String_replace_space_cons. simpl.
  destruct (Ascii.eqb_spec c " "%char) as [->|Hne].
  - intros _. by exists EmptyString, s.
  - intros (before & after & -> & Hbefore & Hrep)%IH.
    exists (String c before), after. simpl. rewrite Hrep.
    split_and!; [done| |done].
    destruct (Ascii.eqb_spec c " "%char); done.
Qed.

(** ** The table registry *)

Lemma elem_of_listTables (tables : SQL.Tables) (tableName : string) :
  tableName ∈ SQL.listTables tables <-> is_Some (SQL.own tables !! tableName).
Proof.
  unfold SQL.listTables. rewrite list_elem_of_fmap. split.
  - intros ([k v] & -> & Hin). apply elem_of_map_to_list in Hin. by exists v.
  - intros [v Hv]. exists (tableName, v). split; [done|]. by apply elem_of_map_to_list.
Qed.

(** An assignment under a name other than [__proto__], or under an own
    property, sets the own property. *)
Lemma Object_set_own (tables : SQL.Tables) (name : string) (v : SQL.value) :
  name <> "__proto__" \/ is_Some (SQL.own tables !! name) ->
  SQL.Object_set tables name v =
  {| SQL.own := <[name := v]> (SQL.own tables); SQL.prototype := SQL.prototype tables |}.
Proof.
  intros Hname. unfold SQL.Object_set.
  destruct Hname as [Hname | [w Hown]].
  - by rewrite (bool_decide_eq_false_2 (name = "__proto__")).
  - rewrite (bool_decide_eq_false_2 (SQL.own tables !! name = None)), andb_false_r;
      [done | by rewrite Hown].
Qed.

(** An assignment to [__proto__], when that is no own property,
    replaces the prototype. *)
Lemma Object_set_prototype (tables : SQL.Tables) (v : SQL.value) :
  SQL.own tables !! "__proto__" = None ->
  SQL.Object_set tables "__proto__" v =
  {| SQL.own := SQL.own tables; SQL.prototype := Some v |}.
Proof.
  intros Hown. unfold SQL.Object_set.
  by rewrite (bool_decide_eq_true_2 (SQL.own tables !! "__proto__" = None)).
Qed.

Lemma registerTable_DataFrame (df : DataFrame.t) (tableName : string) (overwrite : bool)
    (tables : SQL.Tables) :
  SQL.registerTable (SQL.DataFrameObject df) tableName overwrite tables =
  if bool_decide (is_Some (SQL.own tables !! tableName)) && negb overwrite
  then Throw TableAlreadyExistsError
  else Ok (SQL.Object_set tables tableName (SQL.DataFrameObject df)).
Proof.
  unfold SQL.registerTable. simpl.
  by rewrite (bool_decide_ext _ _ (elem_of_listTables tables tableName)).
Qed.

Lemma registerTable_OtherObject (name tableName : string) (overwrite : bool)
    (tables : SQL.Tables) :
  name <> "DataFrame" ->
  SQL.registerTable (SQL.OtherObject name) tableName overwrite tables =
  Throw InputTypeError.
Proof.
  intros Hname. unfold SQL.registerTable. simpl.
  destruct (String.eqb_spec name "DataFrame"); done.
Qed.

(** ** Sorting *)

Section SortFacts.
Variable StringToNumber : string -> option Z.
Variable columnName : string.

Local Abbreviation compareFn := (DataFrame.sortBy_compare StringToNumber columnName).
Local Abbreviation R := (not_after StringToNumber columnName).

Lemma sortBy_compare_spec (p n : Row.t) :
  compareFn p n =
  if bool_decide (typeof (Row.get p columnName) = typeof (Row.get n columnName))
  then Ok (DataFrame.subtract StringToNumber (Row.get p columnName) (Row.get n columnName))
  else Throw MixedTypeError.
Proof.
  unfold DataFrame.sortBy_compare.
  destruct (String.eqb_spec (typeof (Row.get p columnName)) (typeof (Row.get n columnName)));
    simpl.
  - by rewrite bool_decide_eq_true_2.
  - by rewrite bool_decide_eq_false_2.
Qed.

Lemma subtract_positive_swap (x y : Value) :
  is_positive (DataFrame.subtract StringToNumber x y) = true ->
  is_positive (DataFrame.subtract StringToNumber y x) = false.
Proof.
  unfold DataFrame.subtract.
  destruct (DataFrame.ToNumber StringToNumber x), (DataFrame.ToNumber StringToNumber y);
    simpl; try done.
  intros H%bool_decide_eq_true. apply bool_decide_eq_false. lia.
Qed.

Lemma sort_insert_typed (T : string) (x : Row.t) (sorted : list Row.t) :
  typeof (Row.get x columnName) = T ->
  all_typed columnName T sorted ->
  exists l,
    sort_insert compareFn x sorted = Ok l /\
    l ≡ₚ x :: sorted /\
    (forall y, R y x -> HdRel R y sorted -> HdRel R y l) /\
    (Sorted R sorted -> Sorted R l).
Proof.
  intros Hx. induction 1 as [|y sorted Hy Htyped IH].
  - exists [x]. simpl. split_and!; [done|done| |].
    + intros y Hyx _. by constructor.
    + intros _. by repeat constructor.
  - cbn [sort_insert]. rewrite sortBy_compare_spec.
    rewrite bool_decide_eq_true_2 by congruence. simpl.
    destruct (is_positive _) eqn:Hpos.
    + destruct IH as (l & -> & Hperm & Hhd & Hsorted). simpl.
      exists (y :: l). split_and!; [done| | |].
      * rewrite Hperm. apply perm_swap.
      * intros z _ Hz. inversion Hz; subst. by constructor.
      * intros Hs. inversion Hs; subst. constructor; [by apply Hsorted|].
        apply Hhd; [|done]. by apply subtract_positive_swap.
    + exists (x :: y :: sorted). split_and!; [done|done| |].
      * intros z Hzx _. by constructor.
      * intros Hs. constructor; [done|]. by constructor.
Qed.

Lemma Array_sort_cases (rows : list Row.t) :
  (exists l, Array_sort compareFn rows = Ok l /\ l ≡ₚ rows /\ Sorted R l /\
             exists T, all_typed columnName T rows) \/
  (Array_sort compareFn rows = Throw MixedTypeError /\ mixed_types columnName rows).
Proof.
  induction rows as [|x rows IH].
  - left. exists []. simpl. split_and!; [done|done|constructor|].
    exists "". constructor.
  - destruct IH as [(l & Hsort & Hperm & Hsorted & T & Htyped)|[Hsort (p & n & Hp & Hn & Hpn)]].
    + simpl. rewrite Hsort. simpl.
      destruct (decide (rows = [])) as [->|Hne].
      { apply Permutation_nil_r in Hperm as ->. left. exists [x]. simpl.
        split_and!; [done|done|by repeat constructor|].
        exists (typeof (Row.get x columnName)). by repeat constructor. }
      destruct (decide (typeof (Row.get x columnName) = T)) as [Hx|Hx].
      * left.
        assert (all_typed columnName T l) as Htyped'.
        { unfold all_typed. by rewrite Hperm. }
        destruct (sort_insert_typed T x l Hx Htyped') as (l' & Hins & Hperm' & _ & Hs).
        exists l'. split_and!; [done| |by apply Hs|].
        -- rewrite Hperm'. by constructor.
        -- exists T. by constructor.
      * right.
        destruct l as [|y l].
        { apply Permutation_nil_l in Hperm. done. }
        assert (y ∈ rows) as Hy by (rewrite <- Hperm; left).
        assert (typeof (Row.get y columnName) = T) as HyT.
        { unfold all_typed in Htyped. rewrite Forall_forall in Htyped. by apply Htyped. }
        split.
        -- cbn [sort_insert]. rewrite sortBy_compare_spec.
           rewrite bool_decide_eq_false_2 by congruence. done.
        -- exists x, y. split_and!; [left|by right|congruence].
    + right. simpl. rewrite Hsort. split; [done|].
      exists p, n. split_and!; [by right|by right|done].
Qed.

Lemma all_typed_not_mixed (T : string) (rows : list Row.t) :
  all_typed columnName T rows -> ~ mixed_types columnName rows.
Proof.
  unfold all_typed. rewrite Forall_forall.
  intros Htyped (p & n & Hp & Hn & Hpn). apply Hpn.
  by rewrite (Htyped p Hp), (Htyped n Hn).
Qed.

Lemma sorted_numbers (rows : list Row.t) (zs : list Z) :
  Sorted R rows ->
  List.map (fun row => Row.get row columnName) rows = List.map VNum zs ->
  Sorted Z.le zs.
Proof.
  intros Hs. revert zs. induction Hs as [|p rows Hs IH Hhd]; intros zs Heq.
  - destruct zs; [constructor | done].
  - destruct zs as [|z zs]; [done|]. simpl in Heq. injection Heq as Hp Hrest.
    constructor; [by apply IH|].
    destruct Hhd as [|n rows' Hpn].
    + destruct zs; [constructor | done].
    + destruct zs as [|z' zs]; [done|]. constructor.
      simpl in Hrest. injection Hrest as Hn _.
      unfold not_after in Hpn. rewrite Hp, Hn in Hpn.
      simpl in Hpn. apply bool_decide_eq_false in Hpn. lia.
Qed.

Lemma sorted_in_place (h : Heap) (ref : nat) (sorted : list Row.t) :
  sorted ≡ₚ h !!! ref -> <[ref := sorted]> h !!! ref = sorted.
Proof.
  intros Hperm. destruct (decide (ref < length h)) as [Hlt|Hge].
  - by apply list_lookup_total_insert_eq.
  - rewrite list_insert_ge by lia.
    rewrite list_lookup_total_alt, lookup_ge_None_2 in Hperm |- * by lia.
    simpl in *. by apply Permutation_nil_r in Hperm.
Qed.

Lemma sortBy_run (d : DataFrame.t) (reverse : bool) (h : Heap) :
  DataFrame.sortBy StringToNumber d columnName reverse h =
  match Array_sort compareFn (rows_of h d) with
  | Ok sorted =>
      let rows := if reverse then rev sorted else sorted in
      Ok ({| DataFrame.__rows__ := length h;
             DataFrame.__columns__ :=
               instance_columns (DataFrame.__columns__ d) rows (DataFrame.__columns__ d) |},
          <[DataFrame.__rows__ d := rows]> h ++ [rows])
  | Throw e => Throw e
  end.
Proof.
  unfold DataFrame.sortBy, DataFrame.Array_prototype_sort, DataFrame.Array_prototype_reverse.
  run. fold (rows_of h d).
  destruct (Array_sort_cases (rows_of h d)) as [(l & -> & Hperm & _)|[-> _]]; [|done].
  unfold rows_of in Hperm.
  assert (rev l ≡ₚ h !!! DataFrame.__rows__ d) as Hperm'.
  { rewrite <- Hperm. symmetry. apply Permutation_rev. }
  destruct reverse; simpl.
  - rewrite (sorted_in_place h _ l) by done. rewrite list_insert_insert_eq.
    rewrite (sorted_in_place h _ (rev l)) by done.
    rewrite newInstance_OfRows, instance_rows_same. by rewrite length_insert.
  - rewrite (sorted_in_place h _ l) by done.
    rewrite newInstance_OfRows, instance_rows_same. by rewrite length_insert.
Qed.

End SortFacts.

(** ** Distinct values *)

Lemma elem_of_distinct_from {A} {Hdec : EqDecision A} (seen l : list A) (x : A) :
  x ∈ distinct_from seen l <-> x ∈ l /\ x ∉ seen.
Proof.
  revert seen. induction l as [|y l IH]; intros seen; simpl.
  - rewrite elem_of_nil. tauto.
  - case_bool_decide as Hy.
    + rewrite IH, elem_of_cons. split.
      * intros [Hx Hseen]. tauto.
      * intros [[->|Hx] Hseen]; [done | tauto].
    + rewrite !elem_of_cons, IH, elem_of_cons. split.
      * intros [->|[Hx Hseen]]; [tauto|]. split; [tauto|]. intros Hin. apply Hseen. tauto.
      * intros [[->|Hx] Hseen]; [tauto|].
        destruct (decide (x = y)) as [->|Hne]; [tauto|]. right. split; [done|].
        intros [?|?]; done.
Qed.

Lemma elem_of_distinct {A} {Hdec : EqDecision A} (l : list A) (x : A) :
  x ∈ distinct l <-> x ∈ l.
Proof.
  unfold distinct. rewrite elem_of_distinct_from, elem_of_nil. tauto.
Qed.

Lemma distinct_from_map {A B} `{EqDecision A} `{EqDecision B} (f : A -> B)
    (seen l : list A) :
  (forall x y, f x = f y -> x = y) ->
  distinct_from (List.map f seen) (List.map f l) = List.map f (distinct_from seen l).
Proof.
  intros Hinj. revert seen. induction l as [|x l IH]; intros seen; simpl; [done|].
  assert (f x ∈ List.map f seen <-> x ∈ seen) as Hiff.
  { change (List.map f seen) with (f <$> seen). rewrite list_elem_of_fmap. split.
    - by intros (y & ->%Hinj & Hy).
    - intros Hx. by exists x. }
  rewrite (bool_decide_ext _ _ Hiff). case_bool_decide.
  - apply IH.
  - simpl. f_equal. apply (IH (x :: seen)).
Qed.

Lemma distinct_map {A B} `{EqDecision A} `{EqDecision B} (f : A -> B) (l : list A) :
  (forall x y, f x = f y -> x = y) ->
  distinct (List.map f l) = List.map f (distinct l).
Proof. intros Hinj. apply (distinct_from_map f [] l Hinj). Qed.

Lemma normalized_joined_columns (a b : DataFrame.t) :
  normalized (DataFrame.listColumns a) ->
  normalized (DataFrame.listColumns b) ->
  normalized (joined_columns a b).
Proof.
  unfold normalized, joined_columns. rewrite !Forall_forall.
  intros Ha Hb c [Hc|Hc]%elem_of_distinct%elem_of_app; auto.
Qed.

(** ** Heaps that only grow *)

Lemma holds_rows_frame (h t : Heap) (d : DataFrame.t) (rows : list Row.t) :
  holds_rows h d rows -> holds_rows (h ++ t) d rows.
Proof.
  intros [Halloc Hrows]. split.
  - unfold allocated in *. rewrite length_app. lia.
  - by rewrite rows_of_frame.
Qed.

Lemma holds_rows_alloc (h : Heap) (columns : list string) (rows : list Row.t) :
  holds_rows (h ++ [rows])
    {| DataFrame.__rows__ := length h; DataFrame.__columns__ := columns |} rows.
Proof.
  split.
  - unfold allocated. simpl. rewrite length_app. simpl. lia.
  - unfold rows_of. simpl. apply lookup_total_alloc.
Qed.

(** ** Grouping *)

Lemma is_group_frame (h t : Heap) (columns : list string)
    (G : DataFrame.GroupedDataFrame.Group) (g : Value * list Row.t) :
  is_group h columns G g -> is_group (h ++ t) columns G g.
Proof. intros (? & ? & ?). split_and!; [done|done|by apply holds_rows_frame]. Qed.

Lemma iter_groups (rows : list Row.t) (columns : list string) (on : string)
    (keys : list Value) (h : Heap) :
  exists gdf t,
    Reusables.iter (List.map (fun key => [key]) keys)
      (fun key =>
         rows' ← array_new
                   (List.filter
                      (fun row =>
                         bool_decide (DataFrame.GroupedDataFrame.keyOf [on] row = key)) rows);
         mret (Some {| DataFrame.GroupedDataFrame.group :=
                         {| DataFrame.__rows__ := rows'; DataFrame.__columns__ := columns |};
                       DataFrame.GroupedDataFrame.groupKey := combine [on] key |})) h
    = Ok (gdf, h ++ t) /\
    Forall2 (is_group (h ++ t) columns) gdf
      (List.map (fun key =>
                   (key, List.filter (fun row => bool_decide (Row.get row on = key)) rows))
                keys).
Proof.
  revert h. induction keys as [|key keys IH]; intros h.
  - exists [], []. simpl. split; [by rewrite app_nil_r | constructor].
  - cbn [List.map Reusables.iter]. run.
    set (cell := List.filter
                   (fun row => bool_decide (DataFrame.GroupedDataFrame.keyOf [on] row = [key]))
                   rows).
    destruct (IH (h ++ [cell])) as (gdf & t & Hiter & Hgroups).
    rewrite Hiter.
    assert ((h ++ [cell]) ++ t = h ++ cell :: t) as Heq by (by rewrite <- app_assoc).
    rewrite Heq in Hgroups |- *.
    eexists (_ :: gdf), (cell :: t). split; [done|].
    constructor; [|exact Hgroups].
    split_and!; [done|done|]. simpl.
    rewrite <- Heq. apply holds_rows_frame.
    replace (List.filter (fun row => bool_decide (Row.get row on = key)) rows) with cell.
    + apply holds_rows_alloc.
    + apply filter_ext. intros row. apply bool_decide_ext.
      unfold DataFrame.GroupedDataFrame.keyOf. simpl. naive_solver.
Qed.

Lemma groupBy_run (d : DataFrame.t) (on : string) (h : Heap) :
  exists gdf t,
    DataFrame.groupBy d [on] h = Ok (gdf, h ++ t) /\
    Forall2 (is_group (h ++ t) (DataFrame.__columns__ d)) gdf (groups_on on (rows_of h d)).
Proof.
  unfold DataFrame.groupBy, DataFrame.GroupedDataFrame.new, groups_on. run.
  fold (rows_of h d).
  replace (distinct (List.map (DataFrame.GroupedDataFrame.keyOf [on]) (rows_of h d)))
    with (List.map (fun key => [key])
            (distinct (List.map (fun row => Row.get row on) (rows_of h d)))).
  - apply iter_groups.
  - rewrite <- distinct_map by naive_solver. by rewrite map_map.
Qed.

(** ** The join primitive *)

Lemma omap_filter_map {A B} (f : A -> bool) (g : A -> B) (l : list A) :
  omap (fun x => if f x then Some (g x) else None) l = List.map g (List.filter f l).
Proof.
  induction l as [|x l IH]; simpl; [done|].
  destruct (f x); simpl; [f_equal|]; exact IH.
Qed.

Lemma filter_true {A} (l : list A) : List.filter (fun _ => true) l = l.
Proof. induction l as [|x l IH]; simpl; [done | by rewrite IH]. Qed.

Lemma joinByType_selected (gdf1 gdf2 : DataFrame.GroupedDataFrame.t) (type : string) :
  DataFrame._joinByType gdf1 gdf2 type =
  List.map DataFrame.GroupedDataFrame.group
    (List.filter
       (fun G =>
          selected type
            (bool_decide
               (DataFrame.first_value (DataFrame.GroupedDataFrame.groupKey G)
                ∈ List.map DataFrame.first_value
                    (DataFrame.GroupedDataFrame.listGroups gdf2))))
       gdf1).
Proof.
  unfold DataFrame._joinByType, selected, DataFrame.GroupedDataFrame.toCollection.
  destruct (bool_decide (type = "out")) eqn:Hout; simpl.
  - rewrite <- omap_filter_map. reflexivity.
  - destruct (bool_decide (type = "in")) eqn:Hin; simpl.
    + rewrite <- omap_filter_map. reflexivity.
    + by rewrite filter_true.
Qed.

Lemma Forall2_filter {A B} (P : A -> B -> Prop) (f : A -> bool) (g : B -> bool)
    (l1 : list A) (l2 : list B) :
  Forall2 P l1 l2 ->
  (forall x y, P x y -> f x = g y) ->
  Forall2 P (List.filter f l1) (List.filter g l2).
Proof.
  intros HP Hfg. induction HP as [|x y l1 l2 Hxy _ IH]; simpl; [constructor|].
  rewrite (Hfg x y Hxy). destruct (g y); [by constructor | done].
Qed.

Lemma group_keys (h : Heap) (columns : list string) (gdf : DataFrame.GroupedDataFrame.t)
    (G : list (Value * list Row.t)) :
  Forall2 (is_group h columns) gdf G ->
  List.map DataFrame.first_value (DataFrame.GroupedDataFrame.listGroups gdf) = List.map fst G.
Proof.
  unfold DataFrame.GroupedDataFrame.listGroups.
  induction 1 as [|x y gdf G (Hkey & _) _ IH]; simpl; [done|].
  by rewrite Hkey, IH.
Qed.

Lemma joinByType_sides (h : Heap) (columns1 columns2 : list string)
    (gdf1 gdf2 : DataFrame.GroupedDataFrame.t) (G1 G2 : list (Value * list Row.t))
    (type : string) :
  Forall2 (is_group h columns1) gdf1 G1 ->
  Forall2 (is_group h columns2) gdf2 G2 ->
  Forall2 (is_side h) (DataFrame._joinByType gdf1 gdf2 type)
    (List.map (fun rows => (columns1, rows))
       (List.map snd
          (List.filter (fun g => selected type (bool_decide (g.1 ∈ List.map fst G2))) G1))).
Proof.
  intros H1 H2. rewrite joinByType_selected, (group_keys _ _ _ _ H2).
  rewrite map_map.
  apply Forall2_fmap.
  eapply Forall2_impl.
  - apply (Forall2_filter _ _ _ _ _ H1). intros G g (Hkey & _). by rewrite Hkey.
  - intros G g (_ & Hcols & Hrows). by split.
Qed.

Lemma restructure_run (d : DataFrame.t) (newColumnNames : list string) (h : Heap) :
  DataFrame.restructure d newColumnNames h =
  Ok ({| DataFrame.__rows__ := length h;
         DataFrame.__columns__ :=
           instance_columns (DataFrame.__columns__ d) (rows_of h d) newColumnNames |},
      h ++ [instance_rows (DataFrame.__columns__ d) (rows_of h d) newColumnNames]).
Proof.
  unfold DataFrame.restructure. run. fold (rows_of h d). apply newInstance_OfRows.
Qed.

Lemma is_side_frame (h t : Heap) (d : DataFrame.t) (side : list string * list Row.t) :
  is_side h d side -> is_side (h ++ t) d side.
Proof. intros [? ?]. split; [done | by apply holds_rows_frame]. Qed.

Lemma iter_restructure (columns : list string) (gs : list DataFrame.t)
    (sides : list (list string * list Row.t)) (h : Heap) :
  Forall2 (is_side h) gs sides ->
  exists ds t,
    Reusables.iter gs
      (fun group => g ← DataFrame.restructure group columns; mret (Some g)) h
    = Ok (ds, h ++ t) /\
    Forall2 (is_side (h ++ t)) ds (List.map (restructured columns) sides).
Proof.
  intros Hsides. revert sides h Hsides.
  induction gs as [|g gs IH]; intros sides h Hsides.
  - apply Forall2_nil_inv_l in Hsides as ->.
    exists [], []. simpl. split; [by rewrite app_nil_r | constructor].
  - apply Forall2_cons_inv_l in Hsides as (side & sides' & (Hcols & Halloc & Hrows) & Hrest & ->).
    cbn [Reusables.iter]. run. rewrite restructure_run.
    set (cell := instance_rows (DataFrame.__columns__ g) (rows_of h g) columns).
    destruct (IH sides' (h ++ [cell])) as (ds & t & Hiter & Hds).
    { eapply Forall2_impl; [exact Hrest|]. intros. by apply is_side_frame. }
    rewrite Hiter.
    assert ((h ++ [cell]) ++ t = h ++ cell :: t) as Heq by (by rewrite <- app_assoc).
    rewrite Heq in Hds |- *.
    eexists (_ :: ds), (cell :: t). split; [done|].
    cbn [List.map]. constructor; [|exact Hds].
    unfold restructured. split; simpl.
    + by rewrite Hcols, Hrows.
    + rewrite <- Heq. apply holds_rows_frame.
      subst cell. rewrite Hcols, Hrows. apply holds_rows_alloc.
Qed.

Lemma instance_columns_normalized (this_columns columns : list string) (rows : list Row.t) :
  normalized columns -> instance_columns this_columns rows columns = columns.
Proof.
  intros Hn. unfold instance_columns.
  destruct (kept_as_is _ _ _); by rewrite !(dropSpaces_normalized columns).
Qed.

Lemma instance_rows_padded (this_columns columns : list string) (rows : list Row.t) :
  normalized columns ->
  instance_rows this_columns rows columns = padded columns this_columns rows.
Proof.
  intros Hn. unfold instance_rows, padded.
  rewrite instance_columns_normalized by done.
  unfold kept_as_is. destruct rows as [|row rows]; [by case_bool_decide|].
  reflexivity.
Qed.

Lemma foldM_union (C : list string) (rest : list DataFrame.t)
    (contents : list (list Row.t)) (acc : DataFrame.t) (rows : list Row.t) (h : Heap) :
  normalized C ->
  is_side h acc (C, rows) ->
  Forall2 (fun d rows' => is_side h d (C, rows')) rest contents ->
  exists d' t,
    foldM (fun p n => DataFrame.union p n) acc rest h = Ok (d', h ++ t) /\
    is_side (h ++ t) d' (C, rows ++ concat contents).
Proof.
  intros HC Hacc Hrest. revert contents acc rows h Hacc Hrest.
  induction rest as [|d rest IH]; intros contents acc rows h Hacc Hrest.
  - apply Forall2_nil_inv_l in Hrest as ->.
    exists acc, []. simpl. rewrite !app_nil_r. by split.
  - apply Forall2_cons_inv_l in Hrest as (rows' & contents' & Hd & Hrest & ->).
    destruct Hacc as (Hacc_cols & Hacc_alloc & Hacc_rows). simpl in Hacc_cols, Hacc_rows.
    destruct Hd as (Hd_cols & Hd_alloc & Hd_rows). simpl in Hd_cols, Hd_rows.
    cbn [foldM]. run. rewrite union_run.
    rewrite bool_decide_eq_true_2 by congruence.
    rewrite Hacc_cols, Hacc_rows, Hd_rows.
    rewrite instance_columns_normalized by done.
    destruct (IH contents'
                {| DataFrame.__rows__ := length h; DataFrame.__columns__ := C |}
                (rows ++ rows') (h ++ [rows ++ rows'])) as (d' & t & Hfold & Hside).
    { split; [done|]. apply holds_rows_alloc. }
    { eapply Forall2_impl; [exact Hrest|]. intros. by apply is_side_frame. }
    rewrite Hfold.
    assert ((h ++ [rows ++ rows']) ++ t = h ++ (rows ++ rows') :: t) as Heq
      by (by rewrite <- app_assoc).
    rewrite Heq in Hside |- *.
    eexists d', (_ :: t). split; [done|].
    simpl. by rewrite app_assoc.
Qed.

Lemma join_prepare (a b : DataFrame.t) (on : string) (types : string * string) (h : Heap) :
  allocated h b ->
  exists ds t,
    DataFrame._join a b on types h =
      Array_reduce (fun p n => DataFrame.union p n) ds (h ++ t) /\
    Forall2 (is_side (h ++ t)) ds
      (List.map (restructured (joined_columns a b)) (join_sides a b on types h)).
Proof.
  intros Hb. unfold DataFrame._join. run.
  destruct (groupBy_run a on h) as (gdf & t1 & -> & Hgdf).
  destruct (groupBy_run b on (h ++ t1)) as (gdf' & t2 & -> & Hgdf').
  rewrite (rows_of_frame b h t1 Hb) in Hgdf'.
  apply (Forall2_impl _ (is_group ((h ++ t1) ++ t2) (DataFrame.__columns__ a))) in Hgdf;
    [|intros; by apply is_group_frame].
  pose proof (joinByType_sides _ _ _ _ _ _ _ types.1 Hgdf Hgdf') as Hleft.
  pose proof (joinByType_sides _ _ _ _ _ _ _ types.2 Hgdf' Hgdf) as Hright.
  pose proof (Forall2_app Hleft Hright) as Hsides.
  destruct (iter_restructure (joined_columns a b) _ _ _ Hsides) as (ds & t3 & Hiter & Hds).
  unfold joined_columns in *. run. rewrite Hiter.
  exists ds, (t1 ++ t2 ++ t3).
  replace (h ++ t1 ++ t2 ++ t3) with (((h ++ t1) ++ t2) ++ t3)
    by (by rewrite <- !app_assoc).
  split; [done|]. exact Hds.
Qed.

Lemma join_empty (a b : DataFrame.t) (on : string) (types : string * string) (h : Heap) :
  allocated h b ->
  join_sides a b on types h = [] ->
  DataFrame._join a b on types h = Throw TypeError.
Proof.
  intros Hb Hnil.
  destruct (join_prepare a b on types h Hb) as (ds & t & -> & Hds).
  rewrite Hnil in Hds. simpl in Hds. by apply Forall2_nil_inv_r in Hds as ->.
Qed.

Lemma restructured_normalized (a b : DataFrame.t) (on : string)
    (types : string * string) (h : Heap) :
  normalized (joined_columns a b) ->
  List.map (restructured (joined_columns a b)) (join_sides a b on types h) =
  List.map (fun rows => (joined_columns a b, rows))
    (List.map (padded (joined_columns a b) (DataFrame.__columns__ a))
       (included_groups (selected types.1) on (rows_of h a) (rows_of h b)) ++
     List.map (padded (joined_columns a b) (DataFrame.__columns__ b))
       (included_groups (selected types.2) on (rows_of h b) (rows_of h a))).
Proof.
  intros Hn. unfold join_sides, restructured.
  rewrite !map_app, !map_map. simpl.
  f_equal; apply map_ext; intros rows;
    by rewrite instance_columns_normalized, instance_rows_padded.
Qed.

Lemma join_run (a b : DataFrame.t) (on : string) (types : string * string) (h : Heap) :
  allocated h b ->
  normalized (DataFrame.listColumns a) ->
  normalized (DataFrame.listColumns b) ->
  join_sides a b on types h <> [] ->
  exists d' t,
    DataFrame._join a b on types h = Ok (d', h ++ t) /\
    is_side (h ++ t) d'
      (joined_columns a b, joined_rows a b on (selected types.1) (selected types.2) h).
Proof.
  intros Hb Hna Hnb Hne.
  pose proof (normalized_joined_columns a b Hna Hnb) as Hn.
  destruct (join_prepare a b on types h Hb) as (ds & t & -> & Hds).
  rewrite restructured_normalized in Hds by done.
  unfold joined_rows.
  destruct ds as [|d ds].
  { apply Forall2_nil_inv_l in Hds. apply map_eq_nil in Hds.
    exfalso. apply Hne. unfold join_sides.
    apply app_eq_nil in Hds as [H1%map_eq_nil H2%map_eq_nil]. by rewrite H1, H2. }
  apply Forall2_cons_inv_l in Hds as (side & sides & Hd & Hrest & Heq).
  destruct (List.map (padded _ _) _ ++ List.map (padded _ _) _) as [|rows contents] eqn:Hc;
    [done|].
  simpl in Heq. injection Heq as <- <-.
  cbn [Array_reduce].
  destruct (foldM_union (joined_columns a b) ds contents d rows (h ++ t) Hn Hd)
    as (d' & t' & Hfold & Hside).
  { exact (proj1 (Forall2_fmap_r (fun rows' => (joined_columns a b, rows')) _ _ _) Hrest). }
  rewrite Hfold. exists d', (t ++ t'). rewrite app_assoc. by split.
Qed.

(** * The receiver of a transformation *)

Lemma observe_frame (d : DataFrame.t) (h t : Heap) :
  allocated h d -> observe d (h ++ t) = observe d h.
Proof. intros Hd. apply observe_rows_of. by apply rows_of_frame. Qed.

Lemma filter_empty_mapping (d : DataFrame.t) (h : Heap) :
  rows_of h d <> [] ->
  DataFrame.filter d (DataFrame.Mapping []) h = Throw TypeError.
Proof.
  intros Hrows. unfold DataFrame.filter. run. fold (rows_of h d).
  destruct (rows_of h d); [done|]. reflexivity.
Qed.

Lemma foldM_union_grows (rest : list DataFrame.t) (acc d' : DataFrame.t) (h h' : Heap) :
  foldM (fun p n => DataFrame.union p n) acc rest h = Ok (d', h') ->
  exists t, h' = h ++ t.
Proof.
  revert acc h. induction rest as [|d rest IH]; intros acc h; simpl.
  - intros [= _ <-]. exists []. by rewrite app_nil_r.
  - run. rewrite union_run. case_bool_decide; [|done].
    intros (t & ->)%IH. eexists (_ :: t). by rewrite <- app_assoc.
Qed.

(** [restructure], [renameAll], [filter], [map], [chain], [union] and
    the joins allocate the rows of their result and write nowhere
    else: what can be observed of the receiver (and of the other
    operand) stays as it was. *)
Lemma transformations_keep_receiver (d : DataFrame.t) (h : Heap) :
  allocated h d ->
  (forall columns d' h',
     DataFrame.restructure d columns h = Ok (d', h') -> observe d h' = observe d h) /\
  (forall columns d' h',
     DataFrame.renameAll d columns h = Ok (d', h') -> observe d h' = observe d h) /\
  (forall condition d' h',
     DataFrame.filter d condition h = Ok (d', h') -> observe d h' = observe d h) /\
  (forall func d' h',
     DataFrame.map d func h = Ok (d', h') -> observe d h' = observe d h) /\
  (forall funcs d' h',
     DataFrame.chain d funcs h = Ok (d', h') -> observe d h' = observe d h) /\
  (forall other d' h',
     DataFrame.union d other h = Ok (d', h') -> observe d h' = observe d h) /\
  (forall other d' h',
     DataFrame.union other d h = Ok (d', h') -> observe d h' = observe d h) /\
  (forall other on how d' h',
     DataFrame.join other d on how h = Ok (d', h') -> observe d h' = observe d h) /\
  (forall other on how d' h',
     allocated h other ->
     DataFrame.join d other on how h = Ok (d', h') -> observe d h' = observe d h).
Proof.
  intros Hd.
  assert (forall a b on how d' h',
            allocated h b ->
            DataFrame.join a b on how h = Ok (d', h') -> exists t, h' = h ++ t) as Hjoin.
  { intros a b on how d' h' Hb.
    assert (forall types, DataFrame._join a b on types h = Ok (d', h') ->
                          exists t, h' = h ++ t) as Hgrows.
    { intros types. destruct (join_prepare a b on types h Hb) as (ds & t & -> & _).
      destruct ds as [|d1 ds]; [done|]. cbn [Array_reduce].
      intros (t' & ->)%foldM_union_grows. exists (t ++ t'). by rewrite app_assoc. }
    unfold DataFrame.join, DataFrame.innerJoin, DataFrame.fullJoin, DataFrame.outerJoin,
      DataFrame.leftJoin, DataFrame.rightJoin.
    repeat case_bool_decide; try apply Hgrows. done. }
  split_and!.
  - intros columns d' h'. rewrite restructure_run. intros [= _ <-]. by apply observe_frame.
  - intros columns d' h'. rewrite renameAll_run. case_bool_decide; [|done].
    intros [= _ <-]. by apply observe_frame.
  - intros condition d' h' Hrun.
    assert (condition = DataFrame.Mapping [] /\ rows_of h d <> [] \/
            (condition = DataFrame.Mapping [] -> rows_of h d = [])) as [[-> Hne]|Hok].
    { destruct condition as [f|[|entry o]]; [by right| |by right].
      destruct (rows_of h d); [by right | by left]. }
    + by rewrite filter_empty_mapping in Hrun.
    + rewrite filter_run in Hrun by done.
      injection Hrun as _ <-. by apply observe_frame.
  - intros func d' h'. rewrite map_run. intros [= _ <-]. by apply observe_frame.
  - intros funcs d' h'. rewrite chain_run. intros [= _ <-]. by apply observe_frame.
  - intros other d' h'. rewrite union_run. case_bool_decide; [|done].
    intros [= _ <-]. by apply observe_frame.
  - intros other d' h'. rewrite union_run. case_bool_decide; [|done].
    intros [= _ <-]. by apply observe_frame.
  - intros other on how d' h' (t & ->)%Hjoin; [|done]. by apply observe_frame.
  - intros other on how d' h' Hother (t & ->)%Hjoin; [|done]. by apply observe_frame.
Qed.

Lemma sortBy_receiver (StringToNumber : string -> option Z) (d d' : DataFrame.t)
    (columnName : string) (reverse : bool) (h h' : Heap) :
  allocated h d ->
  DataFrame.sortBy StringToNumber d columnName reverse h = Ok (d', h') ->
  rows_of h' d = rows_of h' d'.
Proof.
  intros Hd. rewrite sortBy_run.
  destruct (Array_sort _ _) as [sorted|]; [|done]. simpl. intros [= <- <-].
  unfold rows_of. simpl.
  rewrite <- (length_insert h (DataFrame.__rows__ d) (if reverse then rev sorted else sorted)).
  rewrite lookup_total_alloc, lookup_total_app_l by (by rewrite length_insert).
  by rewrite list_lookup_total_insert_eq.
Qed.

(** C1. Immutability fails for [sortBy]: [Array.prototype.sort] sorts
    [this[__rows__]] itself before the result is copied out of it, so
    after [d.sortBy('n')] on the rows [[2], [1]] the receiver's own
    [toArray()] has changed from [[2], [1]] to [[1], [2]]. *)
Theorem sortBy_sorts_the_receiver_in_place (StringToNumber : string -> option Z) :
  exists d h d' h',
    DataFrame.new (DataFrame.OfArrays [[VNum 2]; [VNum 1]]) ["n"] [] = Ok (d, h) /\
    DataFrame.sortBy StringToNumber d "n" false h = Ok (d', h') /\
    observe d h = (Ok 2, ["n"], Ok [[VNum 2]; [VNum 1]]) /\
    observe d h' = (Ok 2, ["n"], Ok [[VNum 1]; [VNum 2]]).
Proof. do 4 eexists. split_and!; reflexivity. Qed.

(** * Chain fusion *)

(** C2. [d.chain(steps...)] returns the rows, in the order, that
    applying the steps one after the other with plain [.filter()] and
    [.map()] returns; they are images of rows of [d] taken in order,
    and there are at most [d.count()] of them. *)
Theorem chain_fusion (d : DataFrame.t) (steps : list RowStep) (h : Heap) :
  exists dc hc ds hs,
    DataFrame.chain d (List.map chain_func steps) h = Ok (dc, hc) /\
    sequentially d steps h = Ok (ds, hs) /\
    returned (DataFrame.toCollection dc hc) = returned (DataFrame.toCollection ds hs) /\
    (exists g, rows_of hc dc = omap g (rows_of h d)) /\
    exists n m,
      returned (DataFrame.count dc hc) = Ok n /\
      returned (DataFrame.count d h) = Ok m /\
      n <= m.
Proof.
  destruct (sequentially_run steps d h) as (ds & hs & Hseq & Hrows).
  eexists _, _, ds, hs. rewrite chain_run. split; [reflexivity|].
  split; [exact Hseq|].
  rewrite !toCollection_run, !count_run. simpl. rewrite !rows_of_alloc.
  split_and!.
  - by rewrite Hrows, chain_steps.
  - by eexists.
  - eexists _, _. split_and!; [done|done|]. apply omap_length_le.
Qed.

(** * Union *)

(** C4. With identical column lists [a.union(b)] returns the rows of
    [a] followed by those of [b], [a.count() + b.count()] of them; with
    different ones it throws [WrongSchemaError]. *)
Theorem union_spec (a b : DataFrame.t) (h : Heap) :
  (DataFrame.listColumns a = DataFrame.listColumns b ->
   exists d' h',
     DataFrame.union a b h = Ok (d', h') /\
     rows_of h' d' = rows_of h a ++ rows_of h b /\
     exists n m,
       returned (DataFrame.count a h) = Ok n /\
       returned (DataFrame.count b h) = Ok m /\
       returned (DataFrame.count d' h') = Ok (n + m)) /\
  (DataFrame.listColumns a <> DataFrame.listColumns b ->
   DataFrame.union a b h = Throw WrongSchemaError).
Proof.
  unfold DataFrame.listColumns. rewrite union_run. split; intros Hcols.
  - rewrite bool_decide_eq_true_2 by done. eexists _, _. split; [reflexivity|].
    rewrite !count_run, !rows_of_alloc.
    split; [done|]. eexists _, _. split_and!; [done|done|]. simpl.
    by rewrite length_app.
  - by rewrite bool_decide_eq_false_2.
Qed.

Lemma union_spec_witness :
  (exists d' h',
     DataFrame.union example_right example_disjoint example_heap = Ok (d', h') /\
     rows_of h' d' =
       rows_of example_heap example_right ++ rows_of example_heap example_disjoint /\
     exists n m,
       returned (DataFrame.count example_right example_heap) = Ok n /\
       returned (DataFrame.count example_disjoint example_heap) = Ok m /\
       returned (DataFrame.count d' h') = Ok (n + m)) /\
  DataFrame.union example_left example_right example_heap = Throw WrongSchemaError.
Proof.
  split.
  - apply (proj1 (union_spec example_right example_disjoint example_heap)). reflexivity.
  - apply (proj2 (union_spec example_left example_right example_heap)). discriminate.
Defined.

(** * Filter *)

(** Whenever the condition can be evaluated, [filter] returns exactly
    the rows that satisfy it, in their order; and when none does, the
    result has no rows and no columns. *)
Lemma filter_spec (d : DataFrame.t) (condition : DataFrame.condition) (h : Heap) :
  (condition = DataFrame.Mapping [] -> rows_of h d = []) ->
  exists d' h',
    DataFrame.filter d condition h = Ok (d', h') /\
    rows_of h' d' = List.filter (satisfies condition) (rows_of h d) /\
    length (rows_of h' d') <= length (rows_of h d) /\
    ((forall row, row ∈ rows_of h d -> satisfies condition row = false) ->
     rows_of h' d' = [] /\ DataFrame.listColumns d' = []).
Proof.
  intros Hcond. rewrite filter_run by done. eexists _, _. split; [reflexivity|].
  rewrite !rows_of_alloc.
  split_and!; [done|apply filter_length_le|].
  intros Hnone.
  rewrite (filter_none _ _ Hnone).
  by rewrite bool_decide_eq_false_2 by naive_solver.
Qed.

(** C5. The column/value object without any pair: the conjunction of
    its pairs holds of every row, and [filter] should return all of
    them; the code reduces the empty array of comparisons without an
    initial value and throws [TypeError] as soon as there is a row. *)
Theorem filter_empty_mapping_throws :
  exists d h,
    DataFrame.new (DataFrame.OfObjects [[("c1", VNum 1); ("c2", VNum 2)]]) ["c1"; "c2"] []
      = Ok (d, h) /\
    (forall row, row ∈ rows_of h d -> satisfies (DataFrame.Mapping []) row = true) /\
    DataFrame.filter d (DataFrame.Mapping []) h = Throw TypeError.
Proof. do 2 eexists. split_and!; [reflexivity|done|reflexivity]. Qed.

(** * Column names *)

(** C7. The constructor removes the first space of a column name and
    no other: the name ["a b c"] becomes ["ab c"], not ["abc"]. *)
Theorem constructor_strips_first_space_only :
  exists d h,
    DataFrame.new (DataFrame.OfArrays [[VNum 1]]) ["a b c"] [] = Ok (d, h) /\
    DataFrame.listColumns d = ["ab c"] /\
    DataFrame.listColumns d <> [strip_spaces "a b c"].
Proof. do 2 eexists. split_and!; [reflexivity|reflexivity|discriminate]. Qed.

(** * Renaming *)








(** * The table registry *)

(** Registering a DataFrame throws [TableAlreadyExistsError] exactly
    when the name is taken and [overwrite] is off; otherwise it
    returns, and for a name other than [__proto__], or one that is
    listed, the name maps to the DataFrame afterwards and
    [listTables()] has it. *)
Lemma registerTable_spec (df : DataFrame.t) (n : string) (overwrite : bool)
    (tables : SQL.Tables) :
  (SQL.registerTable (SQL.DataFrameObject df) n overwrite tables
     = Throw TableAlreadyExistsError <->
   n ∈ SQL.listTables tables /\ overwrite = false) /\
  (~ (n ∈ SQL.listTables tables /\ overwrite = false) ->
   exists tables',
     SQL.registerTable (SQL.DataFrameObject df) n overwrite tables = Ok tables' /\
     (n <> "__proto__" \/ n ∈ SQL.listTables tables ->
      SQL.own tables' !! n = Some (SQL.DataFrameObject df) /\
      (forall n', n' <> n -> SQL.own tables' !! n' = SQL.own tables !! n') /\
      SQL.prototype tables' = SQL.prototype tables /\
      n ∈ SQL.listTables tables')).
Proof.
  rewrite registerTable_DataFrame, elem_of_listTables.
  assert (exists tables',
            Ok (SQL.Object_set tables n (SQL.DataFrameObject df)) = Ok tables' /\
            (n <> "__proto__" \/ n ∈ SQL.listTables tables ->
             SQL.own tables' !! n = Some (SQL.DataFrameObject df) /\
             (forall n', n' <> n -> SQL.own tables' !! n' = SQL.own tables !! n') /\
             SQL.prototype tables' = SQL.prototype tables /\
             n ∈ SQL.listTables tables')) as Hset.
  { eexists. split; [done|]. intros Hname. rewrite elem_of_listTables in Hname.
    rewrite (Object_set_own _ _ _ Hname).
    split_and!; simpl; [by rewrite lookup_insert_eq| |done|].
    - intros n' Hn'. by rewrite lookup_insert_ne.
    - apply elem_of_listTables. simpl. by rewrite lookup_insert_eq. }
  destruct overwrite; simpl; rewrite ?andb_false_r, ?andb_true_r.
  - split; [|done]. split; [done | by intros [_ ?]].
  - case_bool_decide as Hreg.
    + split; [done|]. intros Hfree. exfalso. by apply Hfree.
    + split; [|done]. split; [done | by intros [? _]].
Qed.

(** C9. A value that is not a DataFrame is not always turned away with
    [InputTypeError]: [undefined] has no [constructor] to read, and
    registering it is a [TypeError].  [renameTable] hands [undefined]
    to [registerTable] when the table to rename does not exist. *)
Theorem registerTable_undefined_is_TypeError :
  SQL.registerTable SQL.Nullish "tmp" false ∅ = Throw TypeError /\
  SQL.registerTable SQL.Nullish "tmp" false ∅ <> Throw InputTypeError /\
  SQL.renameTable "tmp" "tmp2" false ∅ = Throw TypeError.
Proof. split_and!; [reflexivity|discriminate|reflexivity]. Qed.

(** * Sorting *)

Lemma rows_of_sorted (h : Heap) (ref : nat) (rows rows' : list Row.t)
    (columns : list string) :
  rows_of (<[ref := rows]> h ++ [rows'])
    {| DataFrame.__rows__ := length h; DataFrame.__columns__ := columns |} = rows'.
Proof.
  rewrite <- (length_insert h ref rows). apply rows_of_alloc.
Qed.

(** C6. The comparator of [sortBy] throws [MixedTypeError] on two
    values of different runtime types and is their subtraction
    otherwise; [sortBy] throws it exactly when two rows hold values of
    different types in the column, and it returns, with and without
    [reverse], whenever no two rows do.  When it returns, the rows are
    those of [d], rearranged so that the comparator puts no row after
    its successor: ascending numbers, when the column holds numbers.
    With [reverse] the same rows come in the reverse order, and the
    call fails in the same cases. *)
Theorem sortBy_spec (StringToNumber : string -> option Z) (d : DataFrame.t)
    (c : string) (h : Heap) :
  (forall p n,
     DataFrame.sortBy_compare StringToNumber c p n =
     if bool_decide (typeof (Row.get p c) = typeof (Row.get n c))
     then Ok (DataFrame.subtract StringToNumber (Row.get p c) (Row.get n c))
     else Throw MixedTypeError) /\
  (mixed_types c (rows_of h d) <->
   DataFrame.sortBy StringToNumber d c false h = Throw MixedTypeError) /\
  (forall d' h',
     DataFrame.sortBy StringToNumber d c false h = Ok (d', h') ->
     rows_of h' d' ≡ₚ rows_of h d /\
     Sorted (not_after StringToNumber c) (rows_of h' d') /\
     forall zs, column_of h' d' c = List.map VNum zs -> Sorted Z.le zs) /\
  (forall e,
     DataFrame.sortBy StringToNumber d c true h = Throw e <->
     DataFrame.sortBy StringToNumber d c false h = Throw e) /\
  (forall d1 h1,
     DataFrame.sortBy StringToNumber d c false h = Ok (d1, h1) ->
     exists d2 h2,
       DataFrame.sortBy StringToNumber d c true h = Ok (d2, h2) /\
       rows_of h2 d2 = rev (rows_of h1 d1)) /\
  (~ mixed_types c (rows_of h d) ->
   exists d1 h1 d2 h2,
     DataFrame.sortBy StringToNumber d c false h = Ok (d1, h1) /\
     DataFrame.sortBy StringToNumber d c true h = Ok (d2, h2) /\
     rows_of h1 d1 ≡ₚ rows_of h d /\
     Sorted (not_after StringToNumber c) (rows_of h1 d1) /\
     rows_of h2 d2 = rev (rows_of h1 d1)).
Proof.
  split; [apply sortBy_compare_spec|].
  rewrite !sortBy_run.
  destruct (Array_sort_cases StringToNumber c (rows_of h d))
    as [(l & -> & Hperm & Hsorted & T & Htyped)|[-> Hmixed]].
  - split_and!.
    + split; [|done]. intros Hmixed. by apply all_typed_not_mixed in Htyped.
    + intros d' h' [= <- <-]. rewrite rows_of_sorted.
      split_and!; [done|done|].
      intros zs Hzs. unfold column_of in Hzs. rewrite rows_of_sorted in Hzs.
      by eapply sorted_numbers.
    + done.
    + intros d1 h1 [= <- <-]. eexists _, _. split; [reflexivity|].
      by rewrite !rows_of_sorted.
    + intros _. eexists _, _, _, _. split; [reflexivity|]. split; [reflexivity|].
      by rewrite !rows_of_sorted.
  - split_and!; done.
Qed.

Lemma sortBy_spec_witness :
  exists d h d1 h1 d2 h2 m hm,
    DataFrame.new (DataFrame.OfArrays [[VNum 3]; [VNum 1]; [VNum 2]]) ["n"] [] = Ok (d, h) /\
    ~ mixed_types "n" (rows_of h d) /\
    DataFrame.sortBy (fun _ => None) d "n" false h = Ok (d1, h1) /\
    column_of h1 d1 "n" = [VNum 1; VNum 2; VNum 3] /\
    Sorted Z.le [1; 2; 3]%Z /\
    DataFrame.sortBy (fun _ => None) d "n" true h = Ok (d2, h2) /\
    rows_of h2 d2 = rev (rows_of h1 d1) /\
    DataFrame.new (DataFrame.OfArrays [[VNum 1]; [VStr "a"]]) ["n"] [] = Ok (m, hm) /\
    mixed_types "n" (rows_of hm m) /\
    DataFrame.sortBy (fun _ => None) m "n" false hm = Throw MixedTypeError.
Proof.
  do 4 eexists.
  destruct (sortBy_spec (fun _ => None)
              {| DataFrame.__rows__ := 0; DataFrame.__columns__ := ["n"] |} "n"
              [[[("n", VNum 3)]; [("n", VNum 1)]; [("n", VNum 2)]]])
    as (_ & _ & Hasc & _ & Hrev & Hreturns).
  assert (Hsame : ~ mixed_types "n"
                    [[("n", VNum 3)]; [("n", VNum 1)]; [("n", VNum 2)]]).
  { apply (all_typed_not_mixed "n" "number"). repeat constructor. }
  destruct (Hreturns Hsame) as (d1 & h1 & _ & _ & Hrun1 & _).
  injection Hrun1 as <- <-.
  destruct (Hrev _ _ eq_refl) as (d2 & h2 & Hrun2 & Hrows2).
  destruct (Hasc _ _ eq_refl) as (_ & _ & Hnum).
  exists d2, h2.
  destruct (sortBy_spec (fun _ => None)
              {| DataFrame.__rows__ := 0; DataFrame.__columns__ := ["n"] |} "n"
              [[[("n", VNum 1)]; [("n", VStr "a")]]])
    as (_ & Hmixed & _).
  do 2 eexists.
  split_and!;
    [reflexivity|exact Hsame|reflexivity|reflexivity| |exact Hrun2|exact Hrows2|reflexivity| |].
  - apply (Hnum [1; 2; 3]%Z). reflexivity.
  - apply Hmixed. reflexivity.
  - reflexivity.
Defined.

(** * Joins *)

Lemma join_how (a b : DataFrame.t) (k : string) (mode : JoinMode) (h : Heap) :
  DataFrame.join a b k (how mode) h = DataFrame._join a b k (types_of mode) h.
Proof. destruct mode; reflexivity. Qed.

Lemma selected_types_of (mode : JoinMode) (present : bool) :
  selected (types_of mode).1 present = left_included mode present /\
  selected (types_of mode).2 present = right_included mode present.
Proof. destruct mode; split; reflexivity. Qed.

Lemma included_groups_ext (test test' : bool -> bool) (k : string)
    (rows other : list Row.t) :
  (forall present, test present = test' present) ->
  included_groups test k rows other = included_groups test' k rows other.
Proof.
  intros Hext. unfold included_groups. f_equal. apply filter_ext. intros g. apply Hext.
Qed.

Lemma group_keys_on (k : string) (rows : list Row.t) (v : Value) :
  v ∈ List.map fst (groups_on k rows) <-> v ∈ List.map (fun row => Row.get row k) rows.
Proof.
  unfold groups_on. rewrite map_map. simpl. rewrite map_id.
  apply elem_of_distinct.
Qed.

Lemma elem_of_List_filter {A} (f : A -> bool) (l : list A) (x : A) :
  x ∈ List.filter f l <-> x ∈ l /\ f x = true.
Proof. rewrite !list_elem_of_In. apply filter_In. Qed.

Lemma elem_of_List_map {A B} (f : A -> B) (l : list A) (y : B) :
  y ∈ List.map f l <-> exists x, y = f x /\ x ∈ l.
Proof. apply list_elem_of_fmap. Qed.

Lemma elem_of_concat {A} (ls : list (list A)) (x : A) :
  x ∈ concat ls <-> exists l, x ∈ l /\ l ∈ ls.
Proof.
  rewrite list_elem_of_In, in_concat. split.
  - intros (l & Hl & Hx). exists l. by rewrite !list_elem_of_In.
  - intros (l & Hx & Hl). exists l. by rewrite <- !list_elem_of_In.
Qed.

Lemma elem_of_included_groups (test : bool -> bool) (k : string)
    (rows other g : list Row.t) :
  g ∈ included_groups test k rows other ->
  exists v,
    v ∈ List.map (fun row => Row.get row k) rows /\
    test (bool_decide (v ∈ List.map (fun row => Row.get row k) other)) = true /\
    g = List.filter (fun row => bool_decide (Row.get row k = v)) rows.
Proof.
  unfold included_groups. intros ([v g'] & -> & [Hg Htest]%elem_of_List_filter)%elem_of_List_map.
  exists v. simpl in *.
  rewrite (bool_decide_ext _ _ (group_keys_on k other v)) in Htest.
  assert (v ∈ List.map fst (groups_on k rows)) as Hv.
  { apply elem_of_List_map. by exists (v, g'). }
  apply group_keys_on in Hv. split_and!; [done|done|].
  unfold groups_on in Hg. apply elem_of_List_map in Hg as (v' & [= -> ->] & _). done.
Qed.

Lemma included_groups_nil (test : bool -> bool) (k : string) (rows other : list Row.t) :
  (forall v, v ∈ List.map (fun row => Row.get row k) rows ->
             test (bool_decide (v ∈ List.map (fun row => Row.get row k) other)) = false) ->
  included_groups test k rows other = [].
Proof.
  intros Hnone. unfold included_groups. rewrite filter_none; [done|].
  intros [v g] Hg. simpl.
  rewrite (bool_decide_ext _ _ (group_keys_on k other v)). apply Hnone.
  apply group_keys_on. apply elem_of_List_map. by exists (v, g).
Qed.

Lemma elem_of_dropSpaces (columns : list string) (k : string) :
  k ∈ columns -> has_space k = false -> k ∈ DataFrame._dropSpacesInColumnNames columns.
Proof.
  intros Hk Hspace. apply elem_of_List_map. exists k.
  by rewrite String_replace_no_space.
Qed.

Lemma instance_rows_get (this_columns columns : list string) (rows : list Row.t)
    (row : Row.t) (k : string) :
  k ∈ columns ->
  has_space k = false ->
  row ∈ instance_rows this_columns rows columns ->
  exists row0, row0 ∈ rows /\ Row.get row k = Row.get row0 k.
Proof.
  intros Hk Hspace. unfold instance_rows, instance_columns.
  destruct (kept_as_is _ _ _).
  - intros Hrow. by exists row.
  - intros (row0 & -> & Hrow0)%elem_of_List_map. exists row0. split; [done|].
    apply Row_get_fromObject.
    apply elem_of_dropSpaces; [|done]. by apply elem_of_dropSpaces.
Qed.

Lemma united_rows_key (a b : DataFrame.t) (k : string) (h : Heap) (row : Row.t) :
  k ∈ joined_columns a b ->
  has_space k = false ->
  row ∈ united_rows a b k (left_included InnerJoin) (right_included InnerJoin) h ->
  Row.get row k ∈ column_of h a k /\ Row.get row k ∈ column_of h b k.
Proof.
  intros Hk Hspace. unfold united_rows, column_of.
  intros (l & Hrow & [Hl|Hl]%elem_of_app)%elem_of_concat.
  - apply elem_of_List_map in Hl as (g & -> & Hg).
    apply elem_of_included_groups in Hg as (v & Hv & Hpresent & ->).
    apply (instance_rows_get _ _ _ _ k Hk Hspace) in Hrow
      as (row0 & [_ Hrow0]%elem_of_List_filter & ->).
    apply bool_decide_eq_true in Hrow0 as ->. simpl in Hpresent.
    by apply bool_decide_eq_true in Hpresent.
  - apply elem_of_List_map in Hl as (g & -> & Hg).
    apply elem_of_included_groups in Hg as (v & Hv & Hpresent & ->).
    apply (instance_rows_get _ _ _ _ k Hk Hspace) in Hrow
      as (row0 & [_ Hrow0]%elem_of_List_filter & ->).
    apply bool_decide_eq_true in Hrow0 as ->. simpl in Hpresent.
    by apply bool_decide_eq_true in Hpresent.
Qed.

Lemma foldM_union_rows (rest : list DataFrame.t) (contents : list (list Row.t))
    (acc d' : DataFrame.t) (rows : list Row.t) (h h' : Heap) :
  holds_rows h acc rows ->
  Forall2 (holds_rows h) rest contents ->
  foldM (fun p n => DataFrame.union p n) acc rest h = Ok (d', h') ->
  rows_of h' d' = rows ++ concat contents.
Proof.
  intros Hacc Hrest. revert contents acc rows h Hacc Hrest.
  induction rest as [|d rest IH]; intros contents acc rows h Hacc Hrest.
  - apply Forall2_nil_inv_l in Hrest as ->. simpl. intros [= <- <-].
    rewrite app_nil_r. apply Hacc.
  - apply Forall2_cons_inv_l in Hrest as (rows' & contents' & Hd & Hrest & ->).
    cbn [foldM]. run. rewrite union_run. case_bool_decide; [|done].
    destruct Hacc as [_ ->]. destruct Hd as [_ ->].
    intros Hfold. simpl. rewrite app_assoc.
    eapply IH; [apply holds_rows_alloc| |exact Hfold].
    eapply Forall2_impl; [exact Hrest|]. intros. by apply holds_rows_frame.
Qed.

Lemma join_rows (a b d' : DataFrame.t) (on : string) (types : string * string)
    (h h' : Heap) :
  allocated h b ->
  DataFrame._join a b on types h = Ok (d', h') ->
  rows_of h' d' = united_rows a b on (selected types.1) (selected types.2) h.
Proof.
  intros Hb. destruct (join_prepare a b on types h Hb) as (ds & t & -> & Hds).
  destruct ds as [|d ds]; [done|]. cbn [Array_reduce].
  apply Forall2_cons_inv_l in Hds as (side & sides & Hd & Hrest & Heq).
  intros Hfold.
  rewrite (foldM_union_rows ds (List.map snd sides) d d' side.2 (h ++ t) h'
             (proj2 Hd)); [| |exact Hfold].
  - change (side.2 ++ concat (List.map snd sides))
      with (concat (List.map snd (side :: sides))).
    rewrite <- Heq. unfold united_rows, join_sides, restructured.
    by rewrite !map_app, !map_map.
  - apply Forall2_fmap_r. eapply Forall2_impl; [exact Hrest|]. by intros ? ? [_ ?].
Qed.

Lemma united_rows_mode (a b : DataFrame.t) (k : string) (mode : JoinMode) (h : Heap) :
  united_rows a b k (selected (types_of mode).1) (selected (types_of mode).2) h =
  united_rows a b k (left_included mode) (right_included mode) h.
Proof.
  unfold united_rows.
  rewrite (included_groups_ext (selected (types_of mode).1) (left_included mode))
    by (intros; apply selected_types_of).
  by rewrite (included_groups_ext (selected (types_of mode).2) (right_included mode))
    by (intros; apply selected_types_of).
Qed.

Lemma join_sides_mode (a b : DataFrame.t) (k : string) (mode : JoinMode) (h : Heap) :
  join_sides a b k (types_of mode) h =
  List.map (fun rows => (DataFrame.__columns__ a, rows))
    (included_groups (left_included mode) k (rows_of h a) (rows_of h b)) ++
  List.map (fun rows => (DataFrame.__columns__ b, rows))
    (included_groups (right_included mode) k (rows_of h b) (rows_of h a)).
Proof.
  unfold join_sides.
  rewrite (included_groups_ext (selected (types_of mode).1) (left_included mode))
    by (intros; apply selected_types_of).
  by rewrite (included_groups_ext (selected (types_of mode).2) (right_included mode))
    by (intros; apply selected_types_of).
Qed.

Lemma joined_rows_mode (a b : DataFrame.t) (k : string) (mode : JoinMode) (h : Heap) :
  joined_rows a b k (selected (types_of mode).1) (selected (types_of mode).2) h =
  joined_rows a b k (left_included mode) (right_included mode) h.
Proof.
  unfold joined_rows.
  rewrite (included_groups_ext (selected (types_of mode).1) (left_included mode))
    by (intros; apply selected_types_of).
  by rewrite (included_groups_ext (selected (types_of mode).2) (right_included mode))
    by (intros; apply selected_types_of).
Qed.

(** The mode table where the column names hold no space.  Each join
    mode unites, left groups first, exactly the groups of the mode
    table, each as [restructure] brings it to the joined columns; it
    throws [TypeError] when the table leaves no group, and it does
    return when there is a group and the column names of both sides
    are normalized, every group then being padded to the joined
    columns.  Every row of an inner join on a column [k] of either
    side, the name [k] holding no space, has in [k] a value that occurs
    in column [k] of both sides. *)
Theorem join_modes (a b : DataFrame.t) (k : string) (h : Heap) :
  allocated h b ->
  (forall mode,
     (included_groups (left_included mode) k (rows_of h a) (rows_of h b) ++
      included_groups (right_included mode) k (rows_of h b) (rows_of h a) = [] ->
      DataFrame.join a b k (how mode) h = Throw TypeError) /\
     (forall d' h',
        DataFrame.join a b k (how mode) h = Ok (d', h') ->
        rows_of h' d' = united_rows a b k (left_included mode) (right_included mode) h) /\
     (normalized (DataFrame.listColumns a) ->
      normalized (DataFrame.listColumns b) ->
      included_groups (left_included mode) k (rows_of h a) (rows_of h b) ++
      included_groups (right_included mode) k (rows_of h b) (rows_of h a) <> [] ->
      exists d' h',
        DataFrame.join a b k (how mode) h = Ok (d', h') /\
        DataFrame.listColumns d' = joined_columns a b /\
        rows_of h' d' =
          joined_rows a b k (left_included mode) (right_included mode) h)) /\
  (k ∈ DataFrame.listColumns a ++ DataFrame.listColumns b ->
   has_space k = false ->
   forall d' h',
     DataFrame.innerJoin a b k h = Ok (d', h') ->
     forall row,
       row ∈ rows_of h' d' ->
       Row.get row k ∈ column_of h a k /\ Row.get row k ∈ column_of h b k).
Proof.
  intros Hb. split.
  - intros mode. rewrite join_how. split_and!.
    + intros [Hl Hr]%app_eq_nil. apply join_empty; [done|].
      by rewrite join_sides_mode, Hl, Hr.
    + intros d' h' Hrun. by rewrite (join_rows _ _ _ _ _ _ _ Hb Hrun), united_rows_mode.
    + intros Hna Hnb Hne.
      destruct (join_run a b k (types_of mode) h Hb Hna Hnb)
        as (d' & t & Hrun & Hcols & _ & Hrows).
      { rewrite join_sides_mode. intros [Hl%map_eq_nil Hr%map_eq_nil]%app_eq_nil.
        apply Hne. by rewrite Hl, Hr. }
      exists d', (h ++ t). split_and!; [done|done|].
      simpl in Hrows. by rewrite Hrows, joined_rows_mode.
  - intros Hk Hspace d' h' Hrun row Hrow.
    apply (united_rows_key a b k h row); [by apply elem_of_distinct|done|].
    change (DataFrame.innerJoin a b k h) with (DataFrame._join a b k (types_of InnerJoin) h)
      in Hrun.
    by rewrite (join_rows _ _ _ _ _ _ _ Hb Hrun), united_rows_mode in Hrow.
Qed.

(** C10. An inner join of two DataFrames that share no value in the
    join column has no group to unite: the [reduce] without an initial
    value over the empty list of groups throws [TypeError], and no
    empty DataFrame is returned. *)
Theorem innerJoin_disjoint_throws (a b : DataFrame.t) (on : string) (h : Heap) :
  allocated h b ->
  (forall v, v ∈ column_of h a on -> v ∈ column_of h b on -> False) ->
  DataFrame.innerJoin a b on h = Throw TypeError.
Proof.
  intros Hb Hdisjoint. apply join_empty; [done|].
  unfold join_sides, column_of in *. simpl.
  rewrite !included_groups_nil; [done| |].
  - intros v Hv. unfold selected. simpl. apply bool_decide_eq_false. naive_solver.
  - intros v Hv. unfold selected. simpl. apply bool_decide_eq_false. naive_solver.
Qed.

Lemma join_modes_witness :
  allocated example_heap example_right /\
  normalized (DataFrame.listColumns example_left) /\
  normalized (DataFrame.listColumns example_right) /\
  "id" ∈ DataFrame.listColumns example_left ++ DataFrame.listColumns example_right /\
  has_space "id" = false /\
  (exists d' h',
     DataFrame.join example_left example_right "id" (how InnerJoin) example_heap
       = Ok (d', h') /\
     DataFrame.listColumns d' = ["id"; "x"; "y"] /\
     rows_of h' d' =
       [ [("id", VNum 1); ("x", VStr "L"); ("y", VUndefined)];
         [("id", VNum 1); ("x", VUndefined); ("y", VStr "R")] ]) /\
  (exists d' h',
     DataFrame.join example_left example_right "id" (how OuterJoin) example_heap
       = Ok (d', h') /\
     rows_of h' d' = [ [("id", VNum 2); ("x", VUndefined); ("y", VStr "R2")] ]) /\
  DataFrame.join example_left example_disjoint "id" (how InnerJoin) example_heap
    = Throw TypeError /\
  (forall d' h',
     DataFrame.innerJoin example_left example_right "id" example_heap = Ok (d', h') ->
     forall row,
       row ∈ rows_of h' d' ->
       Row.get row "id" ∈ column_of example_heap example_left "id" /\
       Row.get row "id" ∈ column_of example_heap example_right "id").
Proof.
  assert (allocated example_heap example_right) as Hright
    by (unfold allocated; simpl; lia).
  assert (allocated example_heap example_disjoint) as Hdisjoint
    by (unfold allocated; simpl; lia).
  assert (normalized (DataFrame.listColumns example_left)) as Hnl
    by (repeat constructor).
  assert (normalized (DataFrame.listColumns example_right)) as Hnr
    by (repeat constructor).
  destruct (join_modes example_left example_right "id" example_heap Hright)
    as [Htable Hinner].
  destruct (join_modes example_left example_disjoint "id" example_heap Hdisjoint)
    as [Htable' _].
  split_and!; [done|done|done|by left|done| | | |].
  - destruct (Htable InnerJoin) as (_ & _ & Hsome).
    destruct (Hsome Hnl Hnr) as (d' & h' & Hrun & Hcols & Hrows); [discriminate|].
    exists d', h'. split_and!; [exact Hrun|exact Hcols|exact Hrows].
  - destruct (Htable OuterJoin) as (_ & _ & Hsome).
    destruct (Hsome Hnl Hnr) as (d' & h' & Hrun & Hcols & Hrows); [discriminate|].
    exists d', h'. split; [exact Hrun|exact Hrows].
  - apply (Htable' InnerJoin). reflexivity.
  - apply Hinner; [by left | reflexivity].
Defined.

Lemma innerJoin_disjoint_throws_witness :
  allocated example_heap example_disjoint /\
  (forall v, v ∈ column_of example_heap example_left "id" ->
             v ∈ column_of example_heap example_disjoint "id" -> False) /\
  DataFrame.innerJoin example_left example_disjoint "id" example_heap = Throw TypeError.
Proof.
  assert (allocated example_heap example_disjoint) as Hdisjoint
    by (unfold allocated; simpl; lia).
  assert (forall v, v ∈ column_of example_heap example_left "id" ->
                    v ∈ column_of example_heap example_disjoint "id" -> False) as Hnone.
  { intros v Hl Hr. apply list_elem_of_singleton in Hl as ->.
    apply list_elem_of_singleton in Hr. discriminate. }
  split_and!; [done|done|].
  exact (innerJoin_disjoint_throws example_left example_disjoint "id" example_heap
           Hdisjoint Hnone).
Defined.

(** C3. The join inclusion fails on a column whose name still holds a
    space.  The constructor stores the name given as [a b c] as
    [ab c]; [_join] restructures every group to the joined columns,
    and [__newInstance__] and the constructor strip a space from each
    name once more, so that the groups are rebuilt, by name, over
    [abc]: the rows of the inner join on [ab c] hold no value under the
    key any more, while both sides hold 1 there. *)
Theorem innerJoin_loses_the_key :
  exists a ha b h d' h',
    DataFrame.new (DataFrame.OfArrays [[VNum 1; VStr "L"]]) ["a b c"; "x"] [] = Ok (a, ha) /\
    DataFrame.new (DataFrame.OfArrays [[VNum 1; VStr "R"]]) ["a b c"; "y"] ha = Ok (b, h) /\
    DataFrame.listColumns a = ["ab c"; "x"] /\
    DataFrame.listColumns b = ["ab c"; "y"] /\
    column_of h a "ab c" = [VNum 1] /\
    column_of h b "ab c" = [VNum 1] /\
    DataFrame.innerJoin a b "ab c" h = Ok (d', h') /\
    DataFrame.listColumns d' = ["abc"; "x"; "y"] /\
    rows_of h' d' =
      [ [("abc", VUndefined); ("x", VStr "L"); ("y", VUndefined)];
        [("abc", VUndefined); ("x", VUndefined); ("y", VStr "R")] ] /\
    column_of h' d' "ab c" = [VUndefined; VUndefined] /\
    (forall row, row ∈ rows_of h' d' -> Row.get row "ab c" ∉ column_of h a "ab c").
Proof.
  do 6 eexists.
  split_and!; [reflexivity|reflexivity|reflexivity|reflexivity|reflexivity|reflexivity|
               reflexivity|reflexivity|reflexivity|reflexivity|].
  intros row Hrow Hin.
  apply list_elem_of_singleton in Hin.
  repeat (apply elem_of_cons in Hrow as [->|Hrow]; [discriminate|]).
  by apply elem_of_nil in Hrow.
Qed.
(** * Further properties of [dataframe.js] *)

(** ** Rows *)

Lemma Row_lookup_set (r : Row.t) (column k : string) (value : Value) :
  Row.lookup (Row.set r column value) k =
  if bool_decide (k = column) then Some value else Row.lookup r k.
Proof.
  induction r as [|[c v] r IH]; simpl.
  - repeat case_bool_decide; congruence.
  - destruct (bool_decide (c = column)) eqn:Hc; simpl.
    + apply bool_decide_eq_true in Hc as ->.
      repeat case_bool_decide; congruence.
    + apply bool_decide_eq_false in Hc. rewrite IH.
      repeat case_bool_decide; congruence.
Qed.

Lemma Row_get_set (r : Row.t) (column k : string) (value : Value) :
  Row.get (Row.set r column value) k =
  if bool_decide (k = column) then value else Row.get r k.
Proof. unfold Row.get. rewrite Row_lookup_set. by case_bool_decide. Qed.

Lemma Row_lookup_delete (r : Row.t) (column k : string) :
  Row.lookup (Row.delete r column) k =
  if bool_decide (k = column) then None else Row.lookup r k.
Proof.
  unfold Row.delete. induction r as [|[c v] r IH]; simpl.
  - by case_bool_decide.
  - destruct (bool_decide (c = column)) eqn:Hc; simpl.
    + apply bool_decide_eq_true in Hc as ->. rewrite IH.
      repeat case_bool_decide; congruence.
    + apply bool_decide_eq_false in Hc. rewrite IH.
      repeat case_bool_decide; congruence.
Qed.

Lemma Row_get_delete (r : Row.t) (column k : string) :
  Row.get (Row.delete r column) k =
  if bool_decide (k = column) then VUndefined else Row.get r k.
Proof. unfold Row.get. rewrite Row_lookup_delete. by case_bool_decide. Qed.

Lemma Row_get_select (r : Row.t) (columnNames : list string) (k : string) :
  Row.get (Row.select r columnNames) k =
  if bool_decide (k ∈ columnNames) then Row.get r k else VUndefined.
Proof.
  unfold Row.get, Row.select. rewrite Row_lookup_fromObject. by case_bool_decide.
Qed.

(** ** [reduce] and [reduceRight] *)

Lemma fold_right_snoc {A B} (f : B -> A -> A) (a : A) (l : list B) (x : B) :
  fold_right f a (l ++ [x]) = fold_right f (f x a) l.
Proof. by rewrite fold_right_app. Qed.

Lemma reduce_run {A} (d : DataFrame.t) (func : Row.t + A -> Row.t -> A)
    (init : option A) (h : Heap) :
  DataFrame.reduce d func init h =
  match init with
  | Some a => Ok (inr (fold_left (fun p n => func (inr p) n) (rows_of h d) a), h)
  | None =>
      match rows_of h d with
      | [] => Throw TypeError
      | row :: rows => Ok (fold_left (fun p n => inr (func p n)) rows (inl row), h)
      end
  end.
Proof.
  unfold DataFrame.reduce, DataFrame.reduce_from, rows_of. run.
  destruct init; [done|]. by destruct (h !!! DataFrame.__rows__ d).
Qed.

Lemma reduceRight_run {A} (d : DataFrame.t) (func : Row.t + A -> Row.t -> A)
    (init : option A) (h : Heap) :
  DataFrame.reduceRight d func init h =
  match init with
  | Some a => Ok (fold_right (fun n p => inr (func p n)) (inr a) (rows_of h d), h)
  | None =>
      match rows_of h d with
      | [] => Throw TypeError
      | row :: rows =>
          Ok (fold_right (fun n p => inr (func p n))
                (inl (List.last rows row)) (removelast (row :: rows)), h)
      end
  end.
Proof.
  unfold DataFrame.reduceRight, rows_of. run.
  destruct init; [done|]. by destruct (h !!! DataFrame.__rows__ d).
Qed.

Lemma fold_left_inr {A B} (f : B + A -> B -> A) (l : list B) (a : A) :
  fold_left (fun p n => inr (f p n)) l (inr a) =
  inr (fold_left (fun p n => f (inr p) n) l a) :> B + A.
Proof. revert a. induction l as [|x l IH]; intros a; simpl; [done|]. by rewrite IH. Qed.

(** X1. [reduce] and [reduceRight] throw only a [TypeError], and
    exactly when there is neither an initial value nor a row; they
    leave the heap as it is; with an initial value [reduce] is the
    left fold of the rows from it; and [reduceRight] returns what
    [reduce] returns on a DataFrame that holds the same rows in the
    reverse order. *)
Theorem reduceRight_is_reduce_reversed {A} (d d' : DataFrame.t)
    (func : Row.t + A -> Row.t -> A) (init : option A) (h h' : Heap) :
  (rows_of h' d' = rev (rows_of h d) ->
   returned (DataFrame.reduceRight d func init h) =
     returned (DataFrame.reduce d' func init h')) /\
  (forall e, DataFrame.reduce d func init h = Throw e <->
             e = TypeError /\ init = None /\ rows_of h d = []) /\
  (forall e, DataFrame.reduceRight d func init h = Throw e <->
             e = TypeError /\ init = None /\ rows_of h d = []) /\
  (forall r h1, DataFrame.reduce d func init h = Ok (r, h1) -> h1 = h) /\
  (forall r h1, DataFrame.reduceRight d func init h = Ok (r, h1) -> h1 = h) /\
  (forall a, init = Some a ->
     returned (DataFrame.reduce d func init h) =
     Ok (inr (fold_left (fun p n => func (inr p) n) (rows_of h d) a))).
Proof.
  rewrite !reduce_run, reduceRight_run. split_and!.
  - intros Hrev. rewrite Hrev. destruct init as [a|]; cbn [returned].
    + f_equal. rewrite <- fold_left_inr.
      rewrite <- (rev_involutive (rows_of h d)) at 1.
      apply (fold_left_rev_right (fun (n : Row.t) (p : Row.t + A) => inr (func p n))).
    + destruct (rows_of h d) as [|row rows] eqn:Hrows; [done|].
      destruct (rev (row :: rows)) as [|final front] eqn:Hr.
      { simpl in Hr. by apply app_eq_nil in Hr as [_ ?]. }
      assert (Hsplit : row :: rows = rev front ++ [final]).
      { by rewrite <- (rev_involutive (row :: rows)), Hr. }
      assert (Hlast : List.last rows row = final).
      { assert (Hl : List.last (row :: rows) row = final).
        { rewrite Hsplit. apply last_last. }
        destruct rows; exact Hl. }
      rewrite Hsplit, removelast_last, Hlast. cbn [returned]. f_equal.
      apply (fold_left_rev_right (fun (n : Row.t) (p : Row.t + A) => inr (func p n))).
  - intros e. destruct init as [a|]; [split; [done|by intros (_ & ? & _)]|].
    destruct (rows_of h d); [|split; [done|by intros (_ & _ & ?)]].
    split; [by intros [= <-]|by intros [-> _]].
  - intros e. destruct init as [a|]; [split; [done|by intros (_ & ? & _)]|].
    destruct (rows_of h d); [|split; [done|by intros (_ & _ & ?)]].
    split; [by intros [= <-]|by intros [-> _]].
  - intros r h1. destruct init; [by intros [= _ <-]|].
    destruct (rows_of h d); [done|]. by intros [= _ <-].
  - intros r h1. destruct init; [by intros [= _ <-]|].
    destruct (rows_of h d); [done|]. by intros [= _ <-].
  - by intros a ->.
Qed.

Lemma reduceRight_is_reduce_reversed_witness :
  rows_of example_heap_reversed example_table_reversed =
    rev (rows_of example_heap example_table) /\
  returned (DataFrame.reduceRight example_table example_func None example_heap) =
    returned (DataFrame.reduce example_table_reversed example_func None
                example_heap_reversed) /\
  returned (DataFrame.reduce example_table example_func (Some []) example_heap) =
    Ok (inr [VNum 3; VNum 1]).
Proof.
  split; [reflexivity|].
  destruct (reduceRight_is_reduce_reversed example_table example_table_reversed
              example_func None example_heap example_heap_reversed)
    as (Hright & _).
  split; [exact (Hright eq_refl)|reflexivity].
Defined.

(** ** [find] and [countValue] *)

Lemma head_filter {A} (f : A -> bool) (l : list A) :
  head (List.filter f l) = List.find f l.
Proof.
  induction l as [|x l IH]; simpl; [done|]. by destruct (f x).
Qed.

(** X2. Whenever the condition can be evaluated, [find] returns the
    first row, in the order of the rows, that satisfies it, and
    [undefined] when no row does; with the empty column/value object
    and at least one row it throws the [TypeError] of [filter]. *)
Theorem find_first_match (d : DataFrame.t) (condition : DataFrame.condition) (h : Heap) :
  ((condition = DataFrame.Mapping [] -> rows_of h d = []) ->
   returned (DataFrame.find d condition h) =
     Ok (List.find (satisfies condition) (rows_of h d))) /\
  (condition = DataFrame.Mapping [] -> rows_of h d <> [] ->
   DataFrame.find d condition h = Throw TypeError).
Proof.
  split.
  - intros Hcond. unfold DataFrame.find. run. rewrite filter_run by done.
    cbn [returned DataFrame.__rows__]. f_equal.
    rewrite lookup_total_alloc. apply head_filter.
  - intros -> Hrows. unfold DataFrame.find. run.
    by rewrite filter_empty_mapping.
Qed.

Lemma find_first_match_witness :
  returned (DataFrame.find example_table example_condition example_heap) =
    Ok (Some [("c1", VNum 3); ("c2", VNum 4)]) /\
  DataFrame.find example_table (DataFrame.Mapping []) example_heap = Throw TypeError.
Proof.
  split.
  - apply (proj1 (find_first_match example_table example_condition example_heap)).
    discriminate.
  - apply (proj2 (find_first_match example_table (DataFrame.Mapping []) example_heap));
      [reflexivity|discriminate].
Defined.

Lemma filter_count_occ (rows : list Row.t) (k : string) (v : Value) :
  length (List.filter (fun row => bool_decide (Row.get row k = v)) rows) =
  count_occ Value_eq_dec (List.map (fun row => Row.get row k) rows) v.
Proof.
  induction rows as [|row rows IH]; simpl; [done|].
  destruct (Value_eq_dec (Row.get row k) v) as [Heq|Hne].
  - rewrite bool_decide_eq_true_2 by done. simpl. by rewrite IH.
  - by rewrite bool_decide_eq_false_2.
Qed.

(** X3. [countValue] never throws and returns the number of
    occurrences of the value in the column, which is at most the
    number of rows; without a column name it counts in the first
    column. *)
Theorem countValue_counts_occurrences (d : DataFrame.t) (v : Value) (h : Heap) :
  (forall columnName,
     exists n,
       returned (DataFrame.countValue d v columnName h) = Ok n /\
       n <= length (rows_of h d)) /\
  (forall c,
     returned (DataFrame.countValue d v (Some c) h) =
       Ok (count_occ Value_eq_dec (column_of h d c) v) /\
     count_occ Value_eq_dec (column_of h d c) v <= length (rows_of h d)) /\
  (forall c columns,
     DataFrame.listColumns d = c :: columns ->
     returned (DataFrame.countValue d v None h) =
       Ok (count_occ Value_eq_dec (column_of h d c) v)).
Proof.
  assert (Hrun : forall c o,
            default (hd "undefined" (DataFrame.__columns__ d)) o = c ->
            returned (DataFrame.countValue d v o h) =
              Ok (count_occ Value_eq_dec (column_of h d c) v)).
  { intros c o Hc. unfold DataFrame.countValue. rewrite Hc. run.
    rewrite filter_run by done. rewrite count_run, rows_of_alloc.
    cbn [returned satisfies]. f_equal. apply filter_count_occ. }
  assert (Hle : forall c, count_occ Value_eq_dec (column_of h d c) v
                         <= length (rows_of h d)).
  { intros c. unfold column_of. rewrite <- filter_count_occ. apply filter_length_le. }
  split_and!.
  - intros columnName. eexists. split; [by apply Hrun|apply Hle].
  - intros c. split; [by apply Hrun|apply Hle].
  - intros c columns Hcols. apply Hrun. unfold DataFrame.listColumns in Hcols.
    by rewrite Hcols.
Qed.

Lemma countValue_counts_occurrences_witness :
  returned (DataFrame.countValue example_table (VNum 3) None example_heap) = Ok 1.
Proof.
  exact (proj2 (proj2 (countValue_counts_occurrences example_table (VNum 3) example_heap))
           "c1" ["c2"] eq_refl).
Defined.

(** ** [push] *)

Lemma new_Array_run (array : list Row.data) (columns : list string) (h : Heap) :
  DataFrame.new_Array array columns h =
  Ok ({| DataFrame.__rows__ := length h;
         DataFrame.__columns__ := DataFrame._dropSpacesInColumnNames columns |},
      h ++ [List.map (fun row => Row.new row (DataFrame._dropSpacesInColumnNames columns))
              array]).
Proof. reflexivity. Qed.

(** X4. On a DataFrame whose column names hold no space, [push]
    returns a DataFrame with the same columns whose rows are those of
    the receiver followed by one Row per argument, built against the
    columns of the receiver; the count grows by the number of
    arguments and the receiver is left as it was. *)
Theorem push_appends_rows (d : DataFrame.t) (rows : list Row.data) (h : Heap) :
  allocated h d ->
  normalized (DataFrame.listColumns d) ->
  exists d' h',
    DataFrame.push d rows h = Ok (d', h') /\
    DataFrame.listColumns d' = DataFrame.listColumns d /\
    rows_of h' d' =
      rows_of h d ++ List.map (fun row => Row.new row (DataFrame.listColumns d)) rows /\
    returned (DataFrame.count d' h') = Ok (length (rows_of h d) + length rows) /\
    observe d h' = observe d h.
Proof.
  intros Halloc Hnorm. unfold DataFrame.listColumns in *.
  unfold DataFrame.push. run. rewrite new_Array_run, union_run.
  cbn [DataFrame.__columns__]. rewrite !(dropSpaces_normalized _ Hnorm).
  rewrite bool_decide_eq_true_2 by done.
  eexists _, _. split; [reflexivity|].
  rewrite count_run, !rows_of_alloc, rows_of_frame by done.
  cbn [DataFrame.__columns__ returned].
  split_and!.
  - by apply instance_columns_normalized.
  - done.
  - by rewrite length_app, length_map.
  - rewrite <- app_assoc. by apply observe_frame.
Qed.

Lemma push_appends_rows_witness :
  allocated example_heap example_table /\
  normalized (DataFrame.listColumns example_table) /\
  exists d' h',
    DataFrame.push example_table
      [Row.Array [VNum 5; VNum 6]; Row.Object [("c2", VNum 8)]] example_heap = Ok (d', h') /\
    DataFrame.listColumns d' = ["c1"; "c2"] /\
    rows_of h' d' =
      [ [("c1", VNum 1); ("c2", VNum 2)]; [("c1", VNum 3); ("c2", VNum 4)];
        [("c1", VNum 5); ("c2", VNum 6)]; [("c1", VUndefined); ("c2", VNum 8)] ] /\
    returned (DataFrame.count d' h') = Ok 4.
Proof.
  assert (Halloc : allocated example_heap example_table) by (unfold allocated; simpl; lia).
  assert (Hnorm : normalized (DataFrame.listColumns example_table))
    by (repeat constructor).
  split; [exact Halloc|]. split; [exact Hnorm|].
  destruct (push_appends_rows example_table
              [Row.Array [VNum 5; VNum 6]; Row.Object [("c2", VNum 8)]] example_heap
              Halloc Hnorm) as (d' & h' & Hrun & Hcols & Hrows & Hcount & _).
  exists d', h'. split_and!; [exact Hrun|exact Hcols|exact Hrows|exact Hcount].
Defined.

(** ** [replace] *)

Lemma replace_row_get (value replacement : Value) (targets : list string)
    (row : Row.t) (k : string) :
  Row.get
    (fold_left
       (fun p n => if bool_decide (Row.get p n = value) then Row.set p n replacement else p)
       targets row) k =
  replaced_cell targets value replacement k (Row.get row k).
Proof.
  unfold replaced_cell. revert row.
  induction targets as [|n targets IH]; intros row; cbn [fold_left].
  - by rewrite (bool_decide_eq_false_2 (k ∈ [])) by apply not_elem_of_nil.
  - rewrite IH. destruct (decide (Row.get row n = value)) as [Hn|Hn].
    + rewrite (bool_decide_eq_true_2 _ Hn), Row_get_set.
      destruct (decide (k = n)) as [->|Hk].
      * rewrite (bool_decide_eq_true_2 (n = n)) by done.
        rewrite (bool_decide_eq_true_2 (n ∈ n :: targets)) by left.
        rewrite (bool_decide_eq_true_2 _ Hn). simpl.
        by destruct (bool_decide (n ∈ targets) && bool_decide (replacement = value)).
      * rewrite (bool_decide_eq_false_2 (k = n)) by done.
        assert (Hiff : bool_decide (k ∈ n :: targets) = bool_decide (k ∈ targets)).
        { apply bool_decide_ext. rewrite elem_of_cons. tauto. }
        by rewrite Hiff.
    + rewrite (bool_decide_eq_false_2 _ Hn).
      destruct (decide (k = n)) as [->|Hk].
      * rewrite (bool_decide_eq_false_2 _ Hn). by rewrite !andb_false_r.
      * assert (Hiff : bool_decide (k ∈ n :: targets) = bool_decide (k ∈ targets)).
        { apply bool_decide_ext. rewrite elem_of_cons. tauto. }
        by rewrite Hiff.
Qed.

(** X5. [replace] never throws and keeps the number of rows; in every
    column that it works on (those named, or all the columns of the
    receiver when none is named) each cell that holds [value] holds
    [replacement] afterwards, and every other cell is as it was. *)
Theorem replace_replaces_cells (d : DataFrame.t) (value replacement : Value)
    (columnNames : list string) (h : Heap) :
  exists d' h',
    DataFrame.replace d value replacement columnNames h = Ok (d', h') /\
    length (rows_of h' d') = length (rows_of h d) /\
    forall k,
      column_of h' d' k =
      List.map (replaced_cell (replaced_columns d columnNames) value replacement k)
               (column_of h d k).
Proof.
  unfold DataFrame.replace. rewrite map_run. eexists _, _. split; [reflexivity|].
  unfold column_of. rewrite rows_of_alloc, length_map. split; [done|].
  intros k. rewrite !List.map_map. apply map_ext. intros row.
  rewrite replace_row_get. f_equal.
  unfold replaced_columns. by destruct columnNames.
Qed.

(** ** [select], [withColumn], [drop] and [rename] *)

Lemma fromObject_select (row : Row.t) (columnNames : list string) :
  Row.fromObject (Row.select row columnNames) columnNames = Row.select row columnNames.
Proof.
  unfold Row.select, Row.fromObject at 1 3. apply map_ext_in. intros c Hc.
  rewrite Row_lookup_fromObject, bool_decide_eq_true_2; [done|].
  by apply list_elem_of_In.
Qed.

Lemma dim_run (d : DataFrame.t) (h : Heap) :
  DataFrame.dim d h = Ok ((length (rows_of h d), length (DataFrame.listColumns d)), h).
Proof. reflexivity. Qed.

(** X6. [select] with names that hold no space returns a DataFrame
    over exactly these columns, in the given order, with one row per
    row of the receiver: a selected column holds the values it held
    in the receiver (in a column that the receiver lacks no row holds
    a value), and a column that is not selected is not held any
    more. *)
Theorem select_projects (d : DataFrame.t) (columnNames : list string) (h : Heap) :
  normalized columnNames ->
  exists d' h',
    DataFrame.select d columnNames h = Ok (d', h') /\
    DataFrame.listColumns d' = columnNames /\
    rows_of h' d' = List.map (fun row => Row.select row columnNames) (rows_of h d) /\
    Forall (fun row => Row.columns row = columnNames) (rows_of h' d') /\
    (forall k, k ∈ columnNames -> column_of h' d' k = column_of h d k) /\
    (forall k, k ∉ columnNames -> column_of h' d' k = empty_column h d) /\
    returned (DataFrame.dim d' h') = Ok (length (rows_of h d), length columnNames).
Proof.
  intros Hnorm. unfold DataFrame.select. run. fold (rows_of h d).
  rewrite newInstance_OfRows. eexists _, _. split; [reflexivity|].
  assert (Hrows : instance_rows (DataFrame.__columns__ d)
                    (List.map (fun row => Row.select row columnNames) (rows_of h d))
                    columnNames =
                  List.map (fun row => Row.select row columnNames) (rows_of h d)).
  { rewrite instance_rows_padded by done. unfold padded. case_bool_decide; [done|].
    rewrite List.map_map. apply map_ext. intros row. apply fromObject_select. }
  rewrite dim_run. unfold column_of, empty_column, DataFrame.listColumns.
  rewrite rows_of_alloc, Hrows. cbn [DataFrame.__columns__ returned].
  rewrite (instance_columns_normalized _ _ _ Hnorm), length_map.
  split_and!; try done.
  - apply Forall_forall. intros row (row0 & -> & _)%elem_of_List_map.
    unfold Row.columns, Row.select, Row.fromObject. rewrite List.map_map.
    apply map_id.
  - intros k Hk. rewrite List.map_map. apply map_ext. intros row.
    by rewrite Row_get_select, bool_decide_eq_true_2.
  - intros k Hk. rewrite List.map_map. apply map_ext. intros row.
    by rewrite Row_get_select, bool_decide_eq_false_2.
Qed.

Lemma select_projects_witness :
  normalized ["c2"] /\
  exists d' h',
    DataFrame.select example_table ["c2"] example_heap = Ok (d', h') /\
    DataFrame.listColumns d' = ["c2"] /\
    rows_of h' d' = [ [("c2", VNum 2)]; [("c2", VNum 4)] ] /\
    returned (DataFrame.dim d' h') = Ok (2, 1).
Proof.
  assert (Hnorm : normalized ["c2"]) by (repeat constructor).
  split; [exact Hnorm|].
  destruct (select_projects example_table ["c2"] example_heap Hnorm)
    as (d' & h' & Hrun & Hcols & Hrows & _ & _ & _ & Hdim).
  exists d', h'. split_and!; [exact Hrun|exact Hcols|exact Hrows|exact Hdim].
Defined.

Lemma padded_get (columns side_columns : list string) (rows : list Row.t) (k : string) :
  k ∈ columns ->
  List.map (fun row => Row.get row k) (padded columns side_columns rows) =
  List.map (fun row => Row.get row k) rows.
Proof.
  intros Hk. unfold padded. case_bool_decide; [done|].
  rewrite List.map_map. apply map_ext. intros row. by apply Row_get_fromObject.
Qed.

Lemma padded_length (columns side_columns : list string) (rows : list Row.t) :
  length (padded columns side_columns rows) = length rows.
Proof. unfold padded. case_bool_decide; [done|]. apply length_map. Qed.

(** X7. On a DataFrame whose column names hold no space, [withColumn]
    with a name that holds no space returns a DataFrame with one row
    per row of the receiver, in which the column holds what [func]
    answers on each row with its index; the other columns of the
    receiver hold what they held; the column comes last when it is
    new, and the columns are those of the receiver when it is not. *)
Theorem withColumn_sets_column (d : DataFrame.t) (columnName : string)
    (func : Row.t -> nat -> Value) (h : Heap) :
  normalized (DataFrame.listColumns d) ->
  has_space columnName = false ->
  exists d' h',
    DataFrame.withColumn d columnName func h = Ok (d', h') /\
    DataFrame.listColumns d' =
      (if bool_decide (columnName ∈ DataFrame.listColumns d) then DataFrame.listColumns d
       else DataFrame.listColumns d ++ [columnName]) /\
    column_of h' d' columnName = imap (fun index row => func row index) (rows_of h d) /\
    (forall k, k ∈ DataFrame.listColumns d -> k <> columnName ->
               column_of h' d' k = column_of h d k) /\
    returned (DataFrame.count d' h') = Ok (length (rows_of h d)).
Proof.
  intros Hnorm Hname. unfold DataFrame.listColumns in *.
  unfold DataFrame.withColumn. run. fold (rows_of h d).
  rewrite newInstance_OfRows. eexists _, _. split; [reflexivity|].
  set (columns := if bool_decide (columnName ∈ DataFrame.__columns__ d)
                  then DataFrame.__columns__ d
                  else DataFrame.__columns__ d ++ [columnName]).
  assert (Hcolumns : normalized columns).
  { unfold columns. case_bool_decide; [done|].
    apply Forall_app. split; [done|]. by repeat constructor. }
  assert (Hin : columnName ∈ columns).
  { unfold columns. case_bool_decide; [done|]. apply elem_of_app. right. by left. }
  assert (Hsub : forall k, k ∈ DataFrame.__columns__ d -> k ∈ columns).
  { intros k Hk. unfold columns. case_bool_decide; [done|]. apply elem_of_app. by left. }
  rewrite count_run. unfold column_of. rewrite rows_of_alloc.
  cbn [DataFrame.__columns__ returned].
  rewrite instance_rows_padded, instance_columns_normalized by done.
  split_and!.
  - done.
  - rewrite padded_get by done.
    change (List.map ?f ?l) with (f <$> l). rewrite fmap_imap.
    apply imap_ext. intros i row _. simpl.
    by rewrite Row_get_set, bool_decide_eq_true_2.
  - intros k Hk Hne. rewrite padded_get by auto.
    change (List.map ?f (imap ?g ?l)) with (f <$> imap g l). rewrite fmap_imap.
    rewrite <- (imap_const (fun row : Row.t => Row.get row k)).
    apply imap_ext. intros i row _. simpl.
    by rewrite Row_get_set, bool_decide_eq_false_2.
  - by rewrite padded_length, length_imap.
Qed.

Lemma withColumn_sets_column_witness :
  normalized (DataFrame.listColumns example_table) /\
  has_space "c3" = false /\
  exists d' h',
    DataFrame.withColumn example_table "c3" (fun row index => Row.get row "c1")
      example_heap = Ok (d', h') /\
    DataFrame.listColumns d' = ["c1"; "c2"; "c3"] /\
    column_of h' d' "c3" = [VNum 1; VNum 3] /\
    returned (DataFrame.count d' h') = Ok 2.
Proof.
  assert (Hnorm : normalized (DataFrame.listColumns example_table))
    by (repeat constructor).
  split; [exact Hnorm|]. split; [reflexivity|].
  destruct (withColumn_sets_column example_table "c3" (fun row index => Row.get row "c1")
              example_heap Hnorm eq_refl) as (d' & h' & Hrun & Hcols & Hcol & _ & Hcount).
  exists d', h'. split_and!; [exact Hrun|exact Hcols|exact Hcol|exact Hcount].
Defined.

Lemma normalized_filter (f : string -> bool) (columns : list string) :
  normalized columns -> normalized (List.filter f columns).
Proof.
  intros Hnorm. apply Forall_forall. intros c [Hc _]%elem_of_List_filter.
  by apply (proj1 (Forall_forall _ _) Hnorm).
Qed.

(** X8. On a DataFrame whose column names hold no space, [drop]
    returns a DataFrame with one row per row of the receiver whose
    columns are those of the receiver other than the one named, in
    their order; the columns that stay hold what they held, and no row
    holds a value in the one named.  Dropping a name that is not a
    column keeps the columns as they are. *)
Theorem drop_removes_column (d : DataFrame.t) (columnName : string) (h : Heap) :
  normalized (DataFrame.listColumns d) ->
  exists d' h',
    DataFrame.drop d columnName h = Ok (d', h') /\
    DataFrame.listColumns d' =
      List.filter (fun column => negb (bool_decide (column = columnName)))
                  (DataFrame.listColumns d) /\
    (columnName ∉ DataFrame.listColumns d') /\
    (columnName ∉ DataFrame.listColumns d ->
     DataFrame.listColumns d' = DataFrame.listColumns d) /\
    (forall k, k ∈ DataFrame.listColumns d -> k <> columnName ->
               column_of h' d' k = column_of h d k) /\
    column_of h' d' columnName = empty_column h d /\
    returned (DataFrame.count d' h') = Ok (length (rows_of h d)).
Proof.
  intros Hnorm. unfold DataFrame.listColumns in *.
  unfold DataFrame.drop. run. fold (rows_of h d).
  rewrite newInstance_OfRows. eexists _, _. split; [reflexivity|].
  set (keep := fun column : string => negb (bool_decide (column = columnName))).
  assert (Hcolumns : normalized (List.filter keep (DataFrame.__columns__ d)))
    by by apply normalized_filter.
  rewrite count_run. unfold column_of, empty_column. rewrite rows_of_alloc.
  cbn [DataFrame.__columns__ returned].
  rewrite instance_rows_padded, instance_columns_normalized by done.
  split_and!.
  - done.
  - intros [_ Hkeep]%elem_of_List_filter. unfold keep in Hkeep.
    by rewrite bool_decide_eq_true_2 in Hkeep.
  - intros Hnot. clear Hcolumns Hnorm.
    induction (DataFrame.__columns__ d) as [|c cs IH]; simpl; [done|].
    apply not_elem_of_cons in Hnot as [Hne Hnot]. unfold keep at 1.
    rewrite bool_decide_eq_false_2 by done. simpl. f_equal. by apply IH.
  - intros k Hk Hne. rewrite padded_get.
    + rewrite List.map_map. apply map_ext. intros row.
      by rewrite Row_get_delete, bool_decide_eq_false_2.
    + apply elem_of_List_filter. split; [done|]. unfold keep.
      by rewrite bool_decide_eq_false_2.
  - unfold padded. case_bool_decide.
    + rewrite List.map_map. apply map_ext. intros row.
      by rewrite Row_get_delete, bool_decide_eq_true_2.
    + rewrite !List.map_map. apply map_ext. intros row.
      unfold Row.get. rewrite Row_lookup_fromObject, bool_decide_eq_false_2; [done|].
      intros [_ Hkeep]%elem_of_List_filter. unfold keep in Hkeep.
      by rewrite bool_decide_eq_true_2 in Hkeep.
  - by rewrite padded_length, length_map.
Qed.

Lemma drop_removes_column_witness :
  normalized (DataFrame.listColumns example_table) /\
  exists d' h',
    DataFrame.drop example_table "c1" example_heap = Ok (d', h') /\
    DataFrame.listColumns d' = ["c2"] /\
    column_of h' d' "c2" = [VNum 2; VNum 4] /\
    column_of h' d' "c1" = [VUndefined; VUndefined].
Proof.
  assert (Hnorm : normalized (DataFrame.listColumns example_table))
    by (repeat constructor).
  split; [exact Hnorm|].
  destruct (drop_removes_column example_table "c1" example_heap Hnorm)
    as (d' & h' & Hrun & Hcols & _ & _ & Hkept & Hdropped & _).
  exists d', h'. split_and!; [exact Hrun|exact Hcols| |exact Hdropped].
  apply (Hkept "c2"); [|discriminate].
  repeat constructor.
Defined.



(** ** [distinct] *)

Lemma NoDup_distinct_from {A} {Hdec : EqDecision A} (seen l : list A) :
  NoDup (distinct_from seen l).
Proof.
  revert seen. induction l as [|x l IH]; intros seen; simpl; [constructor|].
  case_bool_decide; [apply IH|].
  constructor; [|apply IH].
  rewrite elem_of_distinct_from. intros [_ Hnot]. apply Hnot. by left.
Qed.




(** ** [toText] and [toCSV] *)

Lemma append_assoc (s1 s2 s3 : string) : (s1 +:+ s2) +:+ s3 = s1 +:+ (s2 +:+ s3).
Proof.
  induction s1 as [|c s1 IH]; [done|].
  change (String c ((s1 +:+ s2) +:+ s3) = String c (s1 +:+ (s2 +:+ s3))).
  by rewrite IH.
Qed.

Lemma append_nonempty (s1 s2 : string) : s1 <> "" -> s1 +:+ s2 <> "".
Proof. by destruct s1. Qed.

Section ToTextFacts.
Variable NumberToString : Z -> string.
Variable sep : string.

Local Abbreviation step :=
  (fun (p : string) (n : Row.t) =>
     (if bool_decide (p ≠ "") then p +:+ String "010" "" else "")
     +:+ DataFrame.Array_join sep
           (List.map (DataFrame.join_element NumberToString) (Row.toArray n))).

Lemma toText_fold_nonempty (rows : list Row.t) (p : string) :
  p <> "" ->
  fold_left step rows p =
  String.concat newline (p :: List.map (row_line NumberToString sep) rows).
Proof.
  revert p. induction rows as [|row rows IH]; intros p Hp; [done|].
  cbn [fold_left]. rewrite IH.
  - rewrite (bool_decide_eq_true_2 _ Hp). cbn [List.map String.concat].
    fold (row_line NumberToString sep row). unfold DataFrame.Array_join, newline.
    destruct (List.map (row_line NumberToString sep) rows);
      by rewrite !append_assoc.
  - rewrite (bool_decide_eq_true_2 _ Hp). by apply append_nonempty, append_nonempty.
Qed.

Lemma toText_fold (rows : list Row.t) (p : string) :
  fold_left step rows p =
  String.concat newline
    (drop_leading_empty (p :: List.map (row_line NumberToString sep) rows)).
Proof.
  revert p. induction rows as [|row rows IH]; intros p.
  - by destruct p.
  - destruct p as [|c p].
    + cbn [fold_left]. rewrite bool_decide_eq_false_2 by (by intros ?).
      rewrite IH. done.
    + rewrite toText_fold_nonempty by done. done.
Qed.

Lemma toText_run (d : DataFrame.t) (header : bool) (path : option string) (h : Heap) :
  DataFrame.toText NumberToString d sep header path h =
  Ok ((String.concat newline
         (drop_leading_empty
            (header_line d sep header ::
             List.map (row_line NumberToString sep) (rows_of h d))),
       saved path
         (String.concat newline
            (drop_leading_empty
               (header_line d sep header ::
                List.map (row_line NumberToString sep) (rows_of h d))))), h).
Proof.
  unfold DataFrame.toText, DataFrame.reduce_from. run. fold (rows_of h d).
  by rewrite toText_fold.
Qed.

(** X11. [toText] never throws and leaves the heap as it is.  The
    text is made of the header line (the column names, when a header
    is asked for) and of one line per row, in their order, each line
    being the values with the separator between them; the lines are
    separated by line breaks, except that empty lines at the very
    start are left out.  So when the header line is not empty, the
    text is exactly the header line and the lines of the rows.
    [saveFile] is called, with the text, exactly when a path that is
    not empty is given; [toCSV] is [toText] with a comma. *)
Theorem toText_lines (d : DataFrame.t) (header : bool) (path : option string) (h : Heap) :
  let lines := List.map (row_line NumberToString sep) (rows_of h d) in
  let text := String.concat newline (drop_leading_empty (header_line d sep header :: lines)) in
  DataFrame.toText NumberToString d sep header path h = Ok ((text, saved path text), h) /\
  (header_line d sep header <> "" ->
   text = String.concat newline (header_line d sep header :: lines)) /\
  (sep = "," ->
   DataFrame.toCSV NumberToString d header path h =
   DataFrame.toText NumberToString d sep header path h).
Proof.
  cbv zeta. split_and!.
  - apply toText_run.
  - intros Hheader. by destruct (header_line d sep header).
  - by intros ->.
Qed.
End ToTextFacts.

Lemma toText_lines_witness :
  header_line example_table ";" true <> "" /\
  DataFrame.toText pretty.pretty example_table ";" true (Some "out.csv") example_heap =
    Ok (("c1;c2" +:+ newline +:+ "1;2" +:+ newline +:+ "3;4",
         Some ("out.csv", "c1;c2" +:+ newline +:+ "1;2" +:+ newline +:+ "3;4")),
        example_heap) /\
  DataFrame.toCSV pretty.pretty example_table false None example_heap =
    Ok (("1,2" +:+ newline +:+ "3,4", None), example_heap).
Proof.
  assert (Hheader : header_line example_table ";" true <> "") by discriminate.
  split; [exact Hheader|]. split.
  - destruct (toText_lines pretty.pretty ";" example_table true (Some "out.csv") example_heap)
      as (Hrun & Htext & _).
    rewrite Hrun, (Htext Hheader). reflexivity.
  - destruct (toText_lines pretty.pretty "," example_table false None example_heap)
      as (Hrun & _ & Hcsv).
    rewrite (Hcsv eq_refl), Hrun. reflexivity.
Defined.

(** ** [sortBy], once more *)

Lemma Array_sort_sorted (StringToNumber : string -> option Z) (columnName T : string)
    (rows : list Row.t) :
  Sorted (not_after StringToNumber columnName) rows ->
  all_typed columnName T rows ->
  Array_sort (DataFrame.sortBy_compare StringToNumber columnName) rows = Ok rows.
Proof.
  induction rows as [|x rows IH]; [done|].
  intros [Hsorted Hhd]%Sorted_inv [Hx Htyped]%Forall_cons. simpl.
  rewrite IH by done. cbn [mbind Result_bind].
  destruct Hhd as [|y rows' Hxy]; [done|]. simpl.
  apply Forall_cons in Htyped as [Hy _].
  rewrite sortBy_compare_spec, bool_decide_eq_true_2 by congruence.
  cbn [mbind Result_bind]. by rewrite Hxy.
Qed.

(** X12. When [sortBy] (in ascending order) returns, the receiver
    holds the same sorted rows as the result, and sorting the result
    again by the same column returns the same rows in the same
    order. *)
Theorem sortBy_twice (StringToNumber : string -> option Z) (d d1 : DataFrame.t)
    (columnName : string) (h h1 : Heap) :
  allocated h d ->
  DataFrame.sortBy StringToNumber d columnName false h = Ok (d1, h1) ->
  rows_of h1 d = rows_of h1 d1 /\
  exists d2 h2,
    DataFrame.sortBy StringToNumber d1 columnName false h1 = Ok (d2, h2) /\
    rows_of h2 d2 = rows_of h1 d1.
Proof.
  intros Halloc Hrun. split; [by eapply sortBy_receiver|].
  rewrite sortBy_run in Hrun.
  destruct (Array_sort_cases StringToNumber columnName (rows_of h d))
    as [(sorted & Hsort & _ & Hsorted & T & Htyped)|[Hsort _]];
    rewrite Hsort in Hrun; [|done].
  cbv zeta in Hrun. injection Hrun as <- <-.
  assert (Htyped' : all_typed columnName T sorted).
  { destruct (Array_sort_cases StringToNumber columnName (rows_of h d))
      as [(sorted' & Hsort' & Hperm & _)|[Hsort' _]]; [|congruence].
    assert (sorted' = sorted) as -> by congruence.
    unfold all_typed. by rewrite Hperm. }
  rewrite sortBy_run, !rows_of_sorted.
  rewrite (Array_sort_sorted _ _ T) by done.
  cbv zeta. eexists _, _. split; [reflexivity|].
  by rewrite rows_of_sorted.
Qed.

Lemma sortBy_twice_witness :
  allocated example_heap_keys example_keys /\
  exists d1 h1 d2 h2,
    DataFrame.sortBy (fun _ => None) example_keys "k" false example_heap_keys
      = Ok (d1, h1) /\
    rows_of h1 example_keys = [ [("k", VNum 1)]; [("k", VNum 1)]; [("k", VNum 2)] ] /\
    rows_of h1 example_keys = rows_of h1 d1 /\
    DataFrame.sortBy (fun _ => None) d1 "k" false h1 = Ok (d2, h2) /\
    rows_of h2 d2 = rows_of h1 d1.
Proof.
  assert (Halloc : allocated example_heap_keys example_keys)
    by (unfold allocated; simpl; lia).
  split; [exact Halloc|].
  eexists _, _.
  assert (Hrun : DataFrame.sortBy (fun _ => None) example_keys "k" false example_heap_keys
                 = Ok ({| DataFrame.__rows__ := 1; DataFrame.__columns__ := ["k"] |},
                       [ [[("k", VNum 1)]; [("k", VNum 1)]; [("k", VNum 2)]];
                         [[("k", VNum 1)]; [("k", VNum 1)]; [("k", VNum 2)]] ]))
    by reflexivity.
  destruct (sortBy_twice (fun _ => None) example_keys _ "k" example_heap_keys _ Halloc Hrun)
    as (Hreceiver & d2 & h2 & Hagain & Hrows).
  exists d2, h2. split_and!; [exact Hrun|reflexivity|exact Hreceiver|exact Hagain|exact Hrows].
Defined.

(** ** The number of rows of a join *)

Lemma filter_length_split {A} (f g : A -> bool) (l : list A) :
  (forall x, x ∈ l -> f x = true -> g x = false) ->
  length (List.filter (fun x => f x || g x) l) =
  length (List.filter f l) + length (List.filter g l).
Proof.
  induction l as [|x l IH]; intros Hdisjoint; simpl; [done|].
  assert (IH' := IH (fun y Hy => Hdisjoint y (list_elem_of_further _ _ _ Hy))).
  destruct (f x) eqn:Hf; simpl.
  - rewrite (Hdisjoint x (list_elem_of_here _ _) Hf). simpl. by rewrite IH'.
  - destruct (g x); simpl; rewrite IH'; lia.
Qed.

Lemma filter_ext_elem_of {A} (f g : A -> bool) (l : list A) :
  (forall x, x ∈ l -> f x = g x) -> List.filter f l = List.filter g l.
Proof.
  induction l as [|x l IH]; intros Hext; simpl; [done|].
  rewrite (Hext x) by left. rewrite IH; [done|].
  intros y Hy. apply Hext. by right.
Qed.

Lemma groups_length (test : Value -> bool) (k : string) (rows : list Row.t)
    (keys : list Value) :
  NoDup keys ->
  length (concat (List.map
                    (fun key => List.filter (fun row => bool_decide (Row.get row k = key)) rows)
                    (List.filter test keys))) =
  length (List.filter
            (fun row => test (Row.get row k) && bool_decide (Row.get row k ∈ keys)) rows).
Proof.
  induction keys as [|key keys IH]; intros Hnodup.
  - cbn [List.filter List.map concat length]. rewrite filter_none; [done|].
    intros row _. apply andb_false_intro2.
    apply bool_decide_eq_false_2, not_elem_of_nil.
  - apply NoDup_cons in Hnodup as [Hkey Hnodup].
    rewrite (filter_ext_elem_of _
               (fun row => (test (Row.get row k) && bool_decide (Row.get row k = key))
                           || (test (Row.get row k) && bool_decide (Row.get row k ∈ keys)))).
    2:{ intros row _. rewrite <- andb_orb_distrib_r. f_equal.
        apply eq_true_iff_eq. rewrite orb_true_iff, !bool_decide_eq_true, elem_of_cons.
        tauto. }
    rewrite filter_length_split.
    2:{ intros row _ [_ Heq%bool_decide_eq_true]%andb_true_iff.
        rewrite (bool_decide_eq_false_2 (Row.get row k ∈ keys)) by congruence.
        apply andb_false_r. }
    rewrite <- IH by done. simpl. destruct (test key) eqn:Htest; simpl.
    + rewrite length_app. f_equal. f_equal. apply filter_ext_elem_of. intros row _.
      destruct (decide (Row.get row k = key)) as [Heq|Hne].
      * by rewrite (bool_decide_eq_true_2 _ Heq), Heq, Htest.
      * by rewrite (bool_decide_eq_false_2 _ Hne), andb_false_r.
    + rewrite (filter_none
                 (fun row => test (Row.get row k) && bool_decide (Row.get row k = key)));
        [reflexivity|].
      intros row _. destruct (decide (Row.get row k = key)) as [Heq|Hne].
      * by rewrite Heq, Htest.
      * by rewrite (bool_decide_eq_false_2 _ Hne), andb_false_r.
Qed.

Lemma included_groups_length (test : bool -> bool) (k : string) (rows other : list Row.t) :
  length (concat (included_groups test k rows other)) =
  length (passing test k rows other).
Proof.
  unfold included_groups, groups_on, passing.
  set (present := fun v : Value =>
         test (bool_decide (v ∈ List.map (fun row' => Row.get row' k) other))).
  assert (Hfilter :
    List.filter
      (fun g : Value * list Row.t =>
         test (bool_decide
                 (g.1 ∈ List.map fst
                    (List.map
                       (fun key => (key, List.filter
                                           (fun row => bool_decide (Row.get row k = key)) other))
                       (distinct (List.map (fun row => Row.get row k) other))))))
      (List.map
         (fun key => (key, List.filter (fun row => bool_decide (Row.get row k = key)) rows))
         (distinct (List.map (fun row => Row.get row k) rows))) =
    List.map
      (fun key => (key, List.filter (fun row => bool_decide (Row.get row k = key)) rows))
      (List.filter present (distinct (List.map (fun row => Row.get row k) rows)))).
  { induction (distinct (List.map (fun row => Row.get row k) rows)) as [|key keys IH];
      simpl; [done|].
    assert (Htest : test (bool_decide
                            (key ∈ List.map fst
                               (List.map
                                  (fun key0 =>
                                     (key0, List.filter
                                              (fun row => bool_decide (Row.get row k = key0))
                                              other))
                                  (distinct (List.map (fun row => Row.get row k) other)))))
                    = present key).
    { unfold present. f_equal. apply bool_decide_ext.
      apply (group_keys_on k other key). }
    rewrite Htest. destruct (present key); simpl; by rewrite IH. }
  rewrite Hfilter, List.map_map. cbn [snd].
  rewrite (groups_length present) by apply NoDup_distinct_from.
  f_equal. apply filter_ext_elem_of. intros row Hrow.
  rewrite bool_decide_eq_true_2; [apply andb_true_r|].
  apply elem_of_distinct, elem_of_List_map. by exists row.
Qed.

Lemma instance_rows_length (this_columns columns : list string) (rows : list Row.t) :
  length (instance_rows this_columns rows columns) = length rows.
Proof. unfold instance_rows. destruct (kept_as_is _ _ _); [done|]. apply length_map. Qed.

Lemma concat_map_length {A} (F : list A -> list A) (ls : list (list A)) :
  (forall l, length (F l) = length l) ->
  length (concat (List.map F ls)) = length (concat ls).
Proof.
  intros HF. induction ls as [|l ls IH]; simpl; [done|].
  by rewrite !length_app, HF, IH.
Qed.

(** X13. A join never merges rows: when it returns, the number of
    its rows is the number of rows of the left side whose key the
    mode includes plus the number of rows of the right side whose key
    the mode includes.  A full join has as many rows as the two sides
    together (and throws a [TypeError] when both are empty), and an
    inner and an outer join have together as many rows as the two
    sides. *)
Theorem join_counts (a b : DataFrame.t) (k : string) (h : Heap) :
  allocated h b ->
  (forall mode d' h',
     DataFrame.join a b k (how mode) h = Ok (d', h') ->
     returned (DataFrame.count d' h') =
       Ok (length (passing (left_included mode) k (rows_of h a) (rows_of h b)) +
           length (passing (right_included mode) k (rows_of h b) (rows_of h a)))) /\
  (forall d' h',
     DataFrame.fullJoin a b k h = Ok (d', h') ->
     returned (DataFrame.count d' h') =
       Ok (length (rows_of h a) + length (rows_of h b))) /\
  (rows_of h a = [] -> rows_of h b = [] -> DataFrame.fullJoin a b k h = Throw TypeError) /\
  (forall di hi do ho,
     DataFrame.innerJoin a b k h = Ok (di, hi) ->
     DataFrame.outerJoin a b k h = Ok (do, ho) ->
     length (rows_of hi di) + length (rows_of ho do) =
     length (rows_of h a) + length (rows_of h b)).
Proof.
  intros Halloc.
  assert (Hcount : forall mode d' h',
            DataFrame._join a b k (types_of mode) h = Ok (d', h') ->
            length (rows_of h' d') =
              length (passing (left_included mode) k (rows_of h a) (rows_of h b)) +
              length (passing (right_included mode) k (rows_of h b) (rows_of h a))).
  { intros mode d' h' Hrun.
    rewrite (join_rows a b d' k (types_of mode) h h' Halloc Hrun), united_rows_mode.
    unfold united_rows. rewrite concat_app, length_app.
    rewrite !concat_map_length by (intros l; apply instance_rows_length).
    by rewrite !included_groups_length. }
  assert (Hall : forall rows other, passing (fun _ => true) k rows other = rows).
  { intros rows other. apply filter_true. }
  split_and!.
  - intros mode d' h'. rewrite join_how, count_run. intros Hrun. cbn [returned].
    f_equal. by apply Hcount.
  - intros d' h' Hrun. rewrite count_run. cbn [returned]. f_equal.
    rewrite (Hcount FullJoin d' h' Hrun). cbn [left_included right_included].
    by rewrite !Hall.
  - intros Ha Hb. apply (join_empty a b k ("", "") h Halloc).
    unfold join_sides, included_groups, groups_on. by rewrite Ha, Hb.
  - intros di hi do ho Hinner Houter.
    rewrite (Hcount InnerJoin di hi Hinner), (Hcount OuterJoin do ho Houter).
    assert (Hsplit : forall (t1 t2 : bool -> bool) rows other,
              (forall present, t2 present = negb (t1 present)) ->
              length (passing t1 k rows other) + length (passing t2 k rows other) =
              length rows).
    { intros t1 t2 rows other Hneg. unfold passing.
      induction rows as [|row rows IH]; simpl; [done|].
      rewrite Hneg. destruct (t1 _); simpl; lia. }
    rewrite <- (Hsplit (left_included InnerJoin) (left_included OuterJoin)
                  (rows_of h a) (rows_of h b)) by done.
    rewrite <- (Hsplit (right_included InnerJoin) (right_included OuterJoin)
                  (rows_of h b) (rows_of h a)) by done.
    lia.
Qed.

Lemma join_counts_witness :
  allocated example_heap example_right /\
  exists d' h',
    DataFrame.fullJoin example_left example_right "id" example_heap = Ok (d', h') /\
    returned (DataFrame.count d' h') = Ok 3.
Proof.
  assert (Halloc : allocated example_heap example_right)
    by (unfold allocated; simpl; lia).
  split; [exact Halloc|].
  destruct (join_counts example_left example_right "id" example_heap Halloc)
    as (_ & Hfull & _).
  eexists _, _. split; [reflexivity|]. apply Hfull. reflexivity.
Defined.

(** ** [restructure] *)

(** X14. With names that hold no space, [restructure] returns a
    DataFrame over exactly these columns with one row per row of the
    receiver, in which a column holds what the row held under that
    name (nothing, for a name that is new).  Unless the
    columns asked for are those of the receiver, every row is rebuilt
    over exactly these columns, so that what it held under another
    name is gone. *)
Theorem restructure_by_name (d : DataFrame.t) (columns : list string) (h : Heap) :
  normalized columns ->
  exists d' h',
    DataFrame.restructure d columns h = Ok (d', h') /\
    DataFrame.listColumns d' = columns /\
    returned (DataFrame.count d' h') = Ok (length (rows_of h d)) /\
    (forall k, k ∈ columns -> column_of h' d' k = column_of h d k) /\
    (columns <> DataFrame.listColumns d ->
     Forall (fun row => Row.columns row = columns) (rows_of h' d') /\
     forall k, k ∉ columns -> column_of h' d' k = empty_column h d).
Proof.
  intros Hnorm. rewrite restructure_run. eexists _, _. split; [reflexivity|].
  rewrite count_run. unfold column_of, empty_column, DataFrame.listColumns.
  rewrite rows_of_alloc. cbn [DataFrame.__columns__ returned].
  rewrite instance_columns_normalized, instance_rows_padded by done.
  split_and!.
  - done.
  - by rewrite padded_length.
  - intros k Hk. by apply padded_get.
  - intros Hne. unfold padded. rewrite bool_decide_eq_false_2 by done. split.
    + apply Forall_forall. intros row (row0 & -> & _)%elem_of_List_map.
      unfold Row.columns, Row.fromObject. rewrite List.map_map. apply map_id.
    + intros k Hk. rewrite List.map_map. apply map_ext. intros row.
      unfold Row.get. by rewrite Row_lookup_fromObject, bool_decide_eq_false_2.
Qed.

Lemma restructure_by_name_witness :
  normalized ["c2"; "c3"] /\
  ["c2"; "c3"] <> DataFrame.listColumns example_table /\
  exists d' h',
    DataFrame.restructure example_table ["c2"; "c3"] example_heap = Ok (d', h') /\
    DataFrame.listColumns d' = ["c2"; "c3"] /\
    rows_of h' d' = [ [("c2", VNum 2); ("c3", VUndefined)];
                      [("c2", VNum 4); ("c3", VUndefined)] ] /\
    column_of h' d' "c2" = column_of example_heap example_table "c2" /\
    Forall (fun row => Row.columns row = ["c2"; "c3"]) (rows_of h' d').
Proof.
  assert (Hnorm : normalized ["c2"; "c3"]) by (repeat constructor).
  assert (Hne : ["c2"; "c3"] <> DataFrame.listColumns example_table) by discriminate.
  split; [exact Hnorm|]. split; [exact Hne|].
  destruct (restructure_by_name example_table ["c2"; "c3"] example_heap Hnorm)
    as (d' & h' & Hrun & Hcols & _ & Hkept & Hrebuilt).
  exists d', h'. split_and!; [exact Hrun|exact Hcols| | |exact (proj1 (Hrebuilt Hne))].
  - injection Hrun as <- <-. reflexivity.
  - apply Hkept. repeat constructor.
Defined.

(** ** The constructor *)

Lemma Row_columns_fromObject (o : list (string * Value)) (columns : list string) :
  Row.columns (Row.fromObject o columns) = columns.
Proof. unfold Row.columns, Row.fromObject. rewrite List.map_map. apply map_id. Qed.

Lemma Row_columns_new (data : Row.data) (columns : list string) :
  Row.columns (Row.new data columns) = columns.
Proof.
  destruct data; simpl;
    [apply Row_columns_fromArray|apply Row_columns_fromObject|apply Row_columns_fromObject].
Qed.



(** ** [_dropSpacesInColumnNames] *)

(** X16. [_dropSpacesInColumnNames] keeps the number and the order
    of the names; a name without a space is kept, and a name with
    spaces loses the first one only.  So names without spaces are
    left as they are, and a name with two spaces still holds one
    afterwards. *)
Theorem dropSpaces_first_space_only (columns : list string) :
  Forall2 first_space_dropped columns (DataFrame._dropSpacesInColumnNames columns) /\
  (normalized columns -> DataFrame._dropSpacesInColumnNames columns = columns) /\
  (forall before middle after,
     has_space before = false ->
     DataFrame._dropSpacesInColumnNames
       [before +:+ String " " (middle +:+ String " " after)] =
     [before +:+ middle +:+ String " " after]).
Proof.
  split_and!.
  - unfold DataFrame._dropSpacesInColumnNames.
    induction columns as [|c columns IH]; simpl; constructor; [|exact IH].
    destruct (has_space c) eqn:Hc.
    + right. destruct (String_replace_first_space c Hc) as (before & after & Hs & Hb & Hr).
      by exists before, after.
    + left. split; [done|]. by apply String_replace_no_space.
  - apply dropSpaces_normalized.
  - intros before middle after Hbefore. unfold DataFrame._dropSpacesInColumnNames.
    cbn [List.map]. f_equal.
    induction before as [|c before IH].
    + change ("" +:+ ?s) with s. by rewrite String_replace_space_cons.
    + change (String c before +:+ ?s) with (String c (before +:+ s)).
      rewrite String_replace_space_cons. simpl in Hbefore.
      destruct (Ascii.eqb c " "); [done|]. by rewrite IH.
Qed.

Lemma dropSpaces_first_space_only_witness :
  normalized ["c1"; "c2"] /\
  has_space "a" = false /\
  DataFrame._dropSpacesInColumnNames ["c1"; "c2"] = ["c1"; "c2"] /\
  DataFrame._dropSpacesInColumnNames ["a b c"] = ["ab c"].
Proof.
  assert (Hnorm : normalized ["c1"; "c2"]) by (repeat constructor).
  split; [exact Hnorm|]. split; [reflexivity|]. split.
  - exact (proj1 (proj2 (dropSpaces_first_space_only ["c1"; "c2"])) Hnorm).
  - exact (proj2 (proj2 (dropSpaces_first_space_only [])) "a" "b" "c" eq_refl).
Defined.

(** ** [transpose] and [toDict] *)

Lemma map_nth_seq {A} (l : list A) (d : A) :
  List.map (fun i => nth i l d) (seq 0 (length l)) = l.
Proof.
  assert (Hgen : forall (l : list A) (n : nat),
            List.map (fun i => nth (i - n) l d) (seq n (length l)) = l).
  { clear l. induction l as [|x l IH]; intros n; simpl; [done|].
    rewrite Nat.sub_diag. f_equal. rewrite <- (IH (S n)) at 2.
    apply map_ext_in. intros i [Hi _]%in_seq.
    by replace (i - n) with (S (i - S n)) by lia. }
  rewrite <- (Hgen l 0) at 2. apply map_ext. intros i. by rewrite Nat.sub_0_r.
Qed.

Lemma transpose_rectangular (matrix : list (list Value)) (m : nat) :
  matrix <> [] ->
  Forall (fun row => length row = m) matrix ->
  Reusables.transpose matrix =
  List.map (fun j => List.map (fun row => nth j row VUndefined) matrix) (seq 0 m).
Proof.
  intros Hne Hrect. unfold Reusables.transpose. f_equal. f_equal.
  destruct matrix as [|row matrix]; [done|].
  apply Forall_cons in Hrect as [Hrow Hrect]. simpl. rewrite Hrow.
  clear Hne Hrow row. induction Hrect as [|row matrix Hrow _ IH]; simpl; [lia|].
  rewrite Hrow. lia.
Qed.

Lemma transpose_lengths (matrix : list (list Value)) :
  Forall (fun column => length column = length matrix) (Reusables.transpose matrix).
Proof.
  unfold Reusables.transpose. apply Forall_forall.
  intros column (i & -> & _)%elem_of_List_map. apply length_map.
Qed.

Lemma transpose_involutive (matrix : list (list Value)) (m : nat) :
  matrix <> [] -> 0 < m ->
  Forall (fun row => length row = m) matrix ->
  Reusables.transpose (Reusables.transpose matrix) = matrix.
Proof.
  intros Hne Hm Hrect.
  rewrite (transpose_rectangular (Reusables.transpose matrix) (length matrix)).
  - rewrite (transpose_rectangular matrix m) by done.
    etrans; [|apply (map_nth_seq matrix [])].
    apply map_ext_in. intros i [_ Hi]%in_seq. rewrite List.map_map.
    assert (Hrow : length (nth i matrix []) = m).
    { apply (proj1 (Forall_forall _ _) Hrect), list_elem_of_In, nth_In. lia. }
    etrans; [|apply (map_nth_seq (nth i matrix []) VUndefined)]. rewrite Hrow.
    apply map_ext. intros j.
    rewrite <- (map_nth (fun row => nth j row VUndefined) matrix [] i).
    by destruct j.
  - rewrite (transpose_rectangular matrix m) by done.
    destruct m; [lia|]. done.
  - apply transpose_lengths.
Qed.

Lemma Row_get_nth (row : Row.t) (j : nat) (s : string) :
  NoDup (Row.columns row) ->
  j < length row ->
  Row.get row (nth j (Row.columns row) s) = nth j (Row.toArray row) VUndefined.
Proof.
  unfold Row.get, Row.columns, Row.toArray. revert j.
  induction row as [|[c v] row IH]; intros j Hnodup Hj; simpl in *; [lia|].
  apply NoDup_cons in Hnodup as [Hc Hnodup]. destruct j as [|j].
  - by rewrite bool_decide_eq_true_2.
  - rewrite bool_decide_eq_false_2; [apply IH; [done|lia]|].
    intros ->. apply Hc, list_elem_of_In, nth_In. rewrite length_map. lia.
Qed.

Lemma imap_map_seq {A B} (f : nat -> A -> B) (g : nat -> A) (m : nat) :
  imap f (List.map g (seq 0 m)) = List.map (fun j => f j (g j)) (seq 0 m).
Proof.
  assert (Hgen : forall m n (f : nat -> A -> B),
            imap (fun i => f (n + i)) (List.map g (seq n m)) =
            List.map (fun j => f j (g j)) (seq n m)).
  { clear. induction m as [|m IH]; intros n f; [done|].
    simpl. rewrite Nat.add_0_r. f_equal. rewrite <- (IH (S n) f).
    apply imap_ext. intros i x _. simpl. f_equal. lia. }
  exact (Hgen m 0 f).
Qed.

Lemma map_nth_columns {A B} (G : A -> B) (l : list A) (d : A) :
  List.map (fun j => G (nth j l d)) (seq 0 (length l)) = List.map G l.
Proof.
  rewrite <- (map_nth_seq l d) at 2. by rewrite List.map_map.
Qed.

Lemma foldl_Object_assign (F : string -> list Value) (columns : list string)
    (dict : DataFrame.Dict) :
  (forall c,
     DataFrame.own (foldl DataFrame.Object_assign dict
                      (List.map (fun column => (column, F column)) columns)) !! c =
     if bool_decide (c ∈ columns /\ c <> "__proto__") then Some (F c)
     else DataFrame.own dict !! c) /\
  DataFrame.prototype (foldl DataFrame.Object_assign dict
                         (List.map (fun column => (column, F column)) columns)) =
  if bool_decide ("__proto__" ∈ columns) then Some (F "__proto__")
  else DataFrame.prototype dict.
Proof.
  revert dict. induction columns as [|column columns IH]; intros dict;
    cbn [foldl List.map].
  - split.
    + intros c. rewrite bool_decide_eq_false_2; [done|].
      intros [[]%elem_of_nil _].
    + by rewrite (bool_decide_eq_false_2 ("__proto__" ∈ [])) by apply not_elem_of_nil.
  - destruct (IH (DataFrame.Object_assign dict (column, F column))) as [IHown IHprototype].
    split.
    + intros c. rewrite IHown. destruct (decide (c ∈ columns /\ c <> "__proto__")) as [Hin|Hnot].
      * rewrite !bool_decide_eq_true_2; [done| |done].
        destruct Hin as [Hin Hc]. split; [by right|done].
      * rewrite (bool_decide_eq_false_2 _ Hnot).
        unfold DataFrame.Object_assign. cbn [fst snd].
        destruct (decide (column = "__proto__")) as [->|Hcolumn].
        -- rewrite (bool_decide_eq_true_2 ("__proto__" = "__proto__")) by done.
           cbn [DataFrame.own]. rewrite bool_decide_eq_false_2; [done|].
           intros [[->|Hin]%elem_of_cons Hc]; [done|]. by apply Hnot.
        -- rewrite (bool_decide_eq_false_2 _ Hcolumn). cbn [DataFrame.own].
           destruct (decide (c = column)) as [->|Hne].
           ++ rewrite lookup_insert_eq. rewrite bool_decide_eq_true_2; [done|].
              split; [by left|done].
           ++ rewrite lookup_insert_ne by done.
              rewrite bool_decide_eq_false_2; [done|].
              intros [[->|Hin]%elem_of_cons Hc]; [done|]. by apply Hnot.
    + rewrite IHprototype. destruct (decide ("__proto__" ∈ columns)) as [Hin|Hnot].
      * rewrite !bool_decide_eq_true_2; [done|by right|done].
      * rewrite (bool_decide_eq_false_2 _ Hnot).
        unfold DataFrame.Object_assign. cbn [fst snd].
        destruct (decide (column = "__proto__")) as [->|Hcolumn].
        -- rewrite (bool_decide_eq_true_2 ("__proto__" = "__proto__")) by done.
           cbn [DataFrame.prototype]. by rewrite bool_decide_eq_true_2 by left.
        -- rewrite (bool_decide_eq_false_2 _ Hcolumn). cbn [DataFrame.prototype].
           rewrite bool_decide_eq_false_2; [done|].
           by intros [?|?]%elem_of_cons.
Qed.

Section TransposeFacts.
Variable NumberToString : Z -> string.

Lemma transpose_run (d : DataFrame.t) (h : Heap) :
  exists columns,
    length columns = length (rows_of h d) /\
    DataFrame.transpose NumberToString d h =
      Ok ({| DataFrame.__rows__ := length h; DataFrame.__columns__ := columns |},
          h ++ [List.map (fun column => Row.fromArray column columns)
                  (Reusables.transpose (List.map Row.toArray (rows_of h d)))]).
Proof.
  eexists. split; [|unfold DataFrame.transpose; run;
                    rewrite count_run, toArray_run; unfold DataFrame.__newInstance__;
                    cbn [DataFrame.first_is_Row negb]; rewrite orb_true_r;
                    rewrite new_OfArrays; reflexivity].
  by rewrite !dropSpaces_length, length_map, length_seq.
Qed.

Lemma transpose_toArray (d : DataFrame.t) (h : Heap) :
  exists d' h',
    DataFrame.transpose NumberToString d h = Ok (d', h') /\
    length (DataFrame.listColumns d') = length (rows_of h d) /\
    List.map Row.toArray (rows_of h' d') =
      Reusables.transpose (List.map Row.toArray (rows_of h d)).
Proof.
  destruct (transpose_run d h) as (columns & Hlen & Hrun).
  eexists _, _. split; [exact Hrun|]. split; [exact Hlen|].
  rewrite rows_of_alloc, List.map_map.
  rewrite <- (map_id (Reusables.transpose _)) at 2.
  apply map_ext_in. intros column Hcolumn. apply Row_toArray_fromArray.
  rewrite Hlen, <- (length_map Row.toArray).
  apply (proj1 (Forall_forall _ _) (transpose_lengths _)). by apply list_elem_of_In.
Qed.

(** X17. [transpose] never throws.  On a DataFrame with at least one
    row and one column, whose rows hold one value per column, it
    returns a DataFrame with one row per column of the receiver and
    one column per row, the value of row [j] in column [i] being that
    of row [i] in column [j] of the receiver; transposing the result
    gives the rows of the receiver back, as arrays.  The transpose
    of a DataFrame without rows has neither rows nor columns. *)
Theorem transpose_swaps (d : DataFrame.t) (h : Heap) :
  (exists d' h',
     DataFrame.transpose NumberToString d h = Ok (d', h') /\
     length (DataFrame.listColumns d') = length (rows_of h d)) /\
  (rows_of h d <> [] -> 0 < length (DataFrame.listColumns d) -> rectangular h d ->
   exists d' h',
     DataFrame.transpose NumberToString d h = Ok (d', h') /\
     returned (DataFrame.dim d' h') =
       Ok (length (DataFrame.listColumns d), length (rows_of h d)) /\
     returned (DataFrame.toArray d' h') =
       Ok (List.map
             (fun j => List.map (fun row => nth j (Row.toArray row) VUndefined) (rows_of h d))
             (seq 0 (length (DataFrame.listColumns d)))) /\
     exists d'' h'',
       DataFrame.transpose NumberToString d' h' = Ok (d'', h'') /\
       returned (DataFrame.toArray d'' h'') = returned (DataFrame.toArray d h)) /\
  (rows_of h d = [] ->
   exists d' h',
     DataFrame.transpose NumberToString d h = Ok (d', h') /\
     returned (DataFrame.dim d' h') = Ok (0, 0)).
Proof.
  split_and!.
  - destruct (transpose_toArray d h) as (d' & h' & Hrun & Hlen & _). by exists d', h'.
  - intros Hrows Hcolumns Hrect. unfold rectangular in Hrect.
    destruct (transpose_toArray d h) as (d' & h' & Hrun & Hlen & Harray).
    destruct (transpose_toArray d' h') as (d'' & h'' & Hrun' & _ & Harray').
    assert (Hmatrix : Forall (fun row => length row = length (DataFrame.listColumns d))
                        (List.map Row.toArray (rows_of h d))).
    { apply Forall_forall. intros a (row & -> & Hrow)%elem_of_List_map.
      by apply (proj1 (Forall_forall _ _) Hrect). }
    assert (Hne : List.map Row.toArray (rows_of h d) <> []).
    { by destruct (rows_of h d). }
    exists d', h'. split; [exact Hrun|].
    rewrite dim_run, !toArray_run, Harray. cbn [returned].
    rewrite (transpose_rectangular _ _ Hne Hmatrix). split_and!.
    + f_equal. f_equal; [|done].
      rewrite <- (length_map Row.toArray), Harray.
      by rewrite (transpose_rectangular _ _ Hne Hmatrix), length_map, length_seq.
    + f_equal. apply map_ext. intros j. by rewrite List.map_map.
    + exists d'', h''. split; [exact Hrun'|].
      rewrite toArray_run, Harray', Harray. cbn [returned]. f_equal.
      by apply (transpose_involutive _ (length (DataFrame.listColumns d))).
  - intros Hrows. destruct (transpose_run d h) as (columns & Hlen & Hrun).
    eexists _, _. split; [exact Hrun|].
    rewrite dim_run, rows_of_alloc, Hrows. cbn [DataFrame.listColumns DataFrame.__columns__].
    rewrite Hlen, Hrows. reflexivity.
Qed.

(** X18. [toDict] never throws.  On a DataFrame with at least one
    row, whose columns are distinct and whose rows are Rows over these
    columns, it returns an object whose own properties are the column
    names other than [__proto__], each holding the values of that
    column in the order of the rows, and nothing else; a column named
    [__proto__] is no property of the object: its values become the
    prototype of the object, which is [Object.prototype] otherwise.
    On a DataFrame without rows it returns the empty object, whatever
    the columns. *)
Theorem toDict_columns (d : DataFrame.t) (h : Heap) :
  (exists dict, returned (DataFrame.toDict NumberToString d h) = Ok dict) /\
  (rows_of h d <> [] -> NoDup (DataFrame.listColumns d) -> rows_fit h d ->
   exists dict,
     returned (DataFrame.toDict NumberToString d h) = Ok dict /\
     (forall c,
        DataFrame.own dict !! c =
        if bool_decide (c ∈ DataFrame.listColumns d /\ c <> "__proto__")
        then Some (column_of h d c) else None) /\
     DataFrame.prototype dict =
       if bool_decide ("__proto__" ∈ DataFrame.listColumns d)
       then Some (column_of h d "__proto__") else None) /\
  (rows_of h d = [] -> returned (DataFrame.toDict NumberToString d h) = Ok ∅).
Proof.
  destruct (transpose_toArray d h) as (d' & h' & Hrun & _ & Harray).
  assert (Hdict : returned (DataFrame.toDict NumberToString d h) =
            Ok (foldl DataFrame.Object_assign ∅
                  (imap (fun index column =>
                           (nth index (DataFrame.__columns__ d) "undefined", column))
                        (Reusables.transpose (List.map Row.toArray (rows_of h d)))))).
  { unfold DataFrame.toDict. run. rewrite Hrun, toArray_run, Harray. done. }
  rewrite Hdict. split_and!.
  - by eexists.
  - intros Hrows Hnodup Hfit. unfold rows_fit, DataFrame.listColumns in *.
    eexists. split; [reflexivity|].
    assert (Hmatrix : Forall (fun row => length row = length (DataFrame.__columns__ d))
                        (List.map Row.toArray (rows_of h d))).
    { apply Forall_forall. intros a (row & -> & Hrow)%elem_of_List_map.
      rewrite <- (proj1 (Forall_forall _ _) Hfit row Hrow).
      unfold Row.toArray, Row.columns. by rewrite !length_map. }
    assert (Hne : List.map Row.toArray (rows_of h d) <> []).
    { by destruct (rows_of h d). }
    rewrite (transpose_rectangular _ _ Hne Hmatrix), imap_map_seq.
    assert (Hentries :
      List.map
        (fun j => (nth j (DataFrame.__columns__ d) "undefined",
                   List.map (fun row => nth j row VUndefined)
                            (List.map Row.toArray (rows_of h d))))
        (seq 0 (length (DataFrame.__columns__ d))) =
      List.map (fun column => (column, column_of h d column)) (DataFrame.__columns__ d)).
    { rewrite <- (map_nth_columns (fun column => (column, column_of h d column))
                    (DataFrame.__columns__ d) "undefined").
      apply map_ext_in. intros j [_ Hj]%in_seq. f_equal.
      unfold column_of. rewrite List.map_map. apply map_ext_in.
      intros row Hrow%list_elem_of_In.
      assert (Hcolumns := proj1 (Forall_forall _ _) Hfit row Hrow).
      rewrite <- Hcolumns. symmetry. apply Row_get_nth.
      - by rewrite Hcolumns.
      - rewrite <- (length_map fst row). fold (Row.columns row). rewrite Hcolumns. lia. }
    rewrite Hentries.
    destruct (foldl_Object_assign (column_of h d) (DataFrame.__columns__ d) ∅)
      as [Hown Hprototype].
    split; [|exact Hprototype]. intros c. rewrite Hown. cbn. by rewrite lookup_empty.
  - intros ->. reflexivity.
Qed.
End TransposeFacts.

Lemma transpose_swaps_witness :
  rows_of example_heap example_table <> [] /\
  0 < length (DataFrame.listColumns example_table) /\
  rectangular example_heap example_table /\
  exists d' h' d'' h'',
    DataFrame.transpose pretty.pretty example_table example_heap = Ok (d', h') /\
    DataFrame.listColumns d' = ["0"; "1"] /\
    returned (DataFrame.toArray d' h') = Ok [[VNum 1; VNum 3]; [VNum 2; VNum 4]] /\
    DataFrame.transpose pretty.pretty d' h' = Ok (d'', h'') /\
    returned (DataFrame.toArray d'' h'') =
      returned (DataFrame.toArray example_table example_heap).
Proof.
  assert (Hrows : rows_of example_heap example_table <> []) by discriminate.
  assert (Hcolumns : 0 < length (DataFrame.listColumns example_table)) by (simpl; lia).
  assert (Hrect : rectangular example_heap example_table) by (repeat constructor).
  split; [exact Hrows|]. split; [exact Hcolumns|]. split; [exact Hrect|].
  destruct (proj1 (proj2 (transpose_swaps pretty.pretty example_table example_heap))
              Hrows Hcolumns Hrect)
    as (d' & h' & Hrun & _ & Harray & d'' & h'' & Hrun' & Hback).
  exists d', h', d'', h''.
  split_and!; [exact Hrun| |exact Harray|exact Hrun'|exact Hback].
  injection Hrun as <- _. reflexivity.
Defined.

Lemma toDict_columns_witness :
  rows_of example_heap example_table <> [] /\
  NoDup (DataFrame.listColumns example_table) /\
  rows_fit example_heap example_table /\
  exists dict,
    returned (DataFrame.toDict pretty.pretty example_table example_heap) = Ok dict /\
    DataFrame.own dict !! "c1" = Some [VNum 1; VNum 3] /\
    DataFrame.own dict !! "c2" = Some [VNum 2; VNum 4] /\
    DataFrame.own dict !! "c3" = None /\
    DataFrame.prototype dict = None.
Proof.
  assert (Hrows : rows_of example_heap example_table <> []) by discriminate.
  assert (Hnodup : NoDup (DataFrame.listColumns example_table)).
  { apply NoDup_cons. split; [by intros [?|[]%elem_of_nil]%elem_of_cons|].
    apply NoDup_singleton. }
  assert (Hfit : rows_fit example_heap example_table) by (repeat constructor).
  split; [exact Hrows|]. split; [exact Hnodup|]. split; [exact Hfit|].
  destruct (proj1 (proj2 (toDict_columns pretty.pretty example_table example_heap))
              Hrows Hnodup Hfit) as (dict & Hrun & Hlookup & Hprototype).
  exists dict. split; [exact Hrun|]. by rewrite !Hlookup, Hprototype.
Defined.

(** ** [filter] and [where] *)

(** X19. Whenever the condition can be evaluated (it is not the empty
    column/value object, or there is no row), [filter], and [where]
    which is the same, return exactly the rows that satisfy it, in
    their order.  When at least one row is kept the columns are those
    of the receiver, normalized; when none is kept the result has no
    columns either. *)
Theorem filter_keeps_matching_rows (d : DataFrame.t) (condition : DataFrame.condition)
    (h : Heap) :
  (condition = DataFrame.Mapping [] -> rows_of h d = []) ->
  exists d' h',
    DataFrame.filter d condition h = Ok (d', h') /\
    DataFrame.where_ d condition h = Ok (d', h') /\
    rows_of h' d' = List.filter (satisfies condition) (rows_of h d) /\
    (forall row, row ∈ rows_of h' d' <-> row ∈ rows_of h d /\ satisfies condition row = true) /\
    (rows_of h' d' <> [] ->
     DataFrame.listColumns d' = DataFrame._dropSpacesInColumnNames (DataFrame.listColumns d)) /\
    (rows_of h' d' = [] -> DataFrame.listColumns d' = []).
Proof.
  intros Hcondition. unfold DataFrame.where_. rewrite filter_run by done.
  eexists _, _. split; [reflexivity|]. split; [reflexivity|].
  rewrite rows_of_alloc. cbn [DataFrame.listColumns DataFrame.__columns__].
  split_and!.
  - done.
  - intros row. apply elem_of_List_filter.
  - intros Hkept. by rewrite bool_decide_eq_true_2.
  - intros Hnone. by rewrite bool_decide_eq_false_2 by (by intros ?).
Qed.

Lemma filter_keeps_matching_rows_witness :
  (example_condition = DataFrame.Mapping [] -> rows_of example_heap example_table = []) /\
  (exists d' h',
     DataFrame.filter example_table example_condition example_heap = Ok (d', h') /\
     rows_of h' d' = [ [("c1", VNum 3); ("c2", VNum 4)] ] /\
     DataFrame.listColumns d' = ["c1"; "c2"]) /\
  exists d' h',
    DataFrame.filter example_table (DataFrame.Mapping [("c1", VNum 7)]) example_heap
      = Ok (d', h') /\
    rows_of h' d' = [] /\
    DataFrame.listColumns d' = [].
Proof.
  assert (Hcondition : example_condition = DataFrame.Mapping [] ->
                       rows_of example_heap example_table = []) by discriminate.
  split; [exact Hcondition|]. split.
  - destruct (filter_keeps_matching_rows example_table example_condition example_heap
                Hcondition) as (d' & h' & Hrun & _ & Hrows & _ & Hcols & _).
    exists d', h'. split_and!; [exact Hrun|exact Hrows|].
    rewrite Hcols; [reflexivity|]. by rewrite Hrows.
  - destruct (filter_keeps_matching_rows example_table
                (DataFrame.Mapping [("c1", VNum 7)]) example_heap)
      as (d' & h' & Hrun & _ & Hrows & _ & _ & Hnone); [discriminate|].
    exists d', h'. split_and!; [exact Hrun|exact Hrows|exact (Hnone Hrows)].
Defined.

(** ** What the methods leave alone *)

Lemma new_grows (data : DataFrame.data) (columns : list string) (d' : DataFrame.t)
    (h h' : Heap) :
  DataFrame.new data columns h = Ok (d', h') -> exists t, h' = h ++ t.
Proof.
  unfold DataFrame.new, DataFrame._build, DataFrame._fromArray, DataFrame._fromDict.
  destruct data; run; simpl; intros Hrun; inversion Hrun; by eexists.
Qed.

Lemma newInstance_grows (this : DataFrame.t) (data : DataFrame.data)
    (columns : list string) (d' : DataFrame.t) (h h' : Heap) :
  DataFrame.__newInstance__ this data columns h = Ok (d', h') -> exists t, h' = h ++ t.
Proof.
  unfold DataFrame.__newInstance__.
  destruct (negb _ || negb _); [apply new_grows|].
  destruct data; try apply new_grows.
  run. intros [= _ <-]. by eexists.
Qed.

Lemma filter_grows (d d' : DataFrame.t) (condition : DataFrame.condition) (h h' : Heap) :
  DataFrame.filter d condition h = Ok (d', h') -> exists t, h' = h ++ t.
Proof.
  intros Hrun.
  assert (condition = DataFrame.Mapping [] /\ rows_of h d <> [] \/
          (condition = DataFrame.Mapping [] -> rows_of h d = [])) as [[-> Hne]|Hok].
  { destruct condition as [f|[|entry o]]; [by right| |by right].
    destruct (rows_of h d); [by right | by left]. }
  - by rewrite filter_empty_mapping in Hrun.
  - rewrite filter_run in Hrun by done. injection Hrun as _ <-. by eexists.
Qed.

(** X20. Apart from [sortBy], no method changes what can be observed
    of its receiver (its count, its columns and its rows as arrays),
    nor of the DataFrame it is given: whenever it returns,
    [restructure], [renameAll], [rename], [filter], [find],
    [countValue], [map], [replace], [chain], [select], [withColumn],
    [drop], [distinct], [push], [transpose], [toDict], [toText],
    [reduce], [reduceRight], [union] and [join] have at most
    allocated new row arrays. *)
Theorem only_sortBy_writes (d : DataFrame.t) (h : Heap) :
  allocated h d ->
  (forall columns, keeps d h (DataFrame.restructure d columns h)) /\
  (forall columns, keeps d h (DataFrame.renameAll d columns h)) /\
  (forall columnName replacement,
     keeps d h (DataFrame.rename d columnName replacement h)) /\
  (forall condition, keeps d h (DataFrame.filter d condition h)) /\
  (forall condition, keeps d h (DataFrame.find d condition h)) /\
  (forall value columnName, keeps d h (DataFrame.countValue d value columnName h)) /\
  (forall func, keeps d h (DataFrame.map d func h)) /\
  (forall value replacement columnNames,
     keeps d h (DataFrame.replace d value replacement columnNames h)) /\
  (forall funcs, keeps d h (DataFrame.chain d funcs h)) /\
  (forall columnNames, keeps d h (DataFrame.select d columnNames h)) /\
  (forall columnName func, keeps d h (DataFrame.withColumn d columnName func h)) /\
  (forall columnName, keeps d h (DataFrame.drop d columnName h)) /\
  (forall columnName, keeps d h (DataFrame.distinct d columnName h)) /\
  (forall rows, keeps d h (DataFrame.push d rows h)) /\
  (forall NumberToString, keeps d h (DataFrame.transpose NumberToString d h)) /\
  (forall NumberToString, keeps d h (DataFrame.toDict NumberToString d h)) /\
  (forall NumberToString sep header path,
     keeps d h (DataFrame.toText NumberToString d sep header path h)) /\
  (forall A (func : Row.t + A -> Row.t -> A) init,
     keeps d h (DataFrame.reduce d func init h) /\
     keeps d h (DataFrame.reduceRight d func init h)) /\
  (forall other, keeps d h (DataFrame.union d other h)) /\
  (forall other, keeps d h (DataFrame.union other d h)) /\
  (forall other on how, keeps d h (DataFrame.join other d on how h)) /\
  (forall other on how, allocated h other -> keeps d h (DataFrame.join d other on how h)).
Proof.
  intros Hd.
  destruct (transformations_keep_receiver d h Hd)
    as (Hrestructure & HrenameAll & Hfilter & Hmap & Hchain & Hunion & Hunion' & Hjoin & Hjoin').
  assert (Hgrows : forall t, observe d (h ++ t) = observe d h)
    by (intros t; by apply observe_frame).
  unfold keeps. split_and!.
  - intros columns d' h'. apply Hrestructure.
  - intros columns d' h'. apply HrenameAll.
  - intros columnName replacement d' h'. unfold DataFrame.rename. apply HrenameAll.
  - intros condition d' h'. apply Hfilter.
  - intros condition row h'. unfold DataFrame.find. run.
    destruct (DataFrame.filter d condition h) as [[df h1]|] eqn:Hrun; [|done].
    intros [= _ <-]. by eapply Hfilter.
  - intros value columnName n h'. unfold DataFrame.countValue. run.
    destruct (DataFrame.filter d _ h) as [[df h1]|] eqn:Hrun; [|done].
    rewrite count_run. intros [= _ <-]. by eapply Hfilter.
  - intros func d' h'. apply Hmap.
  - intros value replacement columnNames d' h'. unfold DataFrame.replace. apply Hmap.
  - intros funcs d' h'. apply Hchain.
  - intros columnNames d' h'. unfold DataFrame.select. run.
    intros (t & ->)%newInstance_grows. apply Hgrows.
  - intros columnName func d' h'. unfold DataFrame.withColumn. run.
    intros (t & ->)%newInstance_grows. apply Hgrows.
  - intros columnName d' h'. unfold DataFrame.drop. run.
    intros (t & ->)%newInstance_grows. apply Hgrows.
  - intros columnName d' h'. unfold DataFrame.distinct, DataFrame.toArray_column. run.
    intros (t & ->)%newInstance_grows. apply Hgrows.
  - intros rows d' h'. unfold DataFrame.push. run. rewrite new_Array_run, union_run.
    case_bool_decide; [|done]. intros [= _ <-]. rewrite <- app_assoc. apply Hgrows.
  - intros NumberToString d' h'.
    destruct (transpose_run NumberToString d h) as (columns & _ & ->).
    intros [= _ <-]. apply Hgrows.
  - intros NumberToString dict h'. unfold DataFrame.toDict. run.
    destruct (transpose_run NumberToString d h) as (columns & _ & ->).
    rewrite toArray_run. intros [= _ <-]. apply Hgrows.
  - intros NumberToString sep header path text h'.
    rewrite toText_run. by intros [= _ <-].
  - intros A func init. split; intros r h'.
    + rewrite reduce_run. destruct init; [by intros [= _ <-]|].
      destruct (rows_of h d); [done|]. by intros [= _ <-].
    + rewrite reduceRight_run. destruct init; [by intros [= _ <-]|].
      destruct (rows_of h d); [done|]. by intros [= _ <-].
  - intros other d' h'. apply Hunion.
  - intros other d' h'. apply Hunion'.
  - intros other on how d' h'. apply Hjoin.
  - intros other on how Hother d' h'. by apply Hjoin'.
Qed.

Lemma only_sortBy_writes_witness :
  allocated example_heap example_table /\
  exists d' h',
    DataFrame.drop example_table "c1" example_heap = Ok (d', h') /\
    observe d' h' = (Ok 2, ["c2"], Ok [[VNum 2]; [VNum 4]]) /\
    observe example_table h' = observe example_table example_heap.
Proof.
  assert (Halloc : allocated example_heap example_table)
    by (unfold allocated; simpl; lia).
  split; [exact Halloc|].
  destruct (only_sortBy_writes example_table example_heap Halloc)
    as (_ & _ & _ & _ & _ & _ & _ & _ & _ & _ & _ & Hdrop & _).
  eexists _, _. split; [reflexivity|]. split; [reflexivity|].
  apply (Hdrop "c1" _ _ eq_refl).
Defined.

(** * Further properties of [modules/sql.js] *)

Lemma registerTable_listed (df : DataFrame.t) (n : string) (overwrite : bool)
    (tables : SQL.Tables) :
  SQL.registerTable (SQL.DataFrameObject df) n overwrite tables =
  if bool_decide (n ∈ SQL.listTables tables) && negb overwrite
  then Throw TableAlreadyExistsError
  else Ok (SQL.Object_set tables n (SQL.DataFrameObject df)).
Proof. reflexivity. Qed.

Lemma Tables_eq (tables tables' : SQL.Tables) :
  SQL.own tables = SQL.own tables' -> SQL.prototype tables = SQL.prototype tables' ->
  tables = tables'.
Proof. destruct tables, tables'. simpl. by intros -> ->. Qed.

(** X21. [df.sql.register(name, overwrite)] throws only
    [TableAlreadyExistsError], and exactly when the name is listed and
    [overwrite] is off; otherwise it returns [df] itself.  Then, for a
    name other than [__proto__], or one that is listed, the registry
    holds [df] as its own property of that name, its other own
    properties and its prototype being as they were, so that
    [listTables()] lists the name and the names it listed before.  For
    the name [__proto__], when it is not listed, [df] becomes the
    prototype of the registry and no property is added:
    [listTables()] lists what it listed before, and
    [SQL.tables['__proto__']] reads [df]. *)
Theorem register_spec (df : DataFrame.t) (n : string) (overwrite : bool)
    (tables : SQL.Tables) :
  (forall e,
     SQL.register (SQL.constructor df) n overwrite tables = Throw e <->
     e = TableAlreadyExistsError /\ n ∈ SQL.listTables tables /\ overwrite = false) /\
  (~ (n ∈ SQL.listTables tables /\ overwrite = false) ->
   exists tables',
     SQL.register (SQL.constructor df) n overwrite tables = Ok (df, tables') /\
     (n <> "__proto__" \/ n ∈ SQL.listTables tables ->
      SQL.own tables' !! n = Some (SQL.DataFrameObject df) /\
      (forall n', n' <> n -> SQL.own tables' !! n' = SQL.own tables !! n') /\
      SQL.prototype tables' = SQL.prototype tables /\
      (forall n', n' ∈ SQL.listTables tables' <-> n' = n \/ n' ∈ SQL.listTables tables)) /\
     (n = "__proto__" -> n ∉ SQL.listTables tables ->
      SQL.own tables' = SQL.own tables /\
      SQL.prototype tables' = Some (SQL.DataFrameObject df) /\
      SQL.listTables tables' = SQL.listTables tables /\
      SQL.Object_get tables' n = SQL.DataFrameObject df)).
Proof.
  unfold SQL.register, SQL.constructor. cbn [SQL.df].
  rewrite registerTable_listed.
  destruct (decide (n ∈ SQL.listTables tables /\ overwrite = false)) as [[Hn ->]|Hfree].
  - rewrite bool_decide_eq_true_2 by done. simpl. split.
    + intros e. split; [by intros [= <-]|by intros [-> _]].
    + intros Hfree. exfalso. by apply Hfree.
  - assert (Hgo : bool_decide (n ∈ SQL.listTables tables) && negb overwrite = false).
    { destruct overwrite; [apply andb_false_r|].
      rewrite bool_decide_eq_false_2; [done|]. intros Hn. by apply Hfree. }
    rewrite Hgo. cbn [mbind Result_bind]. split.
    + intros e. split; [done|]. intros (_ & Hn & ->). exfalso. by apply Hfree.
    + intros _. eexists. split; [reflexivity|]. split.
      * intros Hname. rewrite elem_of_listTables in Hname.
        rewrite (Object_set_own _ _ _ Hname). cbn [SQL.own SQL.prototype]. split_and!.
        -- by rewrite lookup_insert_eq.
        -- intros n' Hn'. by rewrite lookup_insert_ne.
        -- done.
        -- intros n'. rewrite !elem_of_listTables. cbn [SQL.own].
           destruct (decide (n' = n)) as [->|Hne].
           ++ rewrite lookup_insert_eq. split; [by left|by eexists].
           ++ rewrite lookup_insert_ne by done. split; [by right|by intros [?|?]].
      * intros -> Hnot. rewrite elem_of_listTables in Hnot.
        apply eq_None_not_Some in Hnot. rewrite (Object_set_prototype _ _ Hnot).
        split_and!; [done|done|done|].
        unfold SQL.Object_get. cbn [SQL.own SQL.prototype]. by rewrite Hnot.
Qed.

Lemma register_spec_witness :
  ~ ("other" ∈ SQL.listTables example_tables /\ false = false) /\
  ~ ("__proto__" ∈ SQL.listTables example_tables /\ false = false) /\
  SQL.register (SQL.constructor example_left) "tmp" false example_tables
    = Throw TableAlreadyExistsError /\
  (exists tables',
     SQL.register (SQL.constructor example_left) "other" false example_tables
       = Ok (example_left, tables') /\
     SQL.own tables' !! "other" = Some (SQL.DataFrameObject example_left) /\
     SQL.own tables' !! "tmp" = Some (SQL.DataFrameObject example_table)) /\
  (exists tables',
     SQL.register (SQL.constructor example_left) "__proto__" false example_tables
       = Ok (example_left, tables') /\
     SQL.listTables tables' = SQL.listTables example_tables /\
     SQL.prototype tables' = Some (SQL.DataFrameObject example_left)).
Proof.
  assert (Hfree : ~ ("other" ∈ SQL.listTables example_tables /\ false = false)).
  { intros [Hin _]. apply elem_of_listTables in Hin as [v Hv].
    unfold example_tables in Hv. simpl in Hv. by rewrite lookup_singleton_ne in Hv. }
  assert (Hproto : "__proto__" ∉ SQL.listTables example_tables).
  { intros [v Hv]%elem_of_listTables.
    unfold example_tables in Hv. simpl in Hv. by rewrite lookup_singleton_ne in Hv. }
  assert (Hfree' : ~ ("__proto__" ∈ SQL.listTables example_tables /\ false = false)).
  { intros [Hin _]. exact (Hproto Hin). }
  split; [exact Hfree|]. split; [exact Hfree'|]. split_and!.
  - apply (proj1 (register_spec example_left "tmp" false example_tables)).
    split; [done|]. split; [|done].
    apply elem_of_listTables. unfold example_tables. simpl.
    rewrite lookup_singleton_eq. by eexists.
  - destruct (proj2 (register_spec example_left "other" false example_tables) Hfree)
      as (tables' & Hrun & Hown & _).
    assert (Hname : "other" <> "__proto__") by discriminate.
    destruct (Hown (or_introl Hname)) as (Hnew & Hold & _).
    exists tables'. split_and!; [exact Hrun|exact Hnew|].
    rewrite Hold by done. unfold example_tables. simpl. by rewrite lookup_singleton_eq.
  - destruct (proj2 (register_spec example_left "__proto__" false example_tables) Hfree')
      as (tables' & Hrun & _ & Hset).
    destruct (Hset eq_refl Hproto) as (_ & Hprototype & Hlist & _).
    exists tables'. split_and!; [exact Hrun|exact Hlist|exact Hprototype].
Defined.

(** X22. [dropTable] removes the name from the own properties of the
    registry and nothing else: afterwards [listTables()] lists the
    other names it listed, each with the table it had, and the
    prototype is as it was; a name that is not listed is dropped
    without an error and without any change.  Registering a name that
    is not listed and is not [__proto__], and dropping it, gives the
    registry back; with the name [__proto__] the DataFrame stays
    behind as the prototype.  After [dropTables] nothing is listed,
    and registering a name other than [__proto__] gives the registry
    of that one table. *)
Theorem dropTable_spec (tableName : string) (tables : SQL.Tables) :
  (forall n, n ∈ SQL.listTables (SQL.dropTable tableName tables) <->
             n ∈ SQL.listTables tables /\ n <> tableName) /\
  (forall n, n <> tableName ->
             SQL.own (SQL.dropTable tableName tables) !! n = SQL.own tables !! n) /\
  SQL.prototype (SQL.dropTable tableName tables) = SQL.prototype tables /\
  (tableName ∉ SQL.listTables tables -> SQL.dropTable tableName tables = tables) /\
  (forall df overwrite,
     tableName <> "__proto__" ->
     tableName ∉ SQL.listTables tables ->
     (tables' ← SQL.registerTable (SQL.DataFrameObject df) tableName overwrite tables;
      Ok (SQL.dropTable tableName tables')) = Ok tables) /\
  (forall df overwrite,
     tableName = "__proto__" ->
     tableName ∉ SQL.listTables tables ->
     (tables' ← SQL.registerTable (SQL.DataFrameObject df) tableName overwrite tables;
      Ok (SQL.dropTable tableName tables')) =
     Ok {| SQL.own := SQL.own tables; SQL.prototype := Some (SQL.DataFrameObject df) |}) /\
  SQL.listTables (SQL.dropTables tables) = [] /\
  (forall df overwrite,
     tableName <> "__proto__" ->
     SQL.registerTable (SQL.DataFrameObject df) tableName overwrite (SQL.dropTables tables)
     = Ok {| SQL.own := {[ tableName := SQL.DataFrameObject df ]};
             SQL.prototype := None |}).
Proof.
  unfold SQL.dropTables. split_and!.
  - intros n. rewrite !elem_of_listTables. cbn [SQL.dropTable SQL.own].
    destruct (decide (n = tableName)) as [->|Hne].
    + rewrite lookup_delete_eq. split; [by intros [? ?]|by intros [_ ?]].
    + rewrite lookup_delete_ne by done. split; [done|by intros [? _]].
  - intros n Hne. cbn [SQL.dropTable SQL.own]. by rewrite lookup_delete_ne.
  - done.
  - rewrite elem_of_listTables. intros Hnot%eq_None_not_Some.
    apply Tables_eq; [|done]. cbn [SQL.dropTable SQL.own]. by apply delete_id.
  - intros df overwrite Hname. rewrite elem_of_listTables. intros Hnot%eq_None_not_Some.
    rewrite registerTable_DataFrame.
    rewrite bool_decide_eq_false_2 by (rewrite Hnot; by intros [? ?]).
    rewrite Object_set_own by by left.
    cbn. f_equal. apply Tables_eq; [|done]. cbn [SQL.dropTable SQL.own].
    rewrite delete_insert_eq. by apply delete_id.
  - intros df overwrite ->. rewrite elem_of_listTables. intros Hnot%eq_None_not_Some.
    rewrite registerTable_DataFrame.
    rewrite bool_decide_eq_false_2 by (rewrite Hnot; by intros [? ?]).
    rewrite Object_set_prototype by done.
    cbn. f_equal. apply Tables_eq; [|done]. cbn [SQL.dropTable SQL.own].
    by apply delete_id.
  - unfold SQL.listTables. cbn. by rewrite map_to_list_empty.
  - intros df overwrite Hname. rewrite registerTable_DataFrame.
    rewrite bool_decide_eq_false_2 by (cbn; rewrite lookup_empty; by intros [? ?]).
    rewrite Object_set_own by by left.
    cbn. by rewrite insert_empty.
Qed.

Lemma dropTable_spec_witness :
  "other" <> "__proto__" /\
  ("other" ∉ SQL.listTables example_tables) /\
  SQL.dropTable "other" example_tables = example_tables /\
  (tables' ← SQL.registerTable (SQL.DataFrameObject example_left) "other" false
               example_tables;
   Ok (SQL.dropTable "other" tables')) = Ok example_tables.
Proof.
  assert (Hname : "other" <> "__proto__") by discriminate.
  assert (Hfree : "other" ∉ SQL.listTables example_tables).
  { intros [v Hv]%elem_of_listTables.
    unfold example_tables in Hv. simpl in Hv. by rewrite lookup_singleton_ne in Hv. }
  destruct (dropTable_spec "other" example_tables) as (_ & _ & _ & Hid & Hround & _).
  split; [exact Hname|]. split; [exact Hfree|].
  split; [exact (Hid Hfree)|exact (Hround _ _ Hname Hfree)].
Defined.

(** X23. What [renameTable] does depends on what
    [SQL.tables[tableName]] reads.  On a registry with the prototype it
    starts with, a name that is not listed makes it throw: an
    [InputTypeError] when the name is [__proto__] or the name of a
    function of [Object.prototype] ([constructor], [toString], ...),
    which the registry inherits, and a [TypeError] for every other
    name, which reads [undefined].  For a name listed with a DataFrame
    it throws [TableAlreadyExistsError] exactly when the new name is
    listed and [overwrite] is off (so always, then, when the two names
    are the same); otherwise it returns, the old name is not listed
    any more, the own properties under other names than the two are
    as they were, and the new name, when it differs from the old one,
    holds the DataFrame, provided it is not [__proto__] or is listed;
    the new name [__proto__], when not listed, makes the DataFrame the
    prototype of the registry and stays unlisted.  Renaming a table to
    its own name with [overwrite] on removes it from the registry. *)
Theorem renameTable_spec (tableName replacement : string) (overwrite : bool)
    (tables : SQL.Tables) :
  (SQL.own tables !! tableName = None -> SQL.prototype tables = None ->
   (tableName = "__proto__" \/ tableName ∈ SQL.Object_prototype_functions ->
    SQL.renameTable tableName replacement overwrite tables = Throw InputTypeError) /\
   (tableName <> "__proto__" -> tableName ∉ SQL.Object_prototype_functions ->
    SQL.renameTable tableName replacement overwrite tables = Throw TypeError)) /\
  (forall df,
     SQL.own tables !! tableName = Some (SQL.DataFrameObject df) ->
     (SQL.renameTable tableName replacement overwrite tables
        = Throw TableAlreadyExistsError <->
      replacement ∈ SQL.listTables tables /\ overwrite = false) /\
     (~ (replacement ∈ SQL.listTables tables /\ overwrite = false) ->
      exists tables',
        SQL.renameTable tableName replacement overwrite tables = Ok tables' /\
        (tableName ∉ SQL.listTables tables') /\
        (forall n, n <> tableName -> n <> replacement ->
                   SQL.own tables' !! n = SQL.own tables !! n) /\
        (replacement <> "__proto__" \/ replacement ∈ SQL.listTables tables ->
         (replacement <> tableName ->
          SQL.own tables' !! replacement = Some (SQL.DataFrameObject df)) /\
         SQL.prototype tables' = SQL.prototype tables) /\
        (replacement = "__proto__" -> replacement ∉ SQL.listTables tables ->
         SQL.prototype tables' = Some (SQL.DataFrameObject df) /\
         (replacement ∉ SQL.listTables tables'))) /\
     (replacement = tableName -> overwrite = true ->
      SQL.renameTable tableName replacement overwrite tables =
        Ok (SQL.dropTable tableName tables))).
Proof.
  unfold SQL.renameTable. split.
  - intros Hown Hprototype. unfold SQL.Object_get. rewrite Hown, Hprototype.
    cbn [default SQL.property_of]. split.
    + intros [->|Hin].
      * reflexivity.
      * destruct (bool_decide (tableName = "__proto__")); [reflexivity|].
        by rewrite (bool_decide_eq_true_2 _ Hin).
    + intros Hname Hnot.
      rewrite (bool_decide_eq_false_2 _ Hname), (bool_decide_eq_false_2 _ Hnot).
      reflexivity.
  - intros df Hown. unfold SQL.Object_get. rewrite Hown.
    rewrite registerTable_listed. split_and!.
    + destruct (bool_decide (replacement ∈ SQL.listTables tables)) eqn:Hin;
        destruct overwrite; simpl.
      * split; [done|by intros [_ ?]].
      * apply bool_decide_eq_true in Hin. by split.
      * split; [done|by intros [_ ?]].
      * apply bool_decide_eq_false in Hin. split; [done|by intros [? _]].
    + intros Hfree.
      assert (Hgo : bool_decide (replacement ∈ SQL.listTables tables) && negb overwrite
                    = false).
      { destruct overwrite; [apply andb_false_r|].
        rewrite bool_decide_eq_false_2; [done|]. intros Hn. by apply Hfree. }
      rewrite Hgo. cbn [mbind Result_bind]. eexists. split; [reflexivity|].
      split_and!.
      * rewrite elem_of_listTables. cbn [SQL.dropTable SQL.own].
        rewrite lookup_delete_eq. by intros [? ?].
      * intros n Hn Hn'. cbn [SQL.dropTable SQL.own]. rewrite lookup_delete_ne by done.
        unfold SQL.Object_set.
        destruct (bool_decide (replacement = "__proto__") &&
                  bool_decide (SQL.own tables !! replacement = None));
          cbn [SQL.own]; [done|]. by rewrite lookup_insert_ne.
      * intros Hname. rewrite elem_of_listTables in Hname.
        rewrite (Object_set_own _ _ _ Hname). cbn [SQL.dropTable SQL.own SQL.prototype].
        split; [|done]. intros Hne. by rewrite lookup_delete_ne, lookup_insert_eq.
      * intros -> Hnot. rewrite elem_of_listTables in Hnot.
        assert (Hnone := proj2 (eq_None_not_Some _) Hnot).
        rewrite (Object_set_prototype _ _ Hnone). cbn [SQL.dropTable SQL.prototype].
        split; [done|]. rewrite elem_of_listTables. cbn [SQL.dropTable SQL.own].
        intros [v Hv]. apply lookup_delete_Some in Hv as [_ Hv]. apply Hnot. by eexists.
    + intros -> ->. rewrite andb_false_r. cbn [mbind Result_bind]. f_equal.
      rewrite Object_set_own by (right; by eexists).
      apply Tables_eq; [|done]. cbn [SQL.dropTable SQL.own]. by rewrite delete_insert_eq.
Qed.

Lemma renameTable_spec_witness :
  SQL.own example_tables !! "none" = None /\
  SQL.own example_tables !! "constructor" = None /\
  SQL.prototype example_tables = None /\
  SQL.own example_tables !! "tmp" = Some (SQL.DataFrameObject example_table) /\
  ~ ("new" ∈ SQL.listTables example_tables /\ false = false) /\
  SQL.renameTable "none" "new" false example_tables = Throw TypeError /\
  SQL.renameTable "constructor" "new" false example_tables = Throw InputTypeError /\
  SQL.renameTable "tmp" "tmp" true example_tables = Ok ∅ /\
  exists tables',
    SQL.renameTable "tmp" "new" false example_tables = Ok tables' /\
    ("tmp" ∉ SQL.listTables tables') /\
    SQL.own tables' !! "new" = Some (SQL.DataFrameObject example_table).
Proof.
  assert (Hnone : SQL.own example_tables !! "none" = None) by reflexivity.
  assert (Hinherited : SQL.own example_tables !! "constructor" = None) by reflexivity.
  assert (Hprototype : SQL.prototype example_tables = None) by reflexivity.
  assert (Htmp : SQL.own example_tables !! "tmp" = Some (SQL.DataFrameObject example_table))
    by reflexivity.
  assert (Hfree : ~ ("new" ∈ SQL.listTables example_tables /\ false = false)).
  { intros [[v Hv]%elem_of_listTables _]. discriminate. }
  split; [exact Hnone|]. split; [exact Hinherited|]. split; [exact Hprototype|].
  split; [exact Htmp|]. split; [exact Hfree|]. split_and!.
  - apply (proj1 (renameTable_spec "none" "new" false example_tables) Hnone Hprototype).
    + discriminate.
    + intros Hin. repeat (apply elem_of_cons in Hin as [Hin|Hin]; [discriminate|]).
      by apply elem_of_nil in Hin.
  - apply (proj1 (renameTable_spec "constructor" "new" false example_tables)
             Hinherited Hprototype).
    right. repeat constructor.
  - destruct (renameTable_spec "tmp" "tmp" true example_tables) as (_ & Hdf).
    destruct (Hdf example_table Htmp) as (_ & _ & Hself).
    rewrite (Hself eq_refl eq_refl). reflexivity.
  - destruct (renameTable_spec "tmp" "new" false example_tables) as (_ & Hdf).
    destruct (Hdf example_table Htmp) as (_ & Hgo & _).
    destruct (Hgo Hfree) as (tables' & Hrun & Hold & _ & Hnew & _).
    assert (Hname : "new" <> "__proto__") by discriminate.
    destruct (Hnew (or_introl Hname)) as (Hnew' & _).
    exists tables'. split_and!; [exact Hrun|exact Hold|by apply Hnew'].
Defined.
